(** * LMFlow conversation templates: a shallow embedding of
      [lmflow/utils/conversation_template/qwen.py] and [yi.py].

    The chat templates of the Qwen family are Jinja programs kept as Python
    string constants.  Each template is embedded here as a Rocq function from a
    rendering context (messages, tools, flags) to the stream of blocks that
    the compiled template yields; the generation tracker then turns that stream
    into the rendered text and the list of generation spans. *)

From Stdlib Require Import List String Ascii ZArith Lia Bool Arith.
Import ListNotations.
Open Scope list_scope.
Open Scope string_scope.

(** ** Python string methods used by the templates *)

Module Py.

(** Characters that string literals cannot hold directly. *)
Definition nl : string := String (ascii_of_nat 10) EmptyString.
Definition dq : string := String (ascii_of_nat 34) EmptyString.

(** [s.startswith(p)] *)
Fixpoint startswith (s p : string) {struct p} : bool :=
  match p with
  | EmptyString => true
  | String a p' =>
      match s with
      | EmptyString => false
      | String b s' => Ascii.eqb b a && startswith s' p'
      end
  end.

(** [s.endswith(p)] *)
Fixpoint endswith (s p : string) : bool :=
  match s with
  | EmptyString => String.eqb p EmptyString
  | String _ s' => String.eqb s p || endswith s' p
  end.

(** [sub in s] *)
Fixpoint contains (s sub : string) : bool :=
  startswith s sub ||
  match s with
  | EmptyString => false
  | String _ s' => contains s' sub
  end.

(** [c in chars], the character-set test behind [strip]. *)
Fixpoint mem (c : ascii) (chars : string) : bool :=
  match chars with
  | EmptyString => false
  | String d chars' => Ascii.eqb c d || mem c chars'
  end.

(** [s.lstrip(chars)] *)
Fixpoint lstrip (s chars : string) : string :=
  match s with
  | EmptyString => EmptyString
  | String c s' => if mem c chars then lstrip s' chars else s
  end.

(** [s.rstrip(chars)] *)
Fixpoint rstrip (s chars : string) : string :=
  match s with
  | EmptyString => EmptyString
  | String c s' =>
      match rstrip s' chars with
      | EmptyString => if mem c chars then EmptyString else String c EmptyString
      | r => String c r
      end
  end.

(** [s.strip(chars)] *)
Definition strip (s chars : string) : string := lstrip (rstrip s chars) chars.

(** [s.split(sep)] for a non-empty separator: a left-to-right scan for
    non-overlapping occurrences.  [skip] counts the characters of a matched
    separator that are still to be passed over, [cur] is the piece being
    accumulated. *)
Fixpoint split_go (sep : string) (skip : nat) (cur s : string) : list string :=
  match s with
  | EmptyString => [cur]
  | String c s' =>
      match skip with
      | S k => split_go sep k cur s'
      | O =>
          if startswith s sep
          then cur :: split_go sep (String.length sep - 1) EmptyString s'
          else split_go sep 0 (cur ++ String c EmptyString) s'
      end
  end.

Definition split (s sep : string) : list string := split_go sep 0 EmptyString s.

(** [l[0]] and [l[-1]] on the (never empty) result of [split]. *)
Definition first (l : list string) : string := List.hd EmptyString l.
Definition last (l : list string) : string := List.last l EmptyString.

(** Truthiness of a string. *)
Definition truthy (s : string) : bool :=
  match s with EmptyString => false | _ => true end.

(** The first character of [sep] occurs nowhere else in it, so two
    occurrences of [sep] in a text never overlap. *)
Definition head_unique (sep : string) : bool :=
  match sep with
  | EmptyString => false
  | String c t => negb (mem c t)
  end.

(** No occurrence of [sep] starts inside [a] when [a] is followed by [rest]. *)
Fixpoint no_start (sep a rest : string) : bool :=
  match a with
  | EmptyString => true
  | String _ a' => negb (startswith (a ++ rest) sep) && no_start sep a' rest
  end.

End Py.

(** ** Data model *)

#[local] Set Warnings "-register-all".

(** JSON-like values: tool specifications and tool-call arguments. *)
Inductive json : Type :=
| JNull
| JBool (b : bool)
| JNum (z : Z)
| JStr (s : string)
| JList (items : list json)
| JObj (fields : list (string * json)).

(** An attribute of a message that may be absent, [None], or set. *)
Inductive attr (A : Type) : Type :=
| Missing
| PyNone
| Present (a : A).
Arguments Missing {A}.
Arguments PyNone {A}.
Arguments Present {A} a.

Record FunctionCall := {
  name : string;
  arguments : json
}.

(** A tool call is either the pair itself or a wrapper holding it under
    [function] (the templates test [tool_call.function]). *)
Inductive ToolCall : Type :=
| Flat (f : FunctionCall)
| Wrapped (f : FunctionCall).

(** [tool_calls] is [[]] for a message without tool calls: a missing, [None]
    or empty [tool_calls] is falsy alike and is never iterated. *)
Record Message := {
  role : string;
  content : string;
  tool_calls : list ToolCall;
  reasoning_content : attr string
}.

Record Context := {
  messages : list Message;
  tools : option (list json);
  add_generation_prompt : bool;
  enable_thinking : option bool
}.

(** ** Evaluation results *)

Inductive EvalError : Type := UndefinedError.

Inductive result (A : Type) : Type :=
| Ok (a : A)
| Err (e : EvalError).
Arguments Ok {A} a.
Arguments Err {A} e.

Definition bind {A B : Type} (r : result A) (k : A -> result B) : result B :=
  match r with
  | Ok a => k a
  | Err e => Err e
  end.

Notation "x <- r ;; k" := (bind r (fun x => k))
  (at level 61, r at next level, right associativity).

(** [l[i]] followed by an attribute access: an index out of range gives
    Jinja's undefined value, and reading an attribute of it raises. *)
Definition item {A : Type} (l : list A) (i : nat) : result A :=
  match nth_error l i with
  | Some x => Ok x
  | None => Err UndefinedError
  end.

(** ** The blocks a template yields, and the generation tracker *)

(** A compiled template yields its output block by block.  [Out s] is the
    value of one output expression; [Generation body] is a
    generation ... endgeneration region whose body produced the pieces
    [body]. *)
Inductive block : Type :=
| Out (s : string)
| Generation (body : list string).

(** ["".join(l)] *)
Definition join (l : list string) : string :=
  fold_right String.append EmptyString l.

Definition Span : Type := (nat * nat)%type.

Record Tracker := {
  rendered_blocks : list string;
  generation_indices : list Span
}.

(** Modelled from the spec: the evaluator that records generation spans is
    not part of the sources.  A generation region records the length of the
    output before and after its body as one half-open span. *)
Definition track (tr : Tracker) (b : block) : Tracker :=
  match b with
  | Out s =>
      {| rendered_blocks := rendered_blocks tr ++ [s];
         generation_indices := generation_indices tr |}
  | Generation body =>
      let rv := join body in
      let start_index := String.length (join (rendered_blocks tr)) in
      let end_index := start_index + String.length rv in
      {| rendered_blocks := rendered_blocks tr ++ [rv];
         generation_indices := generation_indices tr ++ [(start_index, end_index)] |}
  end.

Definition empty_tracker : Tracker :=
  {| rendered_blocks := []; generation_indices := [] |}.

(** The rendered text and its generation spans. *)
Definition render_blocks (bs : list block) : string * list Span :=
  let tr := fold_left track bs empty_tracker in
  (join (rendered_blocks tr), generation_indices tr).

Definition render (r : result (list block)) : result (string * list Span) :=
  bs <- r ;; Ok (render_blocks bs).

(** [s[a:b]] *)
Definition slice (s : string) (a b : nat) : string := substring a (b - a) s.

(** The output cut at the span boundaries: gap, span, gap, span, ..., gap. *)
Fixpoint segments (out : string) (lo : nat) (spans : list Span) : list string :=
  match spans with
  | [] => [slice out lo (String.length out)]
  | (a, b) :: rest => slice out lo a :: slice out a b :: segments out b rest
  end.

(** ** Loops *)

(** Jinja's [loop] variable, computed from the position in the sequence. *)
Record Loop := {
  loop_index0 : nat;
  loop_first : bool;
  loop_last : bool
}.

Definition mk_loop (n i : nat) : Loop :=
  {| loop_index0 := i; loop_first := Nat.eqb i 0; loop_last := Nat.eqb (S i) n |}.

Fixpoint enumerate_from {A : Type} (n i : nat) (l : list A) : list (Loop * A) :=
  match l with
  | [] => []
  | x :: l' => (mk_loop n i, x) :: enumerate_from n (S i) l'
  end.

(** The iterations of [for x in l]: each element with its [loop]. *)
Definition iterations {A : Type} (l : list A) : list (Loop * A) :=
  enumerate_from (List.length l) 0 l.

(** A loop whose body yields blocks and may raise. *)
Definition for_each {A : Type} (l : list A)
    (body : Loop -> A -> result (list block)) : result (list block) :=
  fold_right
    (fun it acc => b <- body (fst it) (snd it) ;; bs <- acc ;; Ok (b ++ bs)%list)
    (Ok []) (iterations l).

(** ** The templates of [qwen.py] *)

Import Py.

(** Literal texts shared by the tool-capable templates. *)
Definition tools_intro : string :=
  "# Tools" ++ nl ++ nl
  ++ "You may call one or more functions to assist with the user query."
  ++ nl ++ nl
  ++ "You are provided with function signatures within <tools></tools> XML tags:"
  ++ nl ++ "<tools>".

Definition tools_outro : string :=
  nl ++ "</tools>" ++ nl ++ nl
  ++ "For each function call, return a json object with function name and arguments within <tool_call></tool_call> XML tags:"
  ++ nl ++ "<tool_call>" ++ nl
  ++ "{" ++ dq ++ "name" ++ dq ++ ": <function-name>, "
  ++ dq ++ "arguments" ++ dq ++ ": <args-json-object>}"
  ++ nl ++ "</tool_call><|im_end|>" ++ nl.

Definition im_start : string := "<|im_start|>".
Definition im_end : string := "<|im_end|>".

(** [if tools]: a missing or empty tool list is falsy. *)
Definition tools_given (ts : option (list json)) : list json :=
  match ts with
  | Some l => l
  | None => []
  end.

Definition nonempty {A : Type} (l : list A) : bool :=
  match l with [] => false | _ => true end.

(** [tool_call.function] when present, else the tool call itself. *)
Definition function_of (tool_call : ToolCall) : FunctionCall :=
  match tool_call with
  | Flat f => f
  | Wrapped f => f
  end.

(** What every tool-capable template emits for one tool message, between
    the opening and the closing of the wrapper. *)
Definition tool_response (message : Message) : list block :=
  [Out (nl ++ "<tool_response>" ++ nl); Out (content message);
   Out (nl ++ "</tool_response>")].

Section Templates.

(** The [tojson] filter. *)
Variable tojson : json -> string.

Definition tools_block (ts : list json) : list block :=
  flat_map (fun tool => [Out nl; Out (tojson tool)]) ts.

(** *** QWEN2_5_TEMPLATE and its siblings

    QWEN2_5_TEMPLATE, QWEN2_5_1M_TEMPLATE, QWEN2_5_MATH_TEMPLATE and
    QWEN_QWQ_TEMPLATE are the same program up to the default system prompt. *)

Section Qwen2_5.

Variable default_system : string.

Definition qwen2_5_header (ctx : Context) : result (list block) :=
  if nonempty (tools_given (tools ctx)) then
    m0 <- item (messages ctx) 0 ;;
    Ok ([Out (im_start ++ "system" ++ nl)]
        ++ (if String.eqb (role m0) "system"
            then [Out (content m0)]
            else [Out default_system])
        ++ [Out (nl ++ nl ++ tools_intro)]
        ++ tools_block (tools_given (tools ctx))
        ++ [Out tools_outro])%list
  else
    m0 <- item (messages ctx) 0 ;;
    if String.eqb (role m0) "system"
    then Ok [Out (im_start ++ "system" ++ nl ++ content m0 ++ im_end ++ nl)]
    else Ok [Out (im_start ++ "system" ++ nl ++ default_system ++ im_end ++ nl)].

Definition qwen2_5_tool_call (tool_call : ToolCall) : list block :=
  let tool_call := function_of tool_call in
  [Generation
     [nl ++ "<tool_call>" ++ nl ++ "{" ++ dq ++ "name" ++ dq ++ ": " ++ dq;
      name tool_call;
      dq ++ ", " ++ dq ++ "arguments" ++ dq ++ ": ";
      tojson (arguments tool_call);
      "}" ++ nl ++ "</tool_call>"]].

Definition qwen2_5_message (msgs : list Message) (loop : Loop)
    (message : Message) : result (list block) :=
  if String.eqb (role message) "user"
     || (String.eqb (role message) "system" && negb (loop_first loop))
     || (String.eqb (role message) "assistant"
         && negb (nonempty (tool_calls message)))
  then
    if String.eqb (role message) "assistant"
    then Ok [Out (im_start ++ role message ++ nl);
             Generation [content message ++ im_end ++ nl]]
    else Ok [Out (im_start ++ role message ++ nl ++ content message
                  ++ im_end ++ nl)]
  else if String.eqb (role message) "assistant" then
    Ok ([Out (im_start ++ role message)]
        ++ (if truthy (content message)
            then [Generation [(nl ++ content message)%string]]
            else [])
        ++ flat_map qwen2_5_tool_call (tool_calls message)
        ++ [Generation [(im_end ++ nl)%string]])%list
  else if String.eqb (role message) "tool" then
    opens <- (if Nat.eqb (loop_index0 loop) 0 then Ok true
              else prev <- item msgs (loop_index0 loop - 1) ;;
                   Ok (negb (String.eqb (role prev) "tool"))) ;;
    closes <- (if loop_last loop then Ok true
               else next <- item msgs (loop_index0 loop + 1) ;;
                    Ok (negb (String.eqb (role next) "tool"))) ;;
    Ok ((if opens then [Out (im_start ++ "user")] else [])
        ++ tool_response message
        ++ (if closes then [Out (im_end ++ nl)] else []))%list
  else Ok [].

Definition generation_prompt (ctx : Context) : list block :=
  if add_generation_prompt ctx
  then [Out (im_start ++ "assistant" ++ nl)]
  else [].

Definition qwen2_5 (ctx : Context) : result (list block) :=
  header <- qwen2_5_header ctx ;;
  body <- for_each (messages ctx) (qwen2_5_message (messages ctx)) ;;
  Ok (header ++ body ++ generation_prompt ctx)%list.

End Qwen2_5.

Definition QWEN2_5_TEMPLATE : Context -> result (list block) :=
  qwen2_5 "You are Qwen, created by Alibaba Cloud. You are a helpful assistant.".

Definition QWEN2_5_1M_TEMPLATE : Context -> result (list block) :=
  qwen2_5 "You are a helpful assistant.".

Definition QWEN2_5_MATH_TEMPLATE : Context -> result (list block) :=
  qwen2_5 "Please reason step by step, and put your final answer within \boxed{}.".

Definition QWEN_QWQ_TEMPLATE : Context -> result (list block) :=
  qwen2_5 "You are a helpful and harmless assistant. You are Qwen developed by Alibaba. You should think step-by-step.".

(** *** QWEN3_TEMPLATE *)

(** The namespace object [ns]: the one mutable object of a render. *)
Record Namespace := {
  multi_step_tool : bool;
  last_query_index : Z
}.

(** Namespace objects live in a store; [namespace(...)] allocates a fresh
    one and answers its reference. *)
Definition Store : Type := list Namespace.

Definition namespace (init : Namespace) (st : Store) : nat * Store :=
  (List.length st, (st ++ [init])%list).

Definition ns_read (ns : nat) (st : Store) : option Namespace := nth_error st ns.

Fixpoint ns_update (ns : nat) (f : Namespace -> Namespace) (st : Store) : Store :=
  match st with
  | [] => []
  | v :: st' =>
      match ns with
      | O => f v :: st'
      | S k => v :: ns_update k f st'
      end
  end.

Definition set_multi_step_tool (b : bool) (v : Namespace) : Namespace :=
  {| multi_step_tool := b; last_query_index := last_query_index v |}.

Definition set_last_query_index (i : Z) (v : Namespace) : Namespace :=
  {| multi_step_tool := multi_step_tool v; last_query_index := i |}.

(** A user turn that is not a wrapped tool-response echo. *)
Definition is_query (message : Message) : bool :=
  String.eqb (role message) "user"
  && negb (startswith (content message) "<tool_response>"
           && endswith (content message) "</tool_response>").

(** [index = (messages|length - 1) - loop.index0] *)
Definition scan_index (msgs : list Message) (loop : Loop) : Z :=
  (Z.of_nat (List.length msgs) - 1 - Z.of_nat (loop_index0 loop))%Z.

(** One iteration of the loop over [messages[::-1]]. *)
Definition qwen3_scan_step (msgs : list Message) (ns : nat) (st : Store)
    (loop : Loop) (message : Message) : Store :=
  let index := scan_index msgs loop in
  match ns_read ns st with
  | Some v =>
      if multi_step_tool v && is_query message
      then ns_update ns (set_last_query_index index)
             (ns_update ns (set_multi_step_tool false) st)
      else st
  | None => st
  end.

(** [messages[::-1]] *)
Definition reversed (msgs : list Message) : list Message := rev msgs.

Definition qwen3_scan (msgs : list Message) (ns : nat) (st : Store) : Store :=
  fold_left (fun st it => qwen3_scan_step msgs ns st (fst it) (snd it))
    (iterations (reversed msgs)) st.

(** The pair ([content], [reasoning_content]) an assistant message is
    rendered from. *)
Definition qwen3_thinking (message : Message) : string * string :=
  match reasoning_content message with
  | Present r => (content message, r)
  | _ =>
      if contains (content message) "</think>"
      then (lstrip (last (split (content message) "</think>")) nl,
            lstrip
              (last (split (rstrip (first (split (content message) "</think>")) nl)
                       "<think>"))
              nl)
      else (content message, EmptyString)
  end.

Definition qwen3_assistant_head (v : Namespace) (loop : Loop)
    (message : Message) : string :=
  let content' := fst (qwen3_thinking message) in
  let reasoning_content' := snd (qwen3_thinking message) in
  if (Z.of_nat (loop_index0 loop) >? last_query_index v)%Z then
    if loop_last loop || (negb (loop_last loop) && truthy reasoning_content')
    then im_start ++ role message ++ nl ++ "<think>" ++ nl
         ++ strip reasoning_content' nl ++ nl ++ "</think>" ++ nl ++ nl
         ++ lstrip content' nl
    else im_start ++ role message ++ nl ++ content'
  else im_start ++ role message ++ nl ++ content'.

Definition qwen3_arguments (tool_call : FunctionCall) : string :=
  match arguments tool_call with
  | JStr s => s
  | a => tojson a
  end.

(** One iteration of the loop over [message.tool_calls]. *)
Definition qwen3_tool_call (content' : string) (loop : Loop)
    (tool_call : ToolCall) : list string :=
  ((if (loop_first loop && truthy content') || negb (loop_first loop)
    then [nl] else [])
   ++ (let tool_call := function_of tool_call in
       [("<tool_call>" ++ nl ++ "{" ++ dq ++ "name" ++ dq ++ ": " ++ dq)%string;
        name tool_call;
        (dq ++ ", " ++ dq ++ "arguments" ++ dq ++ ": ")%string;
        qwen3_arguments tool_call;
        ("}" ++ nl ++ "</tool_call>")%string]))%list.

Definition qwen3_tool_calls (message : Message) : list string :=
  if nonempty (tool_calls message)
  then flat_map
         (fun it => qwen3_tool_call (fst (qwen3_thinking message)) (fst it) (snd it))
         (iterations (tool_calls message))
  else [].

Definition qwen3_message (v : Namespace) (msgs : list Message) (loop : Loop)
    (message : Message) : result (list block) :=
  if String.eqb (role message) "user"
     || (String.eqb (role message) "system" && negb (loop_first loop))
  then Ok [Out (im_start ++ role message ++ nl ++ content message
                ++ im_end ++ nl)]
  else if String.eqb (role message) "assistant" then
    Ok [Generation
          (qwen3_assistant_head v loop message
           :: qwen3_tool_calls message ++ [(im_end ++ nl)%string])%list]
  else if String.eqb (role message) "tool" then
    opens <- (if loop_first loop then Ok true
              else prev <- item msgs (loop_index0 loop - 1) ;;
                   Ok (negb (String.eqb (role prev) "tool"))) ;;
    closes <- (if loop_last loop then Ok true
               else next <- item msgs (loop_index0 loop + 1) ;;
                    Ok (negb (String.eqb (role next) "tool"))) ;;
    Ok ((if opens then [Out (im_start ++ "user")] else [])
        ++ tool_response message
        ++ (if closes then [Out (im_end ++ nl)] else []))%list
  else Ok [].

Definition qwen3_header (ctx : Context) : result (list block) :=
  if nonempty (tools_given (tools ctx)) then
    m0 <- item (messages ctx) 0 ;;
    Ok ([Out (im_start ++ "system" ++ nl)]
        ++ (if String.eqb (role m0) "system"
            then [Out (content m0 ++ nl ++ nl)]
            else [])
        ++ [Out tools_intro]
        ++ tools_block (tools_given (tools ctx))
        ++ [Out tools_outro])%list
  else
    m0 <- item (messages ctx) 0 ;;
    if String.eqb (role m0) "system"
    then Ok [Out (im_start ++ "system" ++ nl ++ content m0 ++ im_end ++ nl)]
    else Ok [].

Definition qwen3_generation_prompt (ctx : Context) : list block :=
  if add_generation_prompt ctx
  then (Out (im_start ++ "assistant" ++ nl)
        :: match enable_thinking ctx with
           | Some false => [Out ("<think>" ++ nl ++ nl ++ "</think>" ++ nl ++ nl)]
           | _ => []
           end)
  else [].

(** [namespace(multi_step_tool=true, last_query_index=messages|length - 1)] *)
Definition qwen3_namespace_init (msgs : list Message) : Namespace :=
  {| multi_step_tool := true;
     last_query_index := (Z.of_nat (List.length msgs) - 1)%Z |}.

(** The template run against a store of namespace objects.  The main loop
    never writes to [ns], so the value it reads is the one left by the scan. *)
Definition qwen3_run (ctx : Context) (st : Store) : result (list block) * Store :=
  match qwen3_header ctx with
  | Err e => (Err e, st)
  | Ok header =>
      let init := qwen3_namespace_init (messages ctx) in
      let ns := fst (namespace init st) in
      let st1 := snd (namespace init st) in
      let st2 := qwen3_scan (messages ctx) ns st1 in
      match ns_read ns st2 with
      | None => (Err UndefinedError, st2)
      | Some v =>
          (body <- for_each (messages ctx) (qwen3_message v (messages ctx)) ;;
           Ok (header ++ body ++ qwen3_generation_prompt ctx)%list,
           st2)
      end
  end.

Definition QWEN3_TEMPLATE (ctx : Context) : result (list block) :=
  fst (qwen3_run ctx []).

End Templates.

(** ** The declarative templates of [qwen.py] and [yi.py] *)

Module Declarative.

Definition message_role (m : Message) : string := role m.
Definition message_content (m : Message) : string := content m.

(** [TemplateComponent(type=..., content=...)] *)
Record TemplateComponent := {
  type : string;
  content : string
}.

(** [StringFormatter(template=[...])] *)
Record StringFormatter := {
  template : list TemplateComponent
}.

(** [ConversationTemplate(...)]; [separator] is [None] when not given. *)
Record ConversationTemplate := {
  template_name : string;
  user_formatter : StringFormatter;
  assistant_formatter : StringFormatter;
  system_formatter : StringFormatter;
  separator : option TemplateComponent
}.

Definition QWEN2_TEMPLATE : ConversationTemplate :=
  {| template_name := "qwen2";
     user_formatter :=
       {| template := [{| type := "string";
                          content := "<|im_start|>user" ++ nl ++ "{{content}}<|im_end|>" ++ nl |}] |};
     assistant_formatter :=
       {| template := [{| type := "string";
                          content := "<|im_start|>assistant" ++ nl ++ "{{content}}<|im_end|>" ++ nl |}] |};
     system_formatter :=
       {| template := [{| type := "string";
                          content := "<|im_start|>system" ++ nl ++ "{{content}}<|im_end|>" ++ nl |}] |};
     separator := Some {| type := "string"; content := nl |} |}.

Definition YI1_5_TEMPLATE : ConversationTemplate :=
  {| template_name := "yi1_5";
     user_formatter :=
       {| template := [{| type := "string";
                          content := "<|im_start|>user" ++ nl ++ "{{content}}<|im_end|>" ++ nl |}] |};
     assistant_formatter :=
       {| template := [{| type := "string";
                          content := "<|im_start|>assistant" ++ nl ++ "{{content}}<|im_end|>" ++ nl |}] |};
     system_formatter :=
       {| template := [{| type := "string"; content := "{{content}}" |}] |};
     separator := None |}.

Inductive Error : Type := UnsupportedRole (r : string).

(** The placeholder of a string component. *)
Definition placeholder : string := "{{content}}".

(** [s.replace(old, new)] for a non-empty [old]: every occurrence found by a
    left-to-right scan is replaced; [skip] counts the characters of a matched
    occurrence still to be passed over. *)
Fixpoint replace_go (old new : string) (skip : nat) (s : string) : string :=
  match s with
  | EmptyString => EmptyString
  | String c s' =>
      match skip with
      | S k => replace_go old new k s'
      | O =>
          if startswith s old
          then new ++ replace_go old new (String.length old - 1) s'
          else String c (replace_go old new 0 s')
      end
  end.

Definition replace (s old new : string) : string := replace_go old new 0 s.

(** Modelled from the spec: [base.py], which holds the formatter and the
    conversation template classes, is not part of the sources.  "Substitutes
    content into the formatter's single Placeholder and concatenates all
    components in order; SpecialToken components render to their symbolic
    text form." *)
Definition render_component (c : TemplateComponent) (value : string) : string :=
  if String.eqb (type c) "string"
  then replace (content c) placeholder value
  else content c.

Definition render_formatter (f : StringFormatter) (value : string) : string :=
  join (map (fun c => render_component c value) (template f)).

(** Modelled from the spec: the formatter matching a role; "unknown roles
    fail with Error::UnsupportedRole". *)
Definition formatter_for (t : ConversationTemplate) (r : string)
  : Error + StringFormatter :=
  if String.eqb r "system" then inr (system_formatter t)
  else if String.eqb r "user" then inr (user_formatter t)
  else if String.eqb r "assistant" then inr (assistant_formatter t)
  else inl (UnsupportedRole r).

Definition separator_text (t : ConversationTemplate) : string :=
  match separator t with
  | Some c => content c
  | None => EmptyString
  end.

(** [sep.join(parts)] *)
Fixpoint join_with (sep : string) (parts : list string) : string :=
  match parts with
  | [] => EmptyString
  | [x] => x
  | x :: rest => x ++ sep ++ join_with sep rest
  end.

Fixpoint render_each (t : ConversationTemplate) (msgs : list Message)
  : Error + list string :=
  match msgs with
  | [] => inr []
  | m :: rest =>
      match formatter_for t (message_role m) with
      | inl e => inl e
      | inr f =>
          match render_each t rest with
          | inl e => inl e
          | inr parts => inr (render_formatter f (message_content m) :: parts)
          end
      end
  end.

(** Modelled from the spec: "dispatches each message to the formatter
    matching its role, joining successive rendered messages with
    separator". *)
Definition render (t : ConversationTemplate) (msgs : list Message)
  : Error + string :=
  match render_each t msgs with
  | inl e => inl e
  | inr parts => inr (join_with (separator_text t) parts)
  end.

End Declarative.

(** ** Vocabulary of the statements *)

(** *** Span lists *)

(** Spans listed in increasing order from [lo], none past [n], each
    starting where the previous one ended or later. *)
Fixpoint spans_chain (lo : nat) (spans : list Span) (n : nat) : Prop :=
  match spans with
  | [] => lo <= n
  | (a, b) :: rest => lo <= a /\ a <= b /\ spans_chain b rest n
  end.

(** Start offsets never decrease along the list. *)
Definition starts_monotone (spans : list Span) : Prop :=
  forall i j p q, i <= j ->
    nth_error spans i = Some p -> nth_error spans j = Some q -> fst p <= fst q.

(** A span ends before any later span starts. *)
Definition non_overlapping (spans : list Span) : Prop :=
  forall i j p q, i < j ->
    nth_error spans i = Some p -> nth_error spans j = Some q -> snd p <= fst q.

(** Every span is a half-open range of [0, n). *)
Definition within (spans : list Span) (n : nat) : Prop :=
  forall p, In p spans -> fst p <= snd p /\ snd p <= n.

(** The invariant of the tracker. *)
Definition tracker_ok (tr : Tracker) : Prop :=
  spans_chain 0 (generation_indices tr) (String.length (join (rendered_blocks tr))).

Definition shift (k : nat) (p : Span) : Span := (k + fst p, k + snd p).

Definition is_out (b : block) : bool :=
  match b with
  | Out _ => true
  | Generation _ => false
  end.

Definition all_out (bs : list block) : bool := forallb is_out bs.

(** A tracker continued by what another one recorded from scratch. *)
Definition tracker_app (tr t : Tracker) : Tracker :=
  {| rendered_blocks := (rendered_blocks tr ++ rendered_blocks t)%list;
     generation_indices :=
       (generation_indices tr
        ++ map (shift (String.length (join (rendered_blocks tr)))) (generation_indices t))%list |}.

(** The Jinja templates of [qwen.py]. *)
Definition jinja_templates (tojson : json -> string)
  : list (Context -> result (list block)) :=
  [QWEN2_5_TEMPLATE tojson; QWEN2_5_1M_TEMPLATE tojson;
   QWEN2_5_MATH_TEMPLATE tojson; QWEN_QWQ_TEMPLATE tojson;
   QWEN3_TEMPLATE tojson].

(** *** Loops *)

(** The blocks of a result, none for an error. *)
Definition emitted (r : result (list block)) : list block :=
  match r with
  | Ok bs => bs
  | Err _ => []
  end.

(** The body of a loop run over given iterations. *)
Definition run_iterations {A : Type} (body : Loop -> A -> result (list block))
    (its : list (Loop * A)) : result (list block) :=
  fold_right
    (fun it acc => b <- body (fst it) (snd it) ;; bs <- acc ;; Ok (b ++ bs)%list)
    (Ok []) its.

(** The position of the first element that satisfies [p]. *)
Fixpoint find_first {A : Type} (p : A -> bool) (l : list A) : option nat :=
  match l with
  | [] => None
  | x :: l' => if p x then Some 0 else option_map S (find_first p l')
  end.

(** *** The wrapper of tool messages *)

Definition is_tool (m : Message) : Prop := role m = "tool".

Definition has_role (r : string) (m : option Message) : bool :=
  match m with
  | Some p => String.eqb (role p) r
  | None => false
  end.

(** The message is first, or the one before it is not a tool message. *)
Definition wrapper_opens (msgs : list Message) (i : nat) : bool :=
  Nat.eqb i 0 || negb (has_role "tool" (nth_error msgs (i - 1))).

(** The message is last, or the one after it is not a tool message. *)
Definition wrapper_closes (msgs : list Message) (i : nat) : bool :=
  Nat.eqb (S i) (List.length msgs) || negb (has_role "tool" (nth_error msgs (i + 1))).

(** The literal that opens the synthetic user turn. *)
Definition wrapper_open : block := Out (im_start ++ "user").

(** The literal that closes it. *)
Definition wrapper_close : block := Out (im_end ++ nl).

Definition tool_blocks (msgs : list Message) (i : nat) (m : Message) : list block :=
  ((if wrapper_opens msgs i then [wrapper_open] else [])
   ++ tool_response m
   ++ (if wrapper_closes msgs i then [wrapper_close] else []))%list.

(** What a message loop does with tool messages: the two guards of a single
    tool message, and the one wrapper around a maximal run of them.  In the
    second part [pre], [run] and [post] cut the message list so that [run] is a
    maximal run of tool messages: the last message of [pre] and the first of
    [post], if any, are not tool messages. *)
Definition batches_tool_messages
    (body : list Message -> Loop -> Message -> result (list block)) : Prop :=
  (forall msgs i m, nth_error msgs i = Some m -> is_tool m ->
     exists opens closes : bool,
       body msgs (mk_loop (List.length msgs) i) m
       = Ok ((if opens then [wrapper_open] else [])
             ++ tool_response m
             ++ (if closes then [wrapper_close] else []))%list
       /\ (opens = true <->
           i = 0 \/ exists p, nth_error msgs (i - 1) = Some p /\ role p <> "tool")
       /\ (closes = true <->
           i = List.length msgs - 1
           \/ exists p, nth_error msgs (i + 1) = Some p /\ role p <> "tool"))
  /\ (forall pre run post,
        run <> [] -> Forall is_tool run ->
        has_role "tool" (nth_error pre (List.length pre - 1)) = false ->
        has_role "tool" (nth_error post 0) = false ->
        let msgs := (pre ++ run ++ post)%list in
        let blocks_of its :=
          flat_map (fun it => emitted (body msgs (fst it) (snd it))) its in
        for_each msgs (body msgs)
        = Ok (blocks_of (enumerate_from (List.length msgs) 0 pre)
              ++ [wrapper_open] ++ flat_map tool_response run ++ [wrapper_close]
              ++ blocks_of (enumerate_from (List.length msgs)
                              (List.length pre + List.length run) post))%list).

(** *** The namespace of QWEN3_TEMPLATE *)

(** The value of [ns] that the main loop of QWEN3_TEMPLATE reads: the scan
    run on a store holding nothing else. *)
Definition qwen3_namespace (msgs : list Message) : Namespace :=
  match ns_read 0 (qwen3_scan msgs 0 [qwen3_namespace_init msgs]) with
  | Some v => v
  | None => qwen3_namespace_init msgs
  end.

(** The scan on values instead of store cells. *)
Definition scan_value (msgs : list Message) (v : Namespace)
    (it : Loop * Message) : Namespace :=
  if multi_step_tool v && is_query (snd it)
  then set_last_query_index (scan_index msgs (fst it)) (set_multi_step_tool false v)
  else v.

(** The render proper, with the namespace already resolved. *)
Definition qwen3_blocks (tojson : json -> string) (ctx : Context)
  : result (list block) :=
  header <- qwen3_header tojson ctx ;;
  body <- for_each (messages ctx)
            (qwen3_message tojson (qwen3_namespace (messages ctx)) (messages ctx)) ;;
  Ok (header ++ body ++ qwen3_generation_prompt ctx)%list.

(** The content both starts with '<tool_response>' and ends with
    '</tool_response>'. *)
Definition wrapped_tool_response (s : string) : Prop :=
  (exists t, s = "<tool_response>" ++ t) /\ (exists t, s = t ++ "</tool_response>").

(** A true user query: a user message that is not a wrapped tool response. *)
Definition true_user_query (m : Message) : Prop :=
  role m = "user" /\ ~ wrapped_tool_response (content m).

(** Position [k] holds the last true user query. *)
Definition last_query_at (msgs : list Message) (k : nat) : Prop :=
  (exists q, nth_error msgs k = Some q /\ true_user_query q)
  /\ forall j y, k < j -> nth_error msgs j = Some y -> ~ true_user_query y.

(** No message is a true user query. *)
Definition no_query (msgs : list Message) : Prop :=
  forall y, In y msgs -> ~ true_user_query y.

(** *** Assistant turns of QWEN3_TEMPLATE *)

(** The head of an assistant turn with its think block re-emitted. *)
Definition think_head (reasoning content' : string) : string :=
  im_start ++ "assistant" ++ nl ++ "<think>" ++ nl ++ strip reasoning nl ++ nl
  ++ "</think>" ++ nl ++ nl ++ lstrip content' nl.

(** The same head with the content appended as it is, not stripped. *)
Definition think_head_unstripped (reasoning content' : string) : string :=
  im_start ++ "assistant" ++ nl ++ "<think>" ++ nl ++ strip reasoning nl ++ nl
  ++ "</think>" ++ nl ++ nl ++ content'.

(** The head of an assistant turn without think block. *)
Definition plain_head (content' : string) : string :=
  im_start ++ "assistant" ++ nl ++ content'.

(** One leading newline removed, if there is one. *)
Definition drop_one_newline (s : string) : string :=
  match s with
  | String c s' => if Ascii.eqb c (ascii_of_nat 10) then s' else s
  | EmptyString => EmptyString
  end.

(** The text of one tool call:
    '<tool_call>\n{"name": "NAME", "arguments": ARGS}\n</tool_call>' *)
Definition tool_call_text (NAME ARGS : string) : string :=
  "<tool_call>" ++ nl ++ "{" ++ dq ++ "name" ++ dq ++ ": " ++ dq ++ NAME ++ dq
  ++ ", " ++ dq ++ "arguments" ++ dq ++ ": " ++ ARGS ++ "}" ++ nl ++ "</tool_call>".

(** *** Flags *)

Definition with_generation_prompt (b : bool) (ctx : Context) : Context :=
  {| messages := messages ctx; tools := tools ctx;
     add_generation_prompt := b; enable_thinking := enable_thinking ctx |}.

(** The text appended after the assistant header when thinking is switched
    off: [enable_thinking is defined and enable_thinking is false]. *)
Definition empty_think (ctx : Context) : string :=
  match enable_thinking ctx with
  | Some false => "<think>" ++ nl ++ nl ++ "</think>" ++ nl ++ nl
  | _ => EmptyString
  end.

(** *** Sample inputs *)

(** A serializer to run the templates with: strings quoted, the rest as an
    empty object. *)
Definition sample_tojson (j : json) : string :=
  match j with
  | JStr s => dq ++ s ++ dq
  | _ => "{}"
  end.

Definition sample_message (r c : string) : Message :=
  {| role := r; content := c; tool_calls := []; reasoning_content := Missing |}.

Definition sample_context (msgs : list Message) : Context :=
  {| messages := msgs; tools := None;
     add_generation_prompt := false; enable_thinking := None |}.

(** An assistant turn with two tool calls: string arguments under a
    [function] wrapper, and object arguments given flat. *)
Definition sample_tool_message : Message :=
  {| role := "assistant"; content := EmptyString;
     tool_calls :=
       [Wrapped {| name := "search"; arguments := JStr "{}" |};
        Flat {| name := "add"; arguments := JObj [("x", JNum 1)] |}];
     reasoning_content := Missing |}.

(** ** Vocabulary of the further properties *)

(** *** Texts of blocks and of spans *)

(** The text a block contributes to the output. *)
Definition block_text (b : block) : string :=
  match b with
  | Out s => s
  | Generation body => join body
  end.

Definition text_of (bs : list block) : string := join (map block_text bs).

(** The texts of the generation regions of a block stream, in order. *)
Definition generation_texts (bs : list block) : list string :=
  flat_map
    (fun b => match b with
              | Out _ => []
              | Generation body => [join body]
              end)
    bs.

(** The texts the spans cut out of the output, in order. *)
Definition span_texts (out : string) (spans : list Span) : list string :=
  map (fun p => slice out (fst p) (snd p)) spans.


(** *** What the templates mark as generation targets *)

Definition is_assistant (m : Message) : bool := String.eqb (role m) "assistant".

(** The text of an assistant turn of QWEN3_TEMPLATE: its head, its tool
    calls and the end-of-turn marker. *)
Definition qwen3_turn_text (tojson : json -> string) (v : Namespace)
    (it : Loop * Message) : string :=
  join (qwen3_assistant_head v (fst it) (snd it)
        :: qwen3_tool_calls tojson (snd it) ++ [(im_end ++ nl)%string])%list.

Definition qwen3_targets (tojson : json -> string) (msgs : list Message)
  : list string :=
  map (qwen3_turn_text tojson (qwen3_namespace msgs))
    (filter (fun it => is_assistant (snd it)) (iterations msgs)).

(** The generation regions of an assistant turn of QWEN2_5_TEMPLATE and its
    siblings: the content with the end-of-turn marker when there are no tool
    calls; otherwise the content if any, each tool call, and the marker. *)
Definition qwen2_5_targets_of (tojson : json -> string) (m : Message)
  : list string :=
  if nonempty (tool_calls m)
  then ((if truthy (content m) then [(nl ++ content m)%string] else [])
        ++ map (fun tool_call =>
                  (nl ++ tool_call_text (name (function_of tool_call))
                           (tojson (arguments (function_of tool_call))))%string)
            (tool_calls m)
        ++ [(im_end ++ nl)%string])%list
  else [(content m ++ im_end ++ nl)%string].

Definition qwen2_5_targets (tojson : json -> string) (msgs : list Message)
  : list string :=
  flat_map (qwen2_5_targets_of tojson) (filter is_assistant msgs).


(** QWEN2_5_TEMPLATE and its three siblings. *)
Definition qwen2_5_templates (tojson : json -> string)
  : list (Context -> result (list block)) :=
  [QWEN2_5_TEMPLATE tojson; QWEN2_5_1M_TEMPLATE tojson;
   QWEN2_5_MATH_TEMPLATE tojson; QWEN_QWQ_TEMPLATE tojson].

(** A conversation with a tool-calling assistant turn and its tool
    responses. *)
Definition sample_tool_conversation : list Message :=
  [sample_message "user" "q"; sample_tool_message;
   sample_message "tool" "r1"; sample_message "tool" "r2";
   sample_message "assistant" "done"].


(** *** Growing a conversation *)

Definition with_messages (msgs : list Message) (ctx : Context) : Context :=
  {| messages := msgs; tools := tools ctx;
     add_generation_prompt := add_generation_prompt ctx;
     enable_thinking := enable_thinking ctx |}.

(** The context with one more message at the end. *)
Definition append_message (m : Message) (ctx : Context) : Context :=
  with_messages (messages ctx ++ [m])%list ctx.

(** The text that [add_generation_prompt] appends in QWEN2_5_TEMPLATE and its
    siblings. *)
Definition assistant_header : string := im_start ++ "assistant" ++ nl.

(** The text that [add_generation_prompt] appends in QWEN3_TEMPLATE. *)
Definition qwen3_prompt_text (ctx : Context) : string :=
  assistant_header ++ empty_think ctx.

(** What an assistant turn of QWEN3_TEMPLATE adds after the generation
    prompt when it answers the last user query. *)
Definition qwen3_completion (tojson : json -> string) (ctx : Context)
    (a : Message) : string :=
  (match enable_thinking ctx with
   | Some false => EmptyString
   | _ => "<think>" ++ nl ++ strip (snd (qwen3_thinking a)) nl ++ nl
          ++ "</think>" ++ nl ++ nl
   end)
  ++ lstrip (fst (qwen3_thinking a)) nl
  ++ join (qwen3_tool_calls tojson a) ++ im_end ++ nl.


(** *** Default system prompts and think blocks *)

(** Each Qwen2.5 template with its default system prompt. *)
Definition qwen2_5_defaults (tojson : json -> string)
  : list ((Context -> result (list block)) * string) :=
  [(QWEN2_5_TEMPLATE tojson,
    "You are Qwen, created by Alibaba Cloud. You are a helpful assistant.");
   (QWEN2_5_1M_TEMPLATE tojson, "You are a helpful assistant.");
   (QWEN2_5_MATH_TEMPLATE tojson,
    "Please reason step by step, and put your final answer within \boxed{}.");
   (QWEN_QWQ_TEMPLATE tojson,
    "You are a helpful and harmless assistant. You are Qwen developed by Alibaba. You should think step-by-step.")].

(** The content of an assistant turn as QWEN3_TEMPLATE writes it after the
    assistant header when it re-emits the think block. *)
Definition think_content (R C : string) : string :=
  "<think>" ++ nl ++ R ++ nl ++ "</think>" ++ nl ++ nl ++ C.


(** ** Grouping tokenized texts ([pipeline/finetuner.py])

    [Finetuner.group_text] picks a block size and maps the inner function
    [group_texts] over batches of tokenized examples.  A batch is a dict from
    column names to lists of token lists; its key order matters, since the
    total length is read off the first key, so it is an association list. *)

Module Finetuner.

Inductive PyError : Type := IndexError | ZeroDivisionError.

(** The dict [examples] and the dict returned. *)
Definition Batch (A : Type) : Type := list (string * list (list A)).

(** [list(chain( *ls ))] *)
Definition chain {A : Type} (ls : list (list A)) : list A := List.concat ls.

(** [len(range(start, stop, step))]; a zero step is not reached. *)
Definition range_length (start stop step : Z) : Z :=
  if (step >? 0)%Z then
    if (start <? stop)%Z then ((stop - start - 1) / step + 1)%Z else 0%Z
  else if (step <? 0)%Z then
    if (stop <? start)%Z then ((start - stop - 1) / (- step) + 1)%Z else 0%Z
  else 0%Z.

(** [range(start, stop, step)] *)
Definition range (start stop step : Z) : list Z :=
  map (fun j => (start + Z.of_nat j * step)%Z)
    (seq 0 (Z.to_nat (range_length start stop step))).

(** A slice bound brought into [0, len]: a negative one counts from the end. *)
Definition clamp_index (len k : Z) : Z :=
  if (k <? 0)%Z then Z.max 0 (k + len) else Z.min k len.

(** [t[i:j]]; a slice never raises. *)
Definition getslice {A : Type} (t : list A) (i j : Z) : list A :=
  let len := Z.of_nat (List.length t) in
  let lo := clamp_index len i in
  let hi := clamp_index len j in
  firstn (Z.to_nat (hi - lo)) (skipn (Z.to_nat lo) t).

(** The block size chosen at the head of [group_text] from
    [data_args.block_size], [model_max_length] and
    [model_args.truncate_to_model_max_length]. *)
Definition block_size_of (data_block_size : option Z) (model_max_length : Z)
    (truncate_to_model_max_length : bool) : Z :=
  match data_block_size with
  | None =>
      let block_size := model_max_length in
      if (block_size >? 1024)%Z then 1024%Z else block_size
  | Some b =>
      if (b >? model_max_length)%Z then
        if truncate_to_model_max_length then model_max_length else b
      else b
  end.

(** The inner function [group_texts(examples)] for a given [block_size]. *)
Definition group_texts {A : Type} (block_size : Z) (examples : Batch A)
  : PyError + Batch A :=
  let concatenated_examples := map (fun kv => (fst kv, chain (snd kv))) examples in
  match concatenated_examples with
  | [] => inl IndexError
  | (_, t0) :: _ =>
      let total_length := Z.of_nat (List.length t0) in
      if (block_size =? 0)%Z then inl ZeroDivisionError
      else
        let total_length := (total_length / block_size * block_size)%Z in
        inr (map (fun kt =>
                    (fst kt,
                     map (fun i => getslice (snd kt) i (i + block_size))
                       (range 0 total_length block_size)))
               concatenated_examples)
  end.

(** [group_texts] with the block size [group_text] chooses. *)
Definition group_text {A : Type} (data_block_size : option Z)
    (model_max_length : Z) (truncate_to_model_max_length : bool)
    (examples : Batch A) : PyError + Batch A :=
  group_texts
    (block_size_of data_block_size model_max_length truncate_to_model_max_length)
    examples.

End Finetuner.

(** The blocks of [b] items cut from the front of [t], [n] of them. *)
Definition blocks_of {A : Type} (b n : nat) (t : list A) : list (list A) :=
  map (fun j => firstn b (skipn (j * b) t)) (seq 0 n).

(** A batch with two columns of different lengths. *)
Definition sample_batch : Finetuner.Batch nat :=
  [("input_ids", [[1; 2; 3]; [4; 5]; [6; 7]]);
   ("labels", [[1; 2]; [3]])].


(** *** Conversations both template families render alike *)

(** An assistant message whose content QWEN3_TEMPLATE uses as it is, and
    whose tool-call arguments are not strings. *)
Definition plain_assistant (m : Message) : Prop :=
  ((exists r, reasoning_content m = Present r)
   \/ contains (content m) "</think>" = false)
  /\ forall tc, In tc (tool_calls m) ->
       forall s, arguments (function_of tc) <> JStr s.


(** *** The layout of an output *)

(** A piece of an output: whether it is generated text, and its text. *)
Definition Piece : Type := (bool * string)%type.

(** The pieces written one after the other. *)
Definition pieces_text (ps : list Piece) : string := join (map snd ps).

(** The ranges the generated pieces take up when the pieces are written one
    after the other, the first of them at offset [off]. *)
Fixpoint piece_spans (off : nat) (ps : list Piece) : list Span :=
  match ps with
  | [] => []
  | p :: ps' =>
      ((if fst p then [(off, off + String.length (snd p))] else [])
       ++ piece_spans (off + String.length (snd p)) ps')%list
  end.

(** Every block as a piece. *)
Definition pieces_of (bs : list block) : list Piece :=
  map (fun b => (negb (is_out b), block_text b)) bs.

(** Two lists of pieces give the same text and mark the same ranges of it. *)
Definition same_layout (p q : list Piece) : Prop :=
  pieces_text p = pieces_text q
  /\ forall off, piece_spans off p = piece_spans off q.

(** A render of QWEN3_TEMPLATE, piece by piece: the header [h], every message
    in order, an assistant message as one generated piece holding its whole
    turn and any other message as one piece that is not generated, and the
    generation prompt. *)
Definition qwen3_layout (tojson : json -> string) (ctx : Context)
    (h : list block) : list Piece :=
  ((false, text_of h)
   :: map (fun it =>
             if is_assistant (snd it)
             then (true, qwen3_turn_text tojson (qwen3_namespace (messages ctx)) it)
             else (false,
                   text_of (emitted (qwen3_message tojson
                                       (qwen3_namespace (messages ctx))
                                       (messages ctx) (fst it) (snd it)))))
        (iterations (messages ctx))
   ++ [(false, text_of (qwen3_generation_prompt ctx))])%list.

(** The header of an assistant turn in the Qwen2.5 templates. *)
Definition qwen2_5_role_header (m : Message) : string :=
  im_start ++ "assistant" ++ (if nonempty (tool_calls m) then EmptyString else nl).

(** One message of a render of a Qwen2.5 template, piece by piece: an
    assistant message as its role header, not generated, followed by its
    generation regions; any other message as one piece that is not
    generated. *)
Definition qwen2_5_message_pieces (tojson : json -> string)
    (msgs : list Message) (it : Loop * Message) : list Piece :=
  if is_assistant (snd it)
  then (false, qwen2_5_role_header (snd it))
       :: map (fun t => (true, t)) (qwen2_5_targets_of tojson (snd it))
  else [(false, text_of (emitted (qwen2_5_message tojson msgs (fst it) (snd it))))].

(** A render of a Qwen2.5 template, piece by piece: the header [h], the
    messages in order, the generation prompt. *)
Definition qwen2_5_layout (tojson : json -> string) (ctx : Context)
    (h : list block) : list Piece :=
  ((false, text_of h)
   :: flat_map (qwen2_5_message_pieces tojson (messages ctx))
        (iterations (messages ctx))
   ++ [(false, text_of (generation_prompt ctx))])%list.

(** * Proofs *)

(** The role tests of a message loop, decided for a known role. *)
Ltac decide_role r :=
  let u := eval vm_compute in (String.eqb r "user") in
  let s := eval vm_compute in (String.eqb r "system") in
  let a := eval vm_compute in (String.eqb r "assistant") in
  let o := eval vm_compute in (String.eqb r "tool") in
  change (String.eqb r "user") with u;
  change (String.eqb r "system") with s;
  change (String.eqb r "assistant") with a;
  change (String.eqb r "tool") with o.

(** ** Elementary facts about strings *)

Section StringFacts.

Lemma append_nil_r (s : string) : s ++ EmptyString = s.
Proof. induction s as [|c s IH]; simpl; [reflexivity | now rewrite IH]. Qed.

Lemma append_assoc (a b c : string) : (a ++ b) ++ c = a ++ (b ++ c).
Proof. induction a as [|x a IH]; simpl; [reflexivity | now rewrite IH]. Qed.

Lemma length_append (a b : string) :
  String.length (a ++ b) = String.length a + String.length b.
Proof. induction a as [|x a IH]; simpl; [reflexivity | now rewrite IH]. Qed.

Lemma append_snoc (a : string) (c : ascii) (b : string) :
  (a ++ String c EmptyString) ++ b = a ++ String c b.
Proof. now rewrite append_assoc. Qed.

(** Two ways of cutting the same string share a common refinement. *)
Lemma append_eq_append (a x p t : string) :
  a ++ x = p ++ t ->
  (exists u, p = a ++ u /\ x = u ++ t) \/ (exists u, a = p ++ u /\ t = u ++ x).
Proof.
  revert p. induction a as [|c a IH]; intros p H.
  - left. exists p. simpl in *. auto.
  - destruct p as [|d p].
    + right. exists (String c a). simpl in *. auto.
    + simpl in H. injection H as Hc H. subst d.
      destruct (IH p H) as [[u [-> ->]] | [u [-> ->]]].
      * left. exists u. auto.
      * right. exists u. auto.
Qed.

Lemma startswith_spec (s p : string) :
  Py.startswith s p = true <-> exists t, s = p ++ t.
Proof.
  revert s. induction p as [|a p IH]; intros s; simpl.
  - split; [intros _; now exists s | reflexivity].
  - destruct s as [|b s].
    + split; [discriminate | intros [t Ht]; discriminate].
    + rewrite andb_true_iff, Ascii.eqb_eq, IH. split.
      * intros [-> [t ->]]. now exists t.
      * intros [t Ht]. injection Ht as -> ->. split; [reflexivity | now exists t].
Qed.

Lemma startswith_append (p t : string) : Py.startswith (p ++ t) p = true.
Proof. apply startswith_spec. now exists t. Qed.

Lemma endswith_spec (s p : string) :
  Py.endswith s p = true <-> exists t, s = t ++ p.
Proof.
  induction s as [|c s IH]; cbn [Py.endswith].
  - rewrite String.eqb_eq. split.
    + intros ->. now exists EmptyString.
    + intros [t Ht]. destruct t; [now simpl in Ht | discriminate].
  - rewrite orb_true_iff, String.eqb_eq, IH. split.
    + intros [<- | [t ->]]; [now exists EmptyString | now exists (String c t)].
    + intros [[|d t] Ht]; simpl in Ht.
      * now left.
      * injection Ht as -> ->. right. now exists t.
Qed.

Lemma contains_spec (s sub : string) :
  Py.contains s sub = true <-> exists a b, s = a ++ sub ++ b.
Proof.
  induction s as [|c s IH]; simpl.
  - rewrite orb_false_r, startswith_spec. split.
    + intros [t Ht]. now exists EmptyString, t.
    + intros [a [b H]]. destruct a; [now exists b | discriminate].
  - rewrite orb_true_iff, startswith_spec, IH. split.
    + intros [[t Ht] | [a [b ->]]].
      * now exists EmptyString, t.
      * now exists (String c a), b.
    + intros [[|d a] [b H]]; simpl in H.
      * left. now exists b.
      * injection H as -> ->. right. now exists a, b.
Qed.

Lemma contains_tail (c : ascii) (s sub : string) :
  Py.contains (String c s) sub = false -> Py.contains s sub = false.
Proof. simpl. intros H. now apply orb_false_iff in H. Qed.

Lemma mem_append (c : ascii) (a b : string) :
  Py.mem c (a ++ b) = Py.mem c a || Py.mem c b.
Proof.
  induction a as [|d a IH]; simpl; [reflexivity|].
  now rewrite IH, orb_assoc.
Qed.

End StringFacts.

(** ** [split] cuts at the occurrences of the separator *)

Lemma split_go_skip (sep x : string) :
  forall k cur rest, String.length x = k ->
  Py.split_go sep k cur (x ++ rest) = Py.split_go sep 0 cur rest.
Proof.
  induction x as [|c x IH]; intros k cur rest Hk; simpl in *; subst k.
  - reflexivity.
  - now apply IH.
Qed.

Lemma split_go_sep (sep cur b : string) :
  sep <> EmptyString ->
  Py.split_go sep 0 cur (sep ++ b) = cur :: Py.split_go sep 0 EmptyString b.
Proof.
  intros Hne. destruct sep as [|c sep']; [congruence|].
  change (String c sep' ++ b) with (String c (sep' ++ b)).
  cbn [Py.split_go].
  change (String c (sep' ++ b)) with (String c sep' ++ b).
  rewrite startswith_append. f_equal.
  apply split_go_skip. simpl. lia.
Qed.

Section SplitFacts.

Variable sep : string.

Lemma split_go_nonempty (skip : nat) (cur s : string) :
  Py.split_go sep skip cur s <> [].
Proof.
  revert skip cur. induction s as [|c s IH]; intros skip cur; simpl.
  - discriminate.
  - destruct skip; [|apply IH].
    destruct (Py.startswith (String c s) sep); [discriminate | apply IH].
Qed.

Lemma last_cons (x : string) (l : list string) :
  l <> [] -> Py.last (x :: l) = Py.last l.
Proof. unfold Py.last. destruct l; [congruence | reflexivity]. Qed.

Lemma split_go_no_start (a : string) :
  forall cur rest, Py.no_start sep a rest = true ->
  Py.split_go sep 0 cur (a ++ rest) = Py.split_go sep 0 (cur ++ a) rest.
Proof.
  induction a as [|c a IH]; intros cur rest H.
  - simpl. now rewrite append_nil_r.
  - cbn [Py.no_start] in H. apply andb_true_iff in H. destruct H as [H1 H2].
    apply negb_true_iff in H1.
    change (String c a ++ rest) with (String c (a ++ rest)) in *.
    cbn [Py.split_go]. rewrite H1, (IH _ _ H2). now rewrite append_snoc.
Qed.

Hypothesis sep_head_unique : Py.head_unique sep = true.

Lemma sep_nonempty : sep <> EmptyString.
Proof. intros E. rewrite E in sep_head_unique. discriminate. Qed.

(** An occurrence of [sep] cannot straddle the start of another one. *)
Lemma overlap_free (a b : string) :
  Py.startswith (a ++ sep ++ b) sep = true ->
  a = EmptyString \/ Py.startswith a sep = true.
Proof.
  intros H. apply startswith_spec in H. destruct H as [t Ht].
  destruct (append_eq_append _ _ _ _ Ht) as [[u [Hs Hu]] | [u [Ha _]]].
  - destruct a as [|h a']; [now left | right].
    destruct u as [|h' u'].
    + rewrite append_nil_r in Hs. apply startswith_spec.
      exists EmptyString. now rewrite append_nil_r.
    + exfalso. pose proof sep_head_unique as HU.
      rewrite Hs in Hu, HU. simpl in Hu, HU. injection Hu as Hh _. subst h'.
      rewrite mem_append in HU. simpl in HU.
      rewrite Ascii.eqb_refl in HU. simpl in HU.
      now rewrite orb_true_r in HU.
  - right. apply startswith_spec. now exists u.
Qed.

Lemma contains_no_start (a b : string) :
  Py.contains a sep = false -> Py.no_start sep a (sep ++ b) = true.
Proof.
  induction a as [|c a IH]; intros H; [reflexivity|].
  cbn [Py.no_start]. apply andb_true_iff. split.
  - apply negb_true_iff. apply not_true_is_false. intros Hs.
    destruct (overlap_free _ _ Hs) as [E | E]; [discriminate|].
    cbn [Py.contains] in H. rewrite E in H. discriminate.
  - apply IH. eapply contains_tail; eauto.
Qed.

Lemma contains_no_start_end (a : string) :
  Py.contains a sep = false -> Py.no_start sep a EmptyString = true.
Proof.
  induction a as [|c a IH]; intros H; [reflexivity|].
  cbn [Py.no_start]. apply andb_true_iff. split.
  - rewrite append_nil_r. cbn [Py.contains] in H.
    apply orb_false_iff in H. now rewrite (proj1 H).
  - apply IH. eapply contains_tail; eauto.
Qed.

(** A text without the separator is a single piece. *)
Lemma split_none (s : string) :
  Py.contains s sep = false -> Py.split s sep = [s].
Proof.
  intros H. unfold Py.split. rewrite <- (append_nil_r s) at 1.
  rewrite split_go_no_start by now apply contains_no_start_end.
  reflexivity.
Qed.

(** The first piece is the text before the first occurrence. *)
Lemma split_first (a b : string) :
  Py.contains a sep = false ->
  Py.first (Py.split (a ++ sep ++ b) sep) = a.
Proof.
  intros H. unfold Py.split.
  rewrite split_go_no_start by now apply contains_no_start.
  rewrite split_go_sep by apply sep_nonempty. reflexivity.
Qed.

Lemma split_go_last (post : string) :
  Py.contains post sep = false ->
  forall pre skip cur, skip <= String.length pre ->
  Py.last (Py.split_go sep skip cur (pre ++ sep ++ post)) = post.
Proof.
  intros Hpost. induction pre as [|c pre IH]; intros skip cur Hskip.
  - simpl in Hskip. assert (skip = 0) by lia. subst skip.
    change (EmptyString ++ sep ++ post) with (sep ++ post).
    rewrite split_go_sep by apply sep_nonempty.
    rewrite last_cons by apply split_go_nonempty.
    fold (Py.split post sep). now rewrite split_none.
  - change (String c pre ++ sep ++ post) with (String c (pre ++ sep ++ post)).
    cbn [Py.split_go]. destruct skip as [|k].
    + destruct (Py.startswith (String c (pre ++ sep ++ post)) sep) eqn:E.
      * rewrite last_cons by apply split_go_nonempty.
        apply IH.
        change (String c (pre ++ sep ++ post))
          with (String c pre ++ sep ++ post) in E.
        destruct (overlap_free _ _ E) as [E' | E']; [discriminate|].
        apply startswith_spec in E'. destruct E' as [t Ht].
        apply (f_equal String.length) in Ht.
        rewrite length_append in Ht. simpl in Ht. lia.
      * apply IH. lia.
    + apply IH. simpl in Hskip. lia.
Qed.

(** The last piece is the text after the last occurrence. *)
Lemma split_last (pre post : string) :
  Py.contains post sep = false ->
  Py.last (Py.split (pre ++ sep ++ post) sep) = post.
Proof. intros H. unfold Py.split. apply split_go_last; [assumption | lia]. Qed.

End SplitFacts.

(** ** The tracker keeps its spans ordered and within the output *)

Section TrackerFacts.

Lemma join_app (l1 l2 : list string) :
  join (l1 ++ l2)%list = join l1 ++ join l2.
Proof.
  induction l1 as [|x l1 IH]; simpl; [reflexivity|].
  now rewrite IH, append_assoc.
Qed.

Lemma join_snoc (l : list string) (s : string) :
  join (l ++ [s])%list = join l ++ s.
Proof. rewrite join_app. simpl. now rewrite append_nil_r. Qed.

Lemma spans_chain_weaken (spans : list Span) :
  forall lo n n', spans_chain lo spans n -> n <= n' -> spans_chain lo spans n'.
Proof.
  induction spans as [|[a b] rest IH]; intros lo n n' H Hn; simpl in *.
  - lia.
  - destruct H as [H1 [H2 H3]]. repeat split; try assumption.
    eapply IH; eauto.
Qed.

Lemma spans_chain_snoc (spans : list Span) :
  forall lo n a b, spans_chain lo spans n -> n <= a -> a <= b ->
  spans_chain lo (spans ++ [(a, b)])%list b.
Proof.
  induction spans as [|[c d] rest IH]; intros lo n a b H Ha Hb; simpl in *.
  - repeat split; lia.
  - destruct H as [H1 [H2 H3]]. repeat split; try assumption.
    eapply IH; eauto.
Qed.

Lemma spans_chain_lo (spans : list Span) :
  forall lo n, spans_chain lo spans n -> lo <= n.
Proof.
  induction spans as [|[a b] rest IH]; intros lo n H; simpl in *.
  - assumption.
  - destruct H as [H1 [H2 H3]]. apply IH in H3. lia.
Qed.

Lemma spans_chain_in (spans : list Span) :
  forall lo n p, spans_chain lo spans n -> In p spans ->
  lo <= fst p /\ fst p <= snd p /\ snd p <= n.
Proof.
  induction spans as [|[a b] rest IH]; intros lo n p H Hin; simpl in *.
  - contradiction.
  - destruct H as [H1 [H2 H3]]. destruct Hin as [<- | Hin]; simpl.
    + apply spans_chain_lo in H3. lia.
    + destruct (IH _ _ _ H3 Hin) as [? [? ?]]. lia.
Qed.

Lemma track_ok (tr : Tracker) (b : block) : tracker_ok tr -> tracker_ok (track tr b).
Proof.
  unfold tracker_ok. intros H. destruct b as [s | body]; simpl.
  - rewrite join_snoc, length_append.
    eapply spans_chain_weaken; [eassumption | lia].
  - rewrite join_snoc, length_append.
    eapply spans_chain_snoc; [eassumption | lia | lia].
Qed.

Lemma fold_track_ok (bs : list block) :
  forall tr, tracker_ok tr -> tracker_ok (fold_left track bs tr).
Proof.
  induction bs as [|b bs IH]; intros tr H; simpl; [assumption|].
  apply IH. now apply track_ok.
Qed.

Lemma render_blocks_chain (bs : list block) :
  spans_chain 0 (snd (render_blocks bs)) (String.length (fst (render_blocks bs))).
Proof.
  unfold render_blocks. simpl. apply fold_track_ok.
  unfold tracker_ok. simpl. lia.
Qed.

Lemma chain_non_overlapping (spans : list Span) :
  forall lo n, spans_chain lo spans n -> non_overlapping spans.
Proof.
  induction spans as [|[a b] rest IH]; intros lo n H i j p q Hij Hp Hq.
  - destruct i; discriminate.
  - simpl in H. destruct H as [H1 [H2 H3]].
    destruct j as [|j]; [lia|]. simpl in Hq.
    destruct i as [|i]; simpl in Hp.
    + injection Hp as <-. simpl.
      apply nth_error_In in Hq.
      destruct (spans_chain_in _ _ _ _ H3 Hq) as [? _]. assumption.
    + eapply (IH _ _ H3 i j); eauto. lia.
Qed.

Lemma chain_within (spans : list Span) (lo n : nat) :
  spans_chain lo spans n -> within spans n.
Proof.
  intros H p Hin. destruct (spans_chain_in _ _ _ _ H Hin) as [? [? ?]]. auto.
Qed.

Lemma chain_starts_monotone (spans : list Span) (lo n : nat) :
  spans_chain lo spans n -> starts_monotone spans.
Proof.
  intros H i j p q Hij Hp Hq.
  destruct (Nat.eq_dec i j) as [-> | Hne].
  - rewrite Hp in Hq. injection Hq as <-. lia.
  - assert (Hlt : i < j) by lia.
    pose proof (chain_non_overlapping _ _ _ H i j p q Hlt Hp Hq).
    apply nth_error_In in Hp.
    destruct (chain_within _ _ _ H p Hp). lia.
Qed.

Lemma substring_nil (a m : nat) : substring a m EmptyString = EmptyString.
Proof. destruct a, m; reflexivity. Qed.

Lemma slice_split (s : string) :
  forall a b c, a <= b -> b <= c -> slice s a b ++ slice s b c = slice s a c.
Proof.
  unfold slice. induction s as [|x s IH]; intros a b c Hab Hbc.
  - now rewrite !substring_nil.
  - destruct a as [|a].
    + rewrite !Nat.sub_0_r. destruct b as [|b].
      * simpl. now rewrite Nat.sub_0_r.
      * destruct c as [|c]; [lia|]. simpl.
        specialize (IH 0 b c). rewrite !Nat.sub_0_r in IH.
        rewrite IH by lia. reflexivity.
    + destruct b as [|b]; [lia|]. destruct c as [|c]; [lia|].
      simpl. apply IH; lia.
Qed.

Lemma slice_all (s : string) : slice s 0 (String.length s) = s.
Proof.
  unfold slice. rewrite Nat.sub_0_r.
  induction s as [|x s IH]; simpl; [reflexivity | now rewrite IH].
Qed.

Lemma segments_join (out : string) (spans : list Span) :
  forall lo, spans_chain lo spans (String.length out) ->
  join (segments out lo spans) = slice out lo (String.length out).
Proof.
  induction spans as [|[a b] rest IH]; intros lo H; simpl in *.
  - now rewrite append_nil_r.
  - destruct H as [H1 [H2 H3]]. rewrite (IH _ H3).
    pose proof (spans_chain_lo _ _ _ H3).
    rewrite slice_split by lia. apply slice_split; lia.
Qed.

End TrackerFacts.

(** ** Loops over valid positions never raise *)

Section LoopFacts.

Context {A : Type}.
Variable body : Loop -> A -> result (list block).

Lemma for_each_unfold (l : list A) :
  for_each l body = run_iterations body (iterations l).
Proof. reflexivity. Qed.

Lemma run_iterations_ok (its : list (Loop * A)) :
  (forall it, In it its -> exists b, body (fst it) (snd it) = Ok b) ->
  run_iterations body its
  = Ok (flat_map (fun it => emitted (body (fst it) (snd it))) its).
Proof.
  induction its as [|it its IH]; intros H; simpl; [reflexivity|].
  destruct (H it (or_introl eq_refl)) as [b Hb]. rewrite Hb. simpl.
  rewrite IH by (intros it' Hin; apply H; now right). reflexivity.
Qed.

Lemma enumerate_from_in (n : nat) (l : list A) :
  forall i it, In it (enumerate_from n i l) ->
  exists k, fst it = mk_loop n (i + k) /\ nth_error l k = Some (snd it).
Proof.
  induction l as [|x l IH]; intros i it Hin; simpl in Hin; [contradiction|].
  destruct Hin as [<- | Hin].
  - exists 0. simpl. now rewrite Nat.add_0_r.
  - destruct (IH _ _ Hin) as [k [Hk1 Hk2]]. exists (S k). simpl.
    now rewrite Nat.add_succ_r.
Qed.

Lemma enumerate_from_app (n : nat) (l1 l2 : list A) :
  forall i, enumerate_from n i (l1 ++ l2)%list
  = (enumerate_from n i l1 ++ enumerate_from n (i + List.length l1) l2)%list.
Proof.
  induction l1 as [|x l1 IH]; intros i; simpl.
  - now rewrite Nat.add_0_r.
  - rewrite IH. now rewrite Nat.add_succ_r.
Qed.

Lemma iterations_in (l : list A) (it : Loop * A) :
  In it (iterations l) ->
  exists k, fst it = mk_loop (List.length l) k /\ nth_error l k = Some (snd it).
Proof. intros H. now apply enumerate_from_in in H. Qed.

(** A loop whose body succeeds at every position of the list succeeds. *)
Lemma for_each_ok (l : list A) :
  (forall k x, nth_error l k = Some x ->
     exists b, body (mk_loop (List.length l) k) x = Ok b) ->
  for_each l body
  = Ok (flat_map (fun it => emitted (body (fst it) (snd it))) (iterations l)).
Proof.
  intros H. rewrite for_each_unfold. apply run_iterations_ok.
  intros it Hin. destruct (iterations_in _ _ Hin) as [k [Hk1 Hk2]].
  rewrite Hk1. now apply H.
Qed.

End LoopFacts.

Lemma item_ok {A : Type} (l : list A) (i : nat) :
  i < List.length l -> exists x, item l i = Ok x /\ nth_error l i = Some x.
Proof.
  intros H. unfold item. destruct (nth_error l i) eqn:E.
  - eauto.
  - apply nth_error_None in E. lia.
Qed.

(** ** The wrapper of tool messages *)

Section ToolGuards.

Variables (msgs : list Message) (i : nat) (m : Message).
Hypothesis Hi : nth_error msgs i = Some m.

Lemma index_in_range : i < List.length msgs.
Proof. apply nth_error_Some. congruence. Qed.

Lemma closing_guard :
  (if loop_last (mk_loop (List.length msgs) i) then Ok true
   else next <- item msgs (loop_index0 (mk_loop (List.length msgs) i) + 1) ;;
        Ok (negb (String.eqb (role next) "tool")))
  = Ok (wrapper_closes msgs i).
Proof.
  unfold wrapper_closes. cbn [mk_loop loop_last loop_index0].
  destruct (Nat.eqb (S i) (List.length msgs)) eqn:E; [reflexivity|].
  apply Nat.eqb_neq in E. pose proof index_in_range.
  destruct (item_ok msgs (i + 1)) as [x [Hx1 Hx2]]; [lia|].
  rewrite Hx1, Hx2. reflexivity.
Qed.

Lemma opening_guard_first :
  (if loop_first (mk_loop (List.length msgs) i) then Ok true
   else prev <- item msgs (loop_index0 (mk_loop (List.length msgs) i) - 1) ;;
        Ok (negb (String.eqb (role prev) "tool")))
  = Ok (wrapper_opens msgs i).
Proof.
  unfold wrapper_opens. cbn [mk_loop loop_first loop_index0].
  destruct (Nat.eqb i 0) eqn:E; [reflexivity|].
  apply Nat.eqb_neq in E. pose proof index_in_range.
  destruct (item_ok msgs (i - 1)) as [x [Hx1 Hx2]]; [lia|].
  rewrite Hx1, Hx2. reflexivity.
Qed.

Lemma opening_guard_index0 :
  (if Nat.eqb (loop_index0 (mk_loop (List.length msgs) i)) 0 then Ok true
   else prev <- item msgs (loop_index0 (mk_loop (List.length msgs) i) - 1) ;;
        Ok (negb (String.eqb (role prev) "tool")))
  = Ok (wrapper_opens msgs i).
Proof. exact opening_guard_first. Qed.

Hypothesis Hrole : role m = "tool".

Variable tojson : json -> string.

Lemma qwen3_tool_message (v : Namespace) :
  qwen3_message tojson v msgs (mk_loop (List.length msgs) i) m
  = Ok (tool_blocks msgs i m).
Proof.
  unfold qwen3_message. rewrite Hrole.
  decide_role "tool".
  cbn [orb andb].
  rewrite opening_guard_first, closing_guard. reflexivity.
Qed.

Lemma qwen2_5_tool_message :
  qwen2_5_message tojson msgs (mk_loop (List.length msgs) i) m
  = Ok (tool_blocks msgs i m).
Proof.
  unfold qwen2_5_message. rewrite Hrole.
  decide_role "tool".
  cbn [orb andb].
  rewrite opening_guard_index0, closing_guard. reflexivity.
Qed.

End ToolGuards.

(** Every message at a valid position renders without error. *)
Lemma qwen3_message_total (tojson : json -> string) (v : Namespace)
    (msgs : list Message) (i : nat) (m : Message) :
  nth_error msgs i = Some m ->
  exists b, qwen3_message tojson v msgs (mk_loop (List.length msgs) i) m = Ok b.
Proof.
  intros Hi. unfold qwen3_message.
  destruct (_ || _); [eauto|].
  destruct (String.eqb (role m) "assistant"); [eauto|].
  destruct (String.eqb (role m) "tool"); [|eauto].
  rewrite (opening_guard_first _ _ _ Hi), (closing_guard _ _ _ Hi).
  simpl. eauto.
Qed.

Lemma qwen2_5_message_total (tojson : json -> string)
    (msgs : list Message) (i : nat) (m : Message) :
  nth_error msgs i = Some m ->
  exists b, qwen2_5_message tojson msgs (mk_loop (List.length msgs) i) m = Ok b.
Proof.
  intros Hi. unfold qwen2_5_message.
  destruct (_ || _).
  - destruct (String.eqb (role m) "assistant"); eauto.
  - destruct (String.eqb (role m) "assistant"); [eauto|].
    destruct (String.eqb (role m) "tool"); [|eauto].
    rewrite (opening_guard_index0 _ _ _ Hi), (closing_guard _ _ _ Hi).
    simpl. eauto.
Qed.

(** ** The namespace after the reverse scan *)

Section StoreFacts.

Lemma ns_read_fresh (st : Store) (v : Namespace) :
  ns_read (List.length st) (st ++ [v])%list = Some v.
Proof.
  unfold ns_read. rewrite nth_error_app2 by lia.
  now rewrite Nat.sub_diag.
Qed.

Lemma ns_update_fresh (f : Namespace -> Namespace) (st : Store) (v : Namespace) :
  ns_update (List.length st) f (st ++ [v])%list = (st ++ [f v])%list.
Proof. induction st as [|x st IH]; simpl; [reflexivity | now rewrite IH]. Qed.

Lemma qwen3_scan_step_fresh (msgs : list Message) (st : Store) (v : Namespace)
    (it : Loop * Message) :
  qwen3_scan_step msgs (List.length st) (st ++ [v])%list (fst it) (snd it)
  = (st ++ [scan_value msgs v it])%list.
Proof.
  unfold qwen3_scan_step, scan_value. rewrite ns_read_fresh.
  destruct (multi_step_tool v && is_query (snd it)); [|reflexivity].
  now rewrite !ns_update_fresh.
Qed.

Lemma qwen3_scan_fold (msgs : list Message) (st : Store)
    (its : list (Loop * Message)) :
  forall v,
  fold_left (fun s it => qwen3_scan_step msgs (List.length st) s (fst it) (snd it))
    its (st ++ [v])%list
  = (st ++ [fold_left (scan_value msgs) its v])%list.
Proof.
  induction its as [|it its IH]; intros v; simpl; [reflexivity|].
  now rewrite qwen3_scan_step_fresh, IH.
Qed.

End StoreFacts.

Lemma is_query_spec (m : Message) : is_query m = true <-> true_user_query m.
Proof.
  unfold is_query, true_user_query, wrapped_tool_response.
  rewrite andb_true_iff, negb_true_iff, String.eqb_eq, <- not_true_iff_false,
    andb_true_iff, startswith_spec, endswith_spec.
  reflexivity.
Qed.

Lemma is_query_false (m : Message) : is_query m = false <-> ~ true_user_query m.
Proof. rewrite <- is_query_spec. symmetry. apply not_true_iff_false. Qed.

Section ScanFacts.

Variable msgs : list Message.

Lemma qwen3_namespace_fold :
  qwen3_namespace msgs
  = fold_left (scan_value msgs) (iterations (reversed msgs)) (qwen3_namespace_init msgs).
Proof.
  unfold qwen3_namespace, qwen3_scan.
  pose proof (qwen3_scan_fold msgs [] (iterations (reversed msgs))
                (qwen3_namespace_init msgs)) as H.
  simpl in H. rewrite H. reflexivity.
Qed.

Lemma find_first_spec {A : Type} (p : A -> bool) (l : list A) :
  forall k, find_first p l = Some k ->
  (exists x, nth_error l k = Some x /\ p x = true)
  /\ forall j y, j < k -> nth_error l j = Some y -> p y = false.
Proof.
  induction l as [|x l IH]; intros k H; simpl in H; [discriminate|].
  destruct (p x) eqn:Px.
  - injection H as <-. split; [exists x; auto | intros j y Hj; lia].
  - destruct (find_first p l) as [k'|] eqn:E; [|discriminate].
    injection H as <-. destruct (IH k' eq_refl) as [Hx Hlt]. split.
    + exact Hx.
    + intros [|j] y Hj Hy; simpl in Hy.
      * injection Hy as <-. exact Px.
      * apply (Hlt j); [lia | assumption].
Qed.

Lemma find_first_none {A : Type} (p : A -> bool) (l : list A) :
  find_first p l = None -> forall y, In y l -> p y = false.
Proof.
  induction l as [|x l IH]; intros H y Hin; simpl in *; [contradiction|].
  destruct (p x) eqn:Px; [discriminate|].
  destruct (find_first p l); [discriminate|].
  destruct Hin as [<- | Hin]; [assumption | now apply IH].
Qed.

Lemma fold_scan_done (its : list (Loop * Message)) :
  forall v, multi_step_tool v = false -> fold_left (scan_value msgs) its v = v.
Proof.
  induction its as [|it its IH]; intros v Hv; simpl; [reflexivity|].
  unfold scan_value at 2. rewrite Hv. simpl. now apply IH.
Qed.

Lemma fold_scan_first (n : nat) (r : list Message) :
  forall i v, multi_step_tool v = true ->
  fold_left (scan_value msgs) (enumerate_from n i r) v
  = match find_first is_query r with
    | Some k =>
        {| multi_step_tool := false;
           last_query_index := (Z.of_nat (List.length msgs) - 1 - Z.of_nat (i + k))%Z |}
    | None => v
    end.
Proof.
  induction r as [|x r IH]; intros i v Hv; simpl; [reflexivity|].
  unfold scan_value at 2. rewrite Hv. cbn [fst snd andb].
  destruct (is_query x) eqn:Qx.
  - rewrite fold_scan_done by reflexivity.
    unfold set_last_query_index, set_multi_step_tool, scan_index. simpl.
    now rewrite Nat.add_0_r.
  - rewrite (IH (S i) v Hv). destruct (find_first is_query r); simpl.
    + now rewrite Nat.add_succ_r.
    + reflexivity.
Qed.

(** The scan leaves the position of the last query in [ns.last_query_index],
    and the last position when there is no query. *)
Lemma last_query_index_bool :
  (forall k,
     (exists q, nth_error msgs k = Some q /\ is_query q = true) ->
     (forall j y, k < j -> nth_error msgs j = Some y -> is_query y = false) ->
     last_query_index (qwen3_namespace msgs) = Z.of_nat k)
  /\ ((forall y, In y msgs -> is_query y = false) ->
     last_query_index (qwen3_namespace msgs)
     = (Z.of_nat (List.length msgs) - 1)%Z).
Proof.
  rewrite qwen3_namespace_fold. unfold iterations, reversed.
  rewrite fold_scan_first by reflexivity. simpl.
  destruct (find_first is_query (rev msgs)) as [k0|] eqn:E.
  - destruct (find_first_spec _ _ _ E) as [[x [Hx Qx]] Hbefore].
    assert (Hk0 : k0 < List.length msgs).
    { rewrite <- length_rev. apply nth_error_Some. congruence. }
    rewrite nth_error_rev in Hx.
    destruct (Nat.ltb_spec k0 (List.length msgs)); [|lia].
    split.
    + intros k [q [Hq Qq]] Hafter. simpl.
      assert (Hk : k < List.length msgs) by (apply nth_error_Some; congruence).
      destruct (Nat.lt_trichotomy k (List.length msgs - S k0)) as [Hlt | [-> | Hgt]].
      * rewrite (Hafter _ _ Hlt Hx) in Qx. discriminate.
      * lia.
      * assert (Hr : nth_error (rev msgs) (List.length msgs - S k) = Some q).
        { rewrite nth_error_rev.
          destruct (Nat.ltb_spec (List.length msgs - S k) (List.length msgs)); [|lia].
          replace (List.length msgs - S (List.length msgs - S k)) with k by lia.
          assumption. }
        assert (Hj : List.length msgs - S k < k0) by lia.
        rewrite (Hbefore _ _ Hj Hr) in Qq. discriminate.
    + intros Hno. apply nth_error_In in Hx. rewrite (Hno _ Hx) in Qx. discriminate.
  - pose proof (find_first_none _ _ E) as Hnone. split.
    + intros k [q [Hq Qq]] _. apply nth_error_In in Hq.
      rewrite (Hnone q) in Qq; [discriminate | now apply in_rev in Hq].
    + reflexivity.
Qed.

Lemma last_query_index_spec :
  (forall k, last_query_at msgs k ->
     last_query_index (qwen3_namespace msgs) = Z.of_nat k)
  /\ (no_query msgs ->
     last_query_index (qwen3_namespace msgs)
     = (Z.of_nat (List.length msgs) - 1)%Z).
Proof.
  destruct last_query_index_bool as [Hlast Hnone]. split.
  - intros k [[q [Hq Qq]] Hafter]. apply Hlast.
    + exists q. split; [assumption | now apply is_query_spec].
    + intros j y Hj Hy. apply is_query_false. eapply Hafter; eauto.
  - intros Hno. apply Hnone. intros y Hy. apply is_query_false. now apply Hno.
Qed.

End ScanFacts.

Section RunFacts.

Variable tojson : json -> string.

Lemma qwen3_scan_fresh (msgs : list Message) (st : Store) :
  qwen3_scan msgs (List.length st) (st ++ [qwen3_namespace_init msgs])%list
  = (st ++ [qwen3_namespace msgs])%list.
Proof.
  unfold qwen3_scan. rewrite qwen3_scan_fold. now rewrite qwen3_namespace_fold.
Qed.

Lemma qwen3_run_eq (ctx : Context) (st : Store) :
  qwen3_run tojson ctx st
  = (qwen3_blocks tojson ctx,
     match qwen3_header tojson ctx with
     | Ok _ => (st ++ [qwen3_namespace (messages ctx)])%list
     | Err _ => st
     end).
Proof.
  unfold qwen3_run, qwen3_blocks.
  destruct (qwen3_header tojson ctx) as [header | e]; [|reflexivity].
  unfold namespace. cbn [fst snd].
  rewrite qwen3_scan_fresh, ns_read_fresh. reflexivity.
Qed.

Lemma QWEN3_TEMPLATE_eq (ctx : Context) :
  QWEN3_TEMPLATE tojson ctx = qwen3_blocks tojson ctx.
Proof. unfold QWEN3_TEMPLATE. now rewrite qwen3_run_eq. Qed.

End RunFacts.

(** ** Rendering is compositional *)

Section RenderFacts.

Lemma tracker_app_empty (tr : Tracker) : tracker_app tr empty_tracker = tr.
Proof.
  unfold tracker_app. destruct tr as [r g]. simpl. now rewrite !app_nil_r.
Qed.

Lemma tracker_app_assoc (a b c : Tracker) :
  tracker_app (tracker_app a b) c = tracker_app a (tracker_app b c).
Proof.
  unfold tracker_app. simpl. f_equal.
  - now rewrite app_assoc.
  - rewrite map_app, map_map, <- app_assoc. f_equal. f_equal.
    apply map_ext. intros [x y]. unfold shift. simpl.
    rewrite join_app, length_append. f_equal; lia.
Qed.

Lemma track_as_app (tr : Tracker) (b : block) :
  track tr b = tracker_app tr (track empty_tracker b).
Proof.
  destruct b as [s | body]; unfold tracker_app; simpl.
  - now rewrite app_nil_r.
  - unfold shift. simpl. now rewrite !Nat.add_0_r.
Qed.

Lemma fold_track_as_app (bs : list block) :
  forall tr, fold_left track bs tr = tracker_app tr (fold_left track bs empty_tracker).
Proof.
  induction bs as [|b bs IH]; intros tr; simpl.
  - now rewrite tracker_app_empty.
  - rewrite (IH (track tr b)), (IH (track empty_tracker b)).
    rewrite <- tracker_app_assoc. now rewrite <- track_as_app.
Qed.

Lemma render_blocks_app (a b : list block) :
  render_blocks (a ++ b)
  = (fst (render_blocks a) ++ fst (render_blocks b),
     (snd (render_blocks a)
      ++ map (shift (String.length (fst (render_blocks a)))) (snd (render_blocks b)))%list).
Proof.
  unfold render_blocks. rewrite fold_left_app, fold_track_as_app.
  simpl. now rewrite join_app.
Qed.

Lemma render_blocks_all_out (bs : list block) :
  all_out bs = true -> snd (render_blocks bs) = [].
Proof.
  induction bs as [|b bs IH]; intros H; [reflexivity|].
  simpl in H. apply andb_true_iff in H. destruct H as [Hb Hbs].
  change (b :: bs) with ([b] ++ bs)%list. rewrite render_blocks_app.
  cbn [snd]. rewrite (IH Hbs). destruct b; [reflexivity | discriminate].
Qed.

Lemma all_out_app (a b : list block) :
  all_out (a ++ b) = all_out a && all_out b.
Proof. apply forallb_app. Qed.

Lemma slice_middle (x y z : string) :
  slice (x ++ y ++ z) (String.length x) (String.length x + String.length y) = y.
Proof.
  unfold slice. replace (String.length x + String.length y - String.length x)
    with (String.length y) by lia.
  induction x as [|c x IH]; simpl.
  - clear. induction y as [|c y IH]; simpl.
    + destruct z; reflexivity.
    + now rewrite IH.
  - exact IH.
Qed.

End RenderFacts.

(** ** Headers and totality *)

Section HeaderFacts.

Variable tojson : json -> string.

Lemma tools_block_all_out (ts : list json) : all_out (tools_block tojson ts) = true.
Proof. induction ts as [|t ts IH]; simpl; [reflexivity | exact IH]. Qed.

Lemma qwen2_5_header_ok (default_system : string) (ctx : Context) :
  messages ctx <> [] ->
  exists h, qwen2_5_header tojson default_system ctx = Ok h /\ all_out h = true.
Proof.
  intros Hne. unfold qwen2_5_header.
  destruct (messages ctx) as [|m0 ms]; [congruence|]. simpl.
  destruct (nonempty (tools_given (tools ctx))).
  - eexists. split; [reflexivity|].
    cbn [all_out forallb is_out andb app].
    destruct (String.eqb (role m0) "system"); cbn [all_out forallb is_out andb app];
      (change (forallb is_out) with all_out; rewrite all_out_app, tools_block_all_out;
       reflexivity).
  - destruct (String.eqb (role m0) "system"); eexists; split; reflexivity.
Qed.

Lemma qwen3_header_ok (ctx : Context) :
  messages ctx <> [] ->
  exists h, qwen3_header tojson ctx = Ok h /\ all_out h = true.
Proof.
  intros Hne. unfold qwen3_header.
  destruct (messages ctx) as [|m0 ms]; [congruence|]. simpl.
  destruct (nonempty (tools_given (tools ctx))).
  - eexists. split; [reflexivity|].
    cbn [all_out forallb is_out andb app].
    destruct (String.eqb (role m0) "system"); cbn [all_out forallb is_out andb app];
      (change (forallb is_out) with all_out; rewrite all_out_app, tools_block_all_out;
       reflexivity).
  - destruct (String.eqb (role m0) "system"); eexists; split; reflexivity.
Qed.

Lemma qwen2_5_total (default_system : string) (ctx : Context) :
  messages ctx <> [] -> exists bs, qwen2_5 tojson default_system ctx = Ok bs.
Proof.
  intros Hne. unfold qwen2_5.
  destruct (qwen2_5_header_ok default_system ctx Hne) as [h [-> _]].
  rewrite for_each_ok by (intros k x; apply qwen2_5_message_total).
  simpl. eauto.
Qed.

Lemma QWEN3_TEMPLATE_total (ctx : Context) :
  messages ctx <> [] -> exists bs, QWEN3_TEMPLATE tojson ctx = Ok bs.
Proof.
  intros Hne. rewrite QWEN3_TEMPLATE_eq. unfold qwen3_blocks.
  destruct (qwen3_header_ok ctx Hne) as [h [-> _]].
  rewrite for_each_ok by (intros k x; apply qwen3_message_total).
  simpl. eauto.
Qed.

Lemma jinja_templates_total (T : Context -> result (list block)) (ctx : Context) :
  In T (jinja_templates tojson) -> messages ctx <> [] -> exists bs, T ctx = Ok bs.
Proof.
  intros HT Hne. simpl in HT.
  destruct HT as [<- | [<- | [<- | [<- | [<- | []]]]]];
    try (apply qwen2_5_total; assumption).
  now apply QWEN3_TEMPLATE_total.
Qed.

End HeaderFacts.

(** ** Generation spans *)

(** C4 (QWEN2_5_TEMPLATE and siblings, QWEN3_TEMPLATE; generation spans).
    For every template of [qwen.py] and every context with at least one
    message the render produces an output and a span list; and whenever a
    render produces [(out, spans)], the spans are half-open pairs whose starts
    never decrease, no two of them overlap, each lies within
    [0, len(out)), and the gaps and spans taken in order concatenate back to
    [out]. *)
Theorem generation_spans_partition (tojson : json -> string)
    (T : Context -> result (list block)) (ctx : Context) :
  In T (jinja_templates tojson) ->
  (messages ctx <> [] -> exists out spans, render (T ctx) = Ok (out, spans))
  /\ forall out spans, render (T ctx) = Ok (out, spans) ->
       starts_monotone spans
       /\ non_overlapping spans
       /\ within spans (String.length out)
       /\ join (segments out 0 spans) = out.
Proof.
  intros HT. split.
  - intros Hne. destruct (jinja_templates_total tojson T ctx HT Hne) as [bs Hbs].
    rewrite Hbs. simpl. exists (fst (render_blocks bs)), (snd (render_blocks bs)).
    now destruct (render_blocks bs).
  - intros out spans H. unfold render in H.
    destruct (T ctx) as [bs | e]; simpl in H; [|discriminate].
    assert (Hr : render_blocks bs = (out, spans)) by congruence.
    pose proof (render_blocks_chain bs) as Hc.
    rewrite Hr in Hc. simpl in Hc.
    repeat split.
    + eapply chain_starts_monotone; eauto.
    + eapply chain_non_overlapping; eauto.
    + eapply chain_within; eauto.
    + eapply chain_within; eauto.
    + rewrite segments_join by assumption. apply slice_all.
Qed.

Lemma generation_spans_partition_witness :
  let ctx := sample_context [sample_message "user" "q"; sample_message "assistant" "a"] in
  In (QWEN3_TEMPLATE sample_tojson) (jinja_templates sample_tojson)
  /\ messages ctx <> []
  /\ (exists out spans, render (QWEN3_TEMPLATE sample_tojson ctx) = Ok (out, spans))
  /\ forall out spans, render (QWEN3_TEMPLATE sample_tojson ctx) = Ok (out, spans) ->
       starts_monotone spans
       /\ non_overlapping spans
       /\ within spans (String.length out)
       /\ join (segments out 0 spans) = out.
Proof.
  intros ctx.
  assert (Hin : In (QWEN3_TEMPLATE sample_tojson) (jinja_templates sample_tojson)).
  { simpl. do 4 right. left. reflexivity. }
  assert (Hne : messages ctx <> []) by discriminate.
  destruct (generation_spans_partition sample_tojson _ ctx Hin) as [Htotal Hspans].
  split; [exact Hin | split; [exact Hne | split; [exact (Htotal Hne) | exact Hspans]]].
Defined.

(** ** The generation prompt *)

(** C10 (QWEN3_TEMPLATE, add_generation_prompt).  For every context, the
    render with [add_generation_prompt] true is the render with the flag false
    followed by the assistant header, itself followed by an empty think block
    exactly when [enable_thinking] is defined and false; the span list is the
    same in both renders, and both raise on the same contexts. *)
Theorem generation_prompt_is_suffix (tojson : json -> string) (ctx : Context) :
  render (QWEN3_TEMPLATE tojson (with_generation_prompt true ctx))
  = match render (QWEN3_TEMPLATE tojson (with_generation_prompt false ctx)) with
    | Ok (out, spans) =>
        Ok (out ++ (im_start ++ "assistant" ++ nl) ++ empty_think ctx, spans)
    | Err e => Err e
    end.
Proof.
  rewrite !QWEN3_TEMPLATE_eq. unfold qwen3_blocks.
  change (qwen3_header tojson (with_generation_prompt true ctx))
    with (qwen3_header tojson ctx).
  change (qwen3_header tojson (with_generation_prompt false ctx))
    with (qwen3_header tojson ctx).
  unfold qwen3_generation_prompt.
  cbn [with_generation_prompt messages add_generation_prompt enable_thinking].
  destruct (qwen3_header tojson ctx) as [h | e]; [|reflexivity]. cbn [bind].
  destruct (for_each _ _) as [body | e]; [|reflexivity]. cbn [bind render].
  rewrite app_nil_r.
  rewrite (app_assoc h body). rewrite render_blocks_app.
  destruct (render_blocks (h ++ body)) as [out spans]. cbn [fst snd].
  unfold empty_think.
  destruct (enable_thinking ctx) as [[|]|]; cbv [render_blocks empty_tracker];
    cbn [fold_left track rendered_blocks generation_indices app join fold_right
         map fst snd];
    rewrite ?app_nil_r, ?append_nil_r; reflexivity.
Qed.

(** ** A lone assistant message *)

(** C6 (QWEN2_5_TEMPLATE, concrete scenario).  A conversation holding the
    single assistant message "hi" renders to an output that contains "hi" and
    has exactly one generation span, whose text is what the generation block
    produced, the end-of-turn marker included; a conversation holding only a
    system and a user message has no generation span.  Both hold for any
    tool list and flags. *)
Theorem lone_assistant_has_one_span (tojson : json -> string)
    (ts : option (list json)) (agp : bool) (et : option bool) :
  (forall rc, exists out s e,
     render
       (QWEN2_5_TEMPLATE tojson
          {| messages := [{| role := "assistant"; content := "hi";
                             tool_calls := []; reasoning_content := rc |}];
             tools := ts; add_generation_prompt := agp; enable_thinking := et |})
     = Ok (out, [(s, e)])
     /\ slice out s e = "hi" ++ im_end ++ nl
     /\ contains out "hi" = true)
  /\ (forall cs cu tcs tcu rcs rcu, exists out,
     render
       (QWEN2_5_TEMPLATE tojson
          {| messages := [{| role := "system"; content := cs;
                             tool_calls := tcs; reasoning_content := rcs |};
                          {| role := "user"; content := cu;
                             tool_calls := tcu; reasoning_content := rcu |}];
             tools := ts; add_generation_prompt := agp; enable_thinking := et |})
     = Ok (out, [])).
Proof.
  split.
  - intros rc. unfold QWEN2_5_TEMPLATE, qwen2_5.
    match goal with |- context [qwen2_5_header ?tj ?d ?c] =>
      destruct (qwen2_5_header_ok tj d c) as [h [Hh Hout]]; [discriminate|];
      rewrite Hh
    end.
    cbn [bind messages for_each iterations enumerate_from fold_right fst snd
         List.length].
    unfold qwen2_5_message. cbn [role tool_calls content nonempty].
    decide_role "assistant".
    cbn [orb andb negb bind app render].
    set (a := im_start ++ "assistant" ++ nl).
    set (g := "hi" ++ im_end ++ nl).
    set (p := generation_prompt _).
    assert (Hp : all_out p = true) by (subst p; unfold generation_prompt; simpl;
                                       now destruct agp).
    rewrite render_blocks_app.
    change (Out a :: Generation [g] :: p) with ([Out a; Generation [g]] ++ p)%list.
    rewrite render_blocks_app.
    rewrite (render_blocks_all_out h Hout), (render_blocks_all_out p Hp).
    set (oh := fst (render_blocks h)). set (op := fst (render_blocks p)).
    cbn [app map fst snd render_blocks fold_left track empty_tracker
         rendered_blocks generation_indices join fold_right shift].
    rewrite !append_nil_r. cbn [String.append String.length Nat.add].
    eexists _, _, _. split; [reflexivity|]. split.
    + cbn [fst snd].
      replace (oh ++ (a ++ g) ++ op) with ((oh ++ a) ++ g ++ op)
        by now rewrite !append_assoc.
      replace (String.length oh + String.length a) with (String.length (oh ++ a))
        by now rewrite length_append.
      replace (String.length oh + (String.length a + String.length g))
        with (String.length (oh ++ a) + String.length g)
        by (rewrite length_append; lia).
      apply slice_middle.
    + apply contains_spec. exists (oh ++ a), (im_end ++ nl ++ op).
      subst g. now rewrite !append_assoc.
  - intros cs cu tcs tcu rcs rcu. unfold QWEN2_5_TEMPLATE, qwen2_5.
    match goal with |- context [qwen2_5_header ?tj ?d ?c] =>
      destruct (qwen2_5_header_ok tj d c) as [h [Hh Hout]]; [discriminate|];
      rewrite Hh
    end.
    cbn [bind messages for_each iterations enumerate_from fold_right fst snd
         List.length].
    unfold qwen2_5_message. cbn [role tool_calls content mk_loop loop_first Nat.eqb].
    decide_role "system".
    decide_role "user".
    cbn [orb andb negb bind app render].
    match goal with |- context [render_blocks ?bs] =>
      assert (Hall : all_out bs = true)
    end.
    { rewrite all_out_app, Hout. unfold generation_prompt. simpl. now destruct agp. }
    pose proof (render_blocks_all_out _ Hall) as Hs.
    destruct (render_blocks _) as [o s]. simpl in Hs. subst s. now exists o.
Qed.

(** ** Runs of tool messages *)

Section ToolRuns.

Variable body : list Message -> Loop -> Message -> result (list block).

Hypothesis body_total : forall msgs i m, nth_error msgs i = Some m ->
  exists b, body msgs (mk_loop (List.length msgs) i) m = Ok b.

Hypothesis body_tool : forall msgs i m, nth_error msgs i = Some m -> role m = "tool" ->
  body msgs (mk_loop (List.length msgs) i) m = Ok (tool_blocks msgs i m).

Lemma wrapper_opens_spec (msgs : list Message) (i : nat) :
  i < List.length msgs ->
  (wrapper_opens msgs i = true <->
   i = 0 \/ exists p, nth_error msgs (i - 1) = Some p /\ role p <> "tool").
Proof.
  intros Hi. unfold wrapper_opens. rewrite orb_true_iff, Nat.eqb_eq, negb_true_iff.
  destruct (item_ok msgs (i - 1)) as [x [_ Hx]]; [lia|]. rewrite Hx. simpl.
  rewrite String.eqb_neq. split.
  - intros [H | H]; [now left | right; eauto].
  - intros [H | [p [[= <-] H]]]; [now left | now right].
Qed.

Lemma wrapper_closes_spec (msgs : list Message) (i : nat) :
  i < List.length msgs ->
  (wrapper_closes msgs i = true <->
   i = List.length msgs - 1
   \/ exists p, nth_error msgs (i + 1) = Some p /\ role p <> "tool").
Proof.
  intros Hi. unfold wrapper_closes. rewrite orb_true_iff, Nat.eqb_eq, negb_true_iff.
  split.
  - intros [H | H]; [left; lia|].
    destruct (Nat.eq_dec (S i) (List.length msgs)) as [E | E]; [left; lia | right].
    destruct (item_ok msgs (i + 1)) as [x [_ Hx]]; [lia|].
    rewrite Hx in H. simpl in H. apply String.eqb_neq in H. eauto.
  - intros [H | [p [Hp H]]]; [left; lia | right].
    rewrite Hp. simpl. now apply String.eqb_neq.
Qed.

Lemma tool_run_blocks (post : list Message) :
  has_role "tool" (nth_error post 0) = false ->
  forall run pre msgs, msgs = (pre ++ run ++ post)%list ->
  run <> [] -> Forall is_tool run ->
  flat_map (fun it => emitted (body msgs (fst it) (snd it)))
    (enumerate_from (List.length msgs) (List.length pre) run)
  = ((if wrapper_opens msgs (List.length pre) then [wrapper_open] else [])
     ++ flat_map tool_response run ++ [wrapper_close])%list.
Proof.
  intros Hpost. induction run as [|m run IH]; intros pre msgs Hmsgs Hne Htool;
    [congruence|].
  inversion Htool as [|? ? Hm Hrun]; subst x l.
  assert (Hnth : nth_error msgs (List.length pre) = Some m).
  { rewrite Hmsgs, nth_error_app2 by lia. now rewrite Nat.sub_diag. }
  cbn [enumerate_from flat_map fst snd].
  rewrite (body_tool _ _ _ Hnth Hm). cbn [emitted]. unfold tool_blocks.
  destruct run as [|m' run].
  - (* the run ends here *)
    cbn [enumerate_from flat_map]. rewrite !app_nil_r.
    assert (Hc : wrapper_closes msgs (List.length pre) = true).
    { unfold wrapper_closes. apply orb_true_iff.
      destruct post as [|p post].
      - left. apply Nat.eqb_eq. rewrite Hmsgs, !length_app. simpl. lia.
      - right. rewrite Hmsgs, nth_error_app2 by lia.
        replace (List.length pre + 1 - List.length pre) with 1 by lia.
        simpl in *. now rewrite Hpost. }
    rewrite Hc. reflexivity.
  - (* the next message is a tool message too *)
    assert (Hm' : is_tool m') by now inversion Hrun.
    assert (Hnext : nth_error msgs (List.length pre + 1) = Some m').
    { rewrite Hmsgs, nth_error_app2 by lia.
      replace (List.length pre + 1 - List.length pre) with 1 by lia. reflexivity. }
    assert (Hc : wrapper_closes msgs (List.length pre) = false).
    { unfold wrapper_closes. apply orb_false_iff. split.
      - apply Nat.eqb_neq. rewrite Hmsgs, !length_app. simpl. lia.
      - rewrite Hnext. simpl. unfold is_tool in Hm'. rewrite Hm'. reflexivity. }
    rewrite Hc.
    specialize (IH (pre ++ [m])%list msgs).
    rewrite length_app in IH. change (List.length [m]) with 1 in IH.
    rewrite Nat.add_1_r in IH.
    rewrite IH; [| rewrite Hmsgs, <- app_assoc; reflexivity | discriminate | assumption].
    assert (Ho : wrapper_opens msgs (S (List.length pre)) = false).
    { unfold wrapper_opens. simpl. rewrite Nat.sub_0_r, Hnth. simpl.
      unfold is_tool in Hm. rewrite Hm. reflexivity. }
    rewrite Ho. cbn [flat_map app]. rewrite !app_nil_r, <- !app_assoc. reflexivity.
Qed.

Lemma body_batches : batches_tool_messages body.
Proof.
  split.
  - intros msgs i m Hi Hm.
    assert (Hlt : i < List.length msgs) by (apply nth_error_Some; congruence).
    exists (wrapper_opens msgs i), (wrapper_closes msgs i). split; [|split].
    + now apply body_tool.
    + now apply wrapper_opens_spec.
    + now apply wrapper_closes_spec.
  - intros pre run post Hne Htool Hpre Hpost msgs blocks_of.
    rewrite for_each_ok by (intros k x; apply body_total).
    f_equal. unfold iterations. subst msgs.
    rewrite !enumerate_from_app, !flat_map_app. simpl.
    fold (blocks_of (enumerate_from (List.length (pre ++ run ++ post)) 0 pre)).
    f_equal.
    fold (blocks_of (enumerate_from (List.length (pre ++ run ++ post))
                       (List.length pre + List.length run) post)).
    rewrite (tool_run_blocks post Hpost run pre _ eq_refl Hne Htool).
    assert (Ho : wrapper_opens (pre ++ run ++ post) (List.length pre) = true).
    { unfold wrapper_opens. destruct pre as [|p0 pre']; [reflexivity|].
      apply orb_true_iff. right.
      rewrite nth_error_app1 by (simpl; lia). now rewrite Hpre. }
    rewrite Ho. rewrite <- !app_assoc. reflexivity.
Qed.

End ToolRuns.

(** C2 (QWEN2_5_TEMPLATE and siblings, QWEN3_TEMPLATE; tool messages).  In
    both message loops a tool message at index [i] is preceded by the literal
    "<|im_start|>user" exactly when [i = 0] or message [i-1] is not a tool
    message, and followed by the closing "<|im_end|>\n" exactly when [i] is
    the last index or message [i+1] is not a tool message; so a maximal run of
    tool messages is rendered as one opening, the tool responses in order, and
    one closing. *)
Theorem tool_messages_are_batched (tojson : json -> string) (v : Namespace) :
  batches_tool_messages (qwen2_5_message tojson)
  /\ batches_tool_messages (qwen3_message tojson v).
Proof.
  split; apply body_batches.
  - intros msgs i m. apply qwen2_5_message_total.
  - intros msgs i m Hi Hm. now apply qwen2_5_tool_message.
  - intros msgs i m. apply qwen3_message_total.
  - intros msgs i m Hi Hm. now apply qwen3_tool_message.
Qed.

Lemma tool_messages_are_batched_witness :
  let msgs := [sample_message "tool" "A"; sample_message "tool" "B";
               sample_message "user" "C"] in
  for_each msgs (qwen3_message sample_tojson (qwen3_namespace msgs) msgs)
  = Ok [wrapper_open;
        Out (nl ++ "<tool_response>" ++ nl); Out "A"; Out (nl ++ "</tool_response>");
        Out (nl ++ "<tool_response>" ++ nl); Out "B"; Out (nl ++ "</tool_response>");
        wrapper_close;
        Out (im_start ++ "user" ++ nl ++ "C" ++ im_end ++ nl)].
Proof.
  intros msgs.
  assert (Hrun : Forall is_tool [sample_message "tool" "A"; sample_message "tool" "B"]).
  { repeat constructor. }
  assert (Hne : [sample_message "tool" "A"; sample_message "tool" "B"] <> [])
    by discriminate.
  exact (proj2 (proj2 (tool_messages_are_batched sample_tojson (qwen3_namespace msgs)))
           [] [sample_message "tool" "A"; sample_message "tool" "B"]
           [sample_message "user" "C"] Hne Hrun eq_refl eq_refl).
Defined.

(** ** Tool calls of QWEN3_TEMPLATE *)

Lemma qwen3_assistant_message (tojson : json -> string) (v : Namespace)
    (msgs : list Message) (loop : Loop) (m : Message) :
  role m = "assistant" ->
  qwen3_message tojson v msgs loop m
  = Ok [Generation (qwen3_assistant_head v loop m
                    :: qwen3_tool_calls tojson m ++ [(im_end ++ nl)%string])%list].
Proof.
  intros Hr. unfold qwen3_message. rewrite Hr.
  decide_role "assistant".
  reflexivity.
Qed.

Lemma qwen3_tool_calls_flat_map (tojson : json -> string) (m : Message) :
  qwen3_tool_calls tojson m
  = flat_map
      (fun it => qwen3_tool_call tojson (fst (qwen3_thinking m)) (fst it) (snd it))
      (iterations (tool_calls m)).
Proof.
  unfold qwen3_tool_calls. destruct (tool_calls m); reflexivity.
Qed.

Lemma tool_call_text_of (tojson : json -> string) (content' : string)
    (loop : Loop) (tool_call : ToolCall) :
  join (qwen3_tool_call tojson content' loop tool_call)
  = (if loop_first loop && negb (truthy content') then EmptyString else nl)
    ++ tool_call_text (name (function_of tool_call))
         (qwen3_arguments tojson (function_of tool_call)).
Proof.
  unfold qwen3_tool_call, tool_call_text.
  set (f := function_of tool_call).
  destruct (loop_first loop), (truthy content');
    cbn [andb orb negb app join fold_right];
    rewrite ?append_nil_r, ?append_assoc; simpl; rewrite ?append_assoc;
    reflexivity.
Qed.

(** C8 (QWEN3_TEMPLATE, tool calls).  The generation block of an assistant
    message holds, after its head, the tool calls of the message in order and
    then the end-of-turn marker.  Every tool call is emitted as
    '<tool_call>\n{"name": "NAME", "arguments": ARGS}\n</tool_call>', after a
    newline unless it is the first tool call of a message with empty
    content; ARGS is the arguments value itself when that is a string and its
    [tojson] serialization otherwise. *)
Theorem tool_call_shape (tojson : json -> string) (v : Namespace)
    (msgs : list Message) (loop : Loop) (m : Message) :
  role m = "assistant" ->
  (exists head,
     qwen3_message tojson v msgs loop m
     = Ok [Generation
             (head
              :: flat_map
                   (fun it =>
                      qwen3_tool_call tojson (fst (qwen3_thinking m)) (fst it) (snd it))
                   (iterations (tool_calls m))
              ++ [(im_end ++ nl)%string])%list])
  /\ forall it, In it (iterations (tool_calls m)) ->
     exists sep ARGS,
       join (qwen3_tool_call tojson (fst (qwen3_thinking m)) (fst it) (snd it))
       = sep ++ tool_call_text (name (function_of (snd it))) ARGS
       /\ (forall s, arguments (function_of (snd it)) = JStr s -> ARGS = s)
       /\ ((forall s, arguments (function_of (snd it)) <> JStr s) ->
           ARGS = tojson (arguments (function_of (snd it))))
       /\ sep = (if loop_first (fst it) && negb (truthy (fst (qwen3_thinking m)))
                 then EmptyString else nl).
Proof.
  intros Hr. split.
  - exists (qwen3_assistant_head v loop m).
    rewrite <- qwen3_tool_calls_flat_map. now apply qwen3_assistant_message.
  - intros it _.
    exists (if loop_first (fst it) && negb (truthy (fst (qwen3_thinking m)))
            then EmptyString else nl),
           (qwen3_arguments tojson (function_of (snd it))).
    split; [apply tool_call_text_of | split; [|split]].
    + intros s Hs. unfold qwen3_arguments. now rewrite Hs.
    + intros Hs. unfold qwen3_arguments.
      destruct (arguments (function_of (snd it))) eqn:E; try reflexivity.
      now elim (Hs s).
    + reflexivity.
Qed.

Lemma tool_call_shape_witness :
  exists head,
    qwen3_message sample_tojson (qwen3_namespace [sample_tool_message])
      [sample_tool_message] (mk_loop 1 0) sample_tool_message
    = Ok [Generation
            [head;
             "<tool_call>" ++ nl ++ "{" ++ dq ++ "name" ++ dq ++ ": " ++ dq;
             "search"; dq ++ ", " ++ dq ++ "arguments" ++ dq ++ ": "; "{}";
             "}" ++ nl ++ "</tool_call>";
             nl;
             "<tool_call>" ++ nl ++ "{" ++ dq ++ "name" ++ dq ++ ": " ++ dq;
             "add"; dq ++ ", " ++ dq ++ "arguments" ++ dq ++ ": "; "{}";
             "}" ++ nl ++ "</tool_call>";
             im_end ++ nl]].
Proof.
  exact (proj1 (tool_call_shape sample_tojson (qwen3_namespace [sample_tool_message])
                  [sample_tool_message] (mk_loop 1 0) sample_tool_message eq_refl)).
Defined.

(** ** Assistant messages of QWEN3_TEMPLATE *)

Lemma truthy_spec (s : string) : truthy s = true <-> s <> EmptyString.
Proof. destruct s; simpl; split; congruence. Qed.

(** C1, as amended (QWEN3_TEMPLATE, think blocks).  When the conversation
    holds a true user query (a user message that is not a wrapped tool
    response), the reverse scan leaves the index of the last one in
    [ns.last_query_index].  Every assistant message at or after that index
    that is the final message or has a non-empty reasoning content is
    rendered with its think block: the generation block opens with
    '<|im_start|>assistant\n<think>\n' + stripped reasoning
    + '\n</think>\n\n' + content with its leading newlines stripped.  Every
    earlier assistant message is rendered without think block: its block
    opens with '<|im_start|>assistant\n' + content. *)
Theorem think_block_after_last_query (tojson : json -> string)
    (msgs : list Message) (k : nat) :
  last_query_at msgs k ->
  let v := qwen3_namespace msgs in
  last_query_index v = Z.of_nat k
  /\ forall i m, nth_error msgs i = Some m -> role m = "assistant" ->
       let content' := fst (qwen3_thinking m) in
       let reasoning := snd (qwen3_thinking m) in
       exists head rest,
         qwen3_message tojson v msgs (mk_loop (List.length msgs) i) m
         = Ok [Generation (head :: rest)]
         /\ (k <= i ->
             i = List.length msgs - 1 \/ reasoning <> EmptyString ->
             head = think_head reasoning content')
         /\ (i < k -> head = plain_head content').
Proof.
  intros Hk v.
  assert (Hv : last_query_index v = Z.of_nat k) by now apply last_query_index_spec.
  split; [exact Hv|].
  intros i m Hi Hr content' reasoning.
  assert (Hlt : i < List.length msgs) by (apply nth_error_Some; congruence).
  assert (Hik : i <> k).
  { intros ->. destruct Hk as [[q [Hq [Hu _]]] _]. congruence. }
  eexists _, _. split; [now apply qwen3_assistant_message|].
  unfold qwen3_assistant_head, think_head, plain_head.
  fold content' reasoning. cbn [mk_loop loop_index0 loop_last]. rewrite Hr, Hv.
  split.
  - intros Hge Hcase.
    destruct (Z.gtb_spec (Z.of_nat i) (Z.of_nat k)); [|lia].
    destruct (Nat.eqb_spec (S i) (List.length msgs)); [reflexivity|].
    destruct Hcase as [Hlast | Hre]; [lia|].
    apply truthy_spec in Hre. rewrite Hre. reflexivity.
  - intros Hlt'.
    destruct (Z.gtb_spec (Z.of_nat i) (Z.of_nat k)); [lia | reflexivity].
Qed.

Lemma think_block_after_last_query_witness :
  let msgs := [sample_message "user" "q";
               sample_message "assistant" "<think>r</think>a"] in
  last_query_index (qwen3_namespace msgs) = 0%Z
  /\ exists head rest,
       qwen3_message sample_tojson (qwen3_namespace msgs) msgs (mk_loop 2 1)
         (sample_message "assistant" "<think>r</think>a")
       = Ok [Generation (head :: rest)]
       /\ head = think_head "r" "a".
Proof.
  intros msgs.
  assert (Hk : last_query_at msgs 0).
  { split.
    - exists (sample_message "user" "q"). split; [reflexivity|].
      split; [reflexivity|]. intros [[t Ht] _]. discriminate Ht.
    - intros j y Hj Hy [Hu _].
      destruct j as [|[|j]]; [lia | | destruct j; discriminate Hy].
      injection Hy as <-. discriminate Hu. }
  destruct (think_block_after_last_query sample_tojson msgs 0 Hk) as [Hv Hall].
  split; [exact Hv|].
  destruct (Hall 1 (sample_message "assistant" "<think>r</think>a") eq_refl eq_refl)
    as [head [rest [Hm [Hthink _]]]].
  exists head, rest. split; [exact Hm|].
  apply Hthink; [lia | left; reflexivity].
Defined.

(** C1 as first stated, with the content appended as it is after the think
    block: it fails on the conversation [user "q", assistant "\nhi"].  The
    user message is the last true user query, at index 0; the assistant
    message is the final one; the template appends [content.lstrip('\n')],
    so the turn holds '</think>\n\nhi' and not '</think>\n\n\nhi'.  Here
    the derived content is the content field itself, so the claim fails
    whichever of the two it means. *)
Lemma think_block_unstripped_content_counterexample :
  let a := sample_message "assistant" (nl ++ "hi") in
  let msgs := [sample_message "user" "q"; a] in
  let v := qwen3_namespace msgs in
  (last_query_index v = 0%Z
   /\ true_user_query (sample_message "user" "q")
   /\ qwen3_thinking a = (nl ++ "hi", EmptyString)
   /\ qwen3_message sample_tojson v msgs (mk_loop (List.length msgs) 1) a
      = Ok [Generation
              [im_start ++ "assistant" ++ nl ++ "<think>" ++ nl ++ nl
               ++ "</think>" ++ nl ++ nl ++ "hi";
               im_end ++ nl]])
  /\ ~ (forall i m, nth_error msgs i = Some m -> role m = "assistant" ->
        (last_query_index v <= Z.of_nat i)%Z ->
        i = List.length msgs - 1 \/ snd (qwen3_thinking m) <> EmptyString ->
        exists rest,
          qwen3_message sample_tojson v msgs (mk_loop (List.length msgs) i) m
          = Ok [Generation
                  (think_head_unstripped (snd (qwen3_thinking m)) (content m)
                   :: rest)]
          \/ qwen3_message sample_tojson v msgs (mk_loop (List.length msgs) i) m
             = Ok [Generation
                     (think_head_unstripped (snd (qwen3_thinking m))
                        (fst (qwen3_thinking m))
                      :: rest)]).
Proof.
  intros a msgs v. split.
  - split; [vm_compute; reflexivity|].
    split; [|split; vm_compute; reflexivity].
    split; [reflexivity|]. intros [[t Ht] _]. discriminate Ht.
  - intros H.
    destruct (H 1 a eq_refl eq_refl) as [rest [Hrest | Hrest]].
    + vm_compute. discriminate.
    + left. reflexivity.
    + vm_compute in Hrest. discriminate.
    + vm_compute in Hrest. discriminate.
Qed.

(** ** Reasoning content *)

(** C3, as amended (QWEN3_TEMPLATE, reasoning content).  A message whose
    [reasoning_content] is set and not [None] is rendered from that value and
    its whole content.  Otherwise, when '</think>' does not occur in the
    content, the reasoning is empty and the content is unchanged; when it
    occurs, the visible content is the text after the last '</think>' with all
    its leading newlines stripped, and the reasoning is the text before the
    first '</think>', its trailing newlines stripped, cut down to what follows
    its last '<think>' (all of it when there is none), leading newlines
    stripped. *)
Theorem reasoning_is_split_at_think (m : Message) :
  (forall r, reasoning_content m = Present r -> qwen3_thinking m = (content m, r))
  /\ ((forall r, reasoning_content m <> Present r) ->
      (contains (content m) "</think>" = false ->
       qwen3_thinking m = (content m, EmptyString))
      /\ (forall pre post,
            content m = pre ++ "</think>" ++ post ->
            contains post "</think>" = false ->
            fst (qwen3_thinking m) = lstrip post nl)
      /\ (forall a b,
            content m = a ++ "</think>" ++ b ->
            contains a "</think>" = false ->
            (forall x y,
               rstrip a nl = x ++ "<think>" ++ y ->
               contains y "<think>" = false ->
               snd (qwen3_thinking m) = lstrip y nl)
            /\ (contains (rstrip a nl) "<think>" = false ->
                snd (qwen3_thinking m) = lstrip (rstrip a nl) nl))).
Proof.
  split.
  - intros r Hr. unfold qwen3_thinking. now rewrite Hr.
  - intros Hnone.
    assert (Hq : qwen3_thinking m
                 = if contains (content m) "</think>"
                   then (lstrip (last (split (content m) "</think>")) nl,
                         lstrip
                           (last (split (rstrip (first (split (content m) "</think>")) nl)
                                    "<think>")) nl)
                   else (content m, EmptyString)).
    { unfold qwen3_thinking. destruct (reasoning_content m) as [| |r] eqn:E;
        try reflexivity. now elim (Hnone r). }
    rewrite Hq. split; [|split].
    + intros H. now rewrite H.
    + intros pre post Hc Hpost.
      assert (Hin : contains (content m) "</think>" = true).
      { apply contains_spec. now exists pre, post. }
      rewrite Hin. cbn [fst]. rewrite Hc.
      now rewrite (split_last "</think>" eq_refl).
    + intros a b Hc Ha.
      assert (Hin : contains (content m) "</think>" = true).
      { apply contains_spec. now exists a, b. }
      rewrite Hin. cbn [snd]. rewrite Hc.
      rewrite (split_first "</think>" eq_refl) by assumption.
      split.
      * intros x y Hxy Hy. rewrite Hxy.
        now rewrite (split_last "<think>" eq_refl).
      * intros Hno. now rewrite (split_none "<think>" _ Hno).
Qed.

Lemma reasoning_is_split_at_think_witness :
  let m := sample_message "assistant"
             ("<think>" ++ nl ++ "r" ++ nl ++ "</think>" ++ nl ++ nl ++ "hi") in
  qwen3_thinking m = ("hi", "r").
Proof.
  intros m.
  assert (Hnone : forall r, reasoning_content m <> Present r) by discriminate.
  destruct (proj2 (reasoning_is_split_at_think m) Hnone) as [_ [Hvis Hrea]].
  specialize (Hvis ("<think>" ++ nl ++ "r" ++ nl) (nl ++ nl ++ "hi") eq_refl eq_refl).
  destruct (Hrea ("<think>" ++ nl ++ "r" ++ nl) (nl ++ nl ++ "hi") eq_refl eq_refl)
    as [Hthink _].
  specialize (Hthink EmptyString (nl ++ "r") eq_refl eq_refl).
  rewrite (surjective_pairing (qwen3_thinking m)), Hvis, Hthink. reflexivity.
Defined.

(** C3 with a single leading newline stripped from the visible content, as
    first stated: the usual two newlines after '</think>' are both removed by
    the template. *)
Lemma one_leading_newline_counterexample :
  let m := sample_message "assistant"
             ("<think>" ++ nl ++ "r" ++ nl ++ "</think>" ++ nl ++ nl ++ "hi") in
  ~ (forall pre post,
       content m = pre ++ "</think>" ++ post ->
       contains post "</think>" = false ->
       fst (qwen3_thinking m) = drop_one_newline post).
Proof.
  intros m H.
  specialize (H ("<think>" ++ nl ++ "r" ++ nl) (nl ++ nl ++ "hi") eq_refl eq_refl).
  vm_compute in H. discriminate.
Qed.

(** ** The reverse scan visits the messages back to front *)

Lemma enumerate_from_indices {A : Type} (n : nat) (l : list A) :
  forall i, map (fun it => loop_index0 (fst it)) (enumerate_from n i l)
            = seq i (List.length l).
Proof. induction l as [|x l IH]; intros i; simpl; [reflexivity | now rewrite IH]. Qed.

(** C5, as amended (QWEN3_TEMPLATE, reverse iteration).  The loop over
    [messages[::-1]] visits the messages from the last to the first, so the
    list [user, assistant, user] is visited as user (index 2), assistant
    (index 1), user (index 0); in every iteration
    [index = (messages|length - 1) - loop.index0] is the position of the
    visited message in the original list. *)
Theorem reverse_scan_visits_back_to_front (msgs : list Message) :
  (forall it, In it (iterations (reversed msgs)) ->
     (0 <= scan_index msgs (fst it))%Z
     /\ nth_error msgs (Z.to_nat (scan_index msgs (fst it))) = Some (snd it))
  /\ map (fun it => loop_index0 (fst it)) (iterations (reversed msgs))
     = seq 0 (List.length msgs)
  /\ map snd (iterations (reversed msgs)) = rev msgs
  /\ forall u0 a1 u2,
       map (fun it => (scan_index [u0; a1; u2] (fst it), snd it))
         (iterations (reversed [u0; a1; u2]))
       = [(2%Z, u2); (1%Z, a1); (0%Z, u0)].
Proof.
  split; [|split; [|split]].
  - intros it Hin. apply iterations_in in Hin. destruct Hin as [k [Hk1 Hk2]].
    unfold reversed in *. rewrite length_rev in Hk1.
    assert (Hk : k < List.length msgs).
    { rewrite <- length_rev. apply nth_error_Some. congruence. }
    rewrite nth_error_rev in Hk2.
    destruct (Nat.ltb_spec k (List.length msgs)); [|lia].
    unfold scan_index. rewrite Hk1. cbn [mk_loop loop_index0]. split; [lia|].
    replace (Z.to_nat (Z.of_nat (List.length msgs) - 1 - Z.of_nat k))
      with (List.length msgs - S k) by lia.
    assumption.
  - unfold iterations, reversed. rewrite enumerate_from_indices. now rewrite length_rev.
  - unfold iterations, reversed. generalize (List.length (rev msgs)) 0.
    induction (rev msgs) as [|x l IH]; intros n i; simpl; [reflexivity|].
    now rewrite IH.
  - intros u0 a1 u2. reflexivity.
Qed.

(** C5 with the order as first stated (assistant, then user at index 2,
    then user at index 0): the loop starts from the last message. *)
Lemma reverse_scan_assistant_first_counterexample :
  let msgs := [sample_message "user" "first"; sample_message "assistant" "answer";
               sample_message "user" "second"] in
  map (fun it => (role (snd it), scan_index msgs (fst it)))
    (iterations (reversed msgs))
  <> [("assistant", 1%Z); ("user", 2%Z); ("user", 0%Z)].
Proof. intros msgs. vm_compute. discriminate. Qed.

(** ** The declarative model *)

(** C9 (declarative model, single message).  Rendering a conversation
    template over a single message of a supported role gives the formatter of
    that role applied to the content of the message, with no separator; a
    lone user message under QWEN2_TEMPLATE renders to
    '<|im_start|>user\n' + content + '<|im_end|>\n', and a lone system message
    under YI1_5_TEMPLATE renders to its content. *)
Theorem single_message_uses_role_formatter (t : Declarative.ConversationTemplate)
    (m : Message) (f : Declarative.StringFormatter) :
  Declarative.formatter_for t (role m) = inr f ->
  Declarative.render t [m] = inr (Declarative.render_formatter f (content m))
  /\ (forall c tcs rc,
        Declarative.render Declarative.QWEN2_TEMPLATE
          [{| role := "user"; content := c; tool_calls := tcs;
              reasoning_content := rc |}]
        = inr ("<|im_start|>user" ++ nl ++ c ++ "<|im_end|>" ++ nl))
  /\ (forall c tcs rc,
        Declarative.render Declarative.YI1_5_TEMPLATE
          [{| role := "system"; content := c; tool_calls := tcs;
              reasoning_content := rc |}]
        = inr c).
Proof.
  intros Hf. split; [|split].
  - unfold Declarative.render. cbn [Declarative.render_each].
    unfold Declarative.message_role, Declarative.message_content.
    rewrite Hf. reflexivity.
  - intros c tcs rc. unfold Declarative.render. simpl.
    unfold Declarative.render_formatter. simpl.
    unfold Declarative.render_component. simpl.
    unfold Declarative.replace. simpl.
    rewrite !append_assoc. simpl. reflexivity.
  - intros c tcs rc. unfold Declarative.render. simpl.
    unfold Declarative.render_formatter. simpl.
    unfold Declarative.render_component. simpl.
    unfold Declarative.replace. simpl. now rewrite !append_nil_r.
Qed.

Lemma single_message_uses_role_formatter_witness :
  Declarative.render Declarative.QWEN2_TEMPLATE [sample_message "assistant" "hello"]
  = inr ("<|im_start|>assistant" ++ nl ++ "hello" ++ "<|im_end|>" ++ nl).
Proof.
  exact (proj1 (single_message_uses_role_formatter Declarative.QWEN2_TEMPLATE
                  (sample_message "assistant" "hello")
                  (Declarative.assistant_formatter Declarative.QWEN2_TEMPLATE)
                  eq_refl)).
Defined.

(** ** The spans cut out the generation regions *)

Section SpanTexts.

Lemma render_blocks_text (bs : list block) : fst (render_blocks bs) = text_of bs.
Proof.
  induction bs as [|b bs IH]; [reflexivity|].
  change (b :: bs) with ([b] ++ bs)%list. rewrite render_blocks_app. cbn [fst].
  rewrite IH. unfold text_of. cbn [map join fold_right app].
  f_equal. destruct b; apply append_nil_r.
Qed.

Lemma substring_zero (t : string) : forall a, substring a 0 t = EmptyString.
Proof.
  induction t as [|c t IH]; intros a; destruct a; simpl; try reflexivity.
  apply IH.
Qed.

Lemma slice_app_l (s t : string) :
  forall a b, b <= String.length s -> slice (s ++ t) a b = slice s a b.
Proof.
  unfold slice. induction s as [|c s IH]; intros a b Hb; simpl in Hb.
  - assert (b = 0) by lia. subst b. simpl.
    rewrite substring_zero. destruct a; reflexivity.
  - destruct a as [|a].
    + rewrite !Nat.sub_0_r. destruct b as [|b]; [reflexivity|]. simpl.
      specialize (IH 0 b). rewrite !Nat.sub_0_r in IH. rewrite IH by lia. reflexivity.
    + destruct b as [|b].
      * simpl. specialize (IH a 0). simpl in IH. apply IH. lia.
      * simpl. apply IH. lia.
Qed.

Lemma span_texts_app_l (out t : string) (spans : list Span) :
  within spans (String.length out) ->
  span_texts (out ++ t) spans = span_texts out spans.
Proof.
  intros H. unfold span_texts. apply map_ext_in. intros p Hp.
  apply slice_app_l. now apply H.
Qed.

Lemma render_blocks_generation (body : list string) :
  render_blocks [Generation body] = (join body, [(0, String.length (join body))]).
Proof.
  unfold render_blocks. simpl. now rewrite append_nil_r.
Qed.

Lemma span_texts_app (out : string) (l1 l2 : list Span) :
  span_texts out (l1 ++ l2) = (span_texts out l1 ++ span_texts out l2)%list.
Proof. apply map_app. Qed.

Lemma render_blocks_within (bs : list block) :
  within (snd (render_blocks bs)) (String.length (fst (render_blocks bs))).
Proof. eapply chain_within. apply render_blocks_chain. Qed.

(** The spans of a render cut out exactly the texts of its generation
    regions, in order. *)
Lemma render_blocks_span_texts (bs : list block) :
  span_texts (fst (render_blocks bs)) (snd (render_blocks bs)) = generation_texts bs.
Proof.
  induction bs as [|b bs IH] using rev_ind; [reflexivity|].
  rewrite render_blocks_app. cbn [fst snd].
  rewrite span_texts_app.
  rewrite span_texts_app_l by apply render_blocks_within. rewrite IH.
  unfold generation_texts. rewrite flat_map_app. f_equal.
  destruct b as [s | body]; [reflexivity|].
  rewrite render_blocks_generation. cbn [fst snd map span_texts shift flat_map app].
  f_equal. rewrite Nat.add_0_r.
  rewrite <- (append_nil_r (join body)) at 1. apply slice_middle.
Qed.

End SpanTexts.

(** ** Generation targets of the templates *)

Section Targets.

Variable tojson : json -> string.

Lemma generation_texts_app (a b : list block) :
  generation_texts (a ++ b) = (generation_texts a ++ generation_texts b)%list.
Proof. apply flat_map_app. Qed.

Lemma generation_texts_all_out (bs : list block) :
  all_out bs = true -> generation_texts bs = [].
Proof.
  induction bs as [|b bs IH]; intros H; [reflexivity|].
  simpl in H. apply andb_true_iff in H. destruct H as [Hb Hbs].
  destruct b; [|discriminate]. simpl. now apply IH.
Qed.

Lemma generation_texts_flat_map {A : Type} (f : A -> list block) (l : list A) :
  generation_texts (flat_map f l) = flat_map (fun x => generation_texts (f x)) l.
Proof.
  induction l as [|x l IH]; [reflexivity|].
  simpl. now rewrite generation_texts_app, IH.
Qed.

Lemma flat_map_filter {A B : Type} (p : A -> bool) (h : A -> list B)
    (g : A -> list B) (l : list A) :
  (forall x, In x l -> g x = if p x then h x else []) ->
  flat_map g l = flat_map h (filter p l).
Proof.
  induction l as [|x l IH]; intros H; [reflexivity|].
  simpl. rewrite (H x (or_introl eq_refl)), IH by (intros y Hy; apply H; now right).
  destruct (p x); reflexivity.
Qed.

Lemma flat_map_singleton {A B : Type} (h : A -> B) (l : list A) :
  flat_map (fun x => [h x]) l = map h l.
Proof. induction l as [|x l IH]; simpl; [reflexivity | now rewrite IH]. Qed.

Lemma iterations_snd {A : Type} (l : list A) : map snd (iterations l) = l.
Proof.
  unfold iterations. generalize (List.length l) 0.
  induction l as [|x l IH]; intros n i; simpl; [reflexivity | now rewrite IH].
Qed.

Lemma filter_snd_length {A B : Type} (p : B -> bool) (l : list (A * B)) :
  List.length (filter (fun it => p (snd it)) l)
  = List.length (filter p (map snd l)).
Proof.
  induction l as [|x l IH]; [reflexivity|].
  simpl. destruct (p (snd x)); simpl; now rewrite IH.
Qed.

Lemma tool_blocks_all_out (msgs : list Message) (i : nat) (m : Message) :
  all_out (tool_blocks msgs i m) = true.
Proof.
  unfold tool_blocks, wrapper_open, wrapper_close, tool_response.
  destruct (wrapper_opens msgs i), (wrapper_closes msgs i); reflexivity.
Qed.

(** Only assistant messages hold generation regions. *)
Lemma qwen3_message_targets (v : Namespace) (msgs : list Message)
    (it : Loop * Message) :
  In it (iterations msgs) ->
  generation_texts (emitted (qwen3_message tojson v msgs (fst it) (snd it)))
  = if is_assistant (snd it) then [qwen3_turn_text tojson v it] else [].
Proof.
  intros Hin. destruct (iterations_in _ _ Hin) as [k [Hk1 Hk2]].
  destruct it as [loop m]. cbn [fst snd] in *. subst loop.
  unfold is_assistant. destruct (String.eqb (role m) "assistant") eqn:Ea.
  - apply String.eqb_eq in Ea. rewrite (qwen3_assistant_message tojson v msgs _ m Ea).
    reflexivity.
  - unfold qwen3_message. rewrite Ea.
    destruct (_ || _); [reflexivity|].
    destruct (String.eqb (role m) "tool") eqn:Et; [|reflexivity].
    rewrite (opening_guard_first _ _ _ Hk2), (closing_guard _ _ _ Hk2).
    cbn [bind emitted]. apply generation_texts_all_out.
    apply tool_blocks_all_out.
Qed.

Lemma qwen2_5_tool_calls_targets (tcs : list ToolCall) :
  generation_texts (flat_map (qwen2_5_tool_call tojson) tcs)
  = map (fun tool_call =>
           (nl ++ tool_call_text (name (function_of tool_call))
                    (tojson (arguments (function_of tool_call))))%string)
      tcs.
Proof.
  induction tcs as [|tc tcs IH]; [reflexivity|].
  cbn [flat_map map]. rewrite generation_texts_app, IH.
  assert (H1 : generation_texts (qwen2_5_tool_call tojson tc)
               = [(nl ++ tool_call_text (name (function_of tc))
                           (tojson (arguments (function_of tc))))%string]).
  { unfold qwen2_5_tool_call, tool_call_text.
    cbn [generation_texts flat_map app join fold_right].
    f_equal; rewrite ?append_assoc, ?append_nil_r; reflexivity. }
  rewrite H1. reflexivity.
Qed.

Lemma qwen2_5_message_targets (msgs : list Message) (it : Loop * Message) :
  In it (iterations msgs) ->
  generation_texts (emitted (qwen2_5_message tojson msgs (fst it) (snd it)))
  = if is_assistant (snd it) then qwen2_5_targets_of tojson (snd it) else [].
Proof.
  intros Hin. destruct (iterations_in _ _ Hin) as [k [Hk1 Hk2]].
  destruct it as [loop m]. cbn [fst snd] in *. subst loop.
  unfold is_assistant, qwen2_5_message, qwen2_5_targets_of.
  destruct (String.eqb (role m) "assistant") eqn:Ea.
  - rewrite orb_true_r || idtac.
    destruct (nonempty (tool_calls m)) eqn:Etc; cbn [negb andb orb].
    + destruct (String.eqb (role m) "user") eqn:Eu.
      { apply String.eqb_eq in Eu, Ea. congruence. }
      destruct (String.eqb (role m) "system") eqn:Es.
      { apply String.eqb_eq in Es, Ea. congruence. }
      cbn [andb orb emitted].
      rewrite !generation_texts_app, qwen2_5_tool_calls_targets.
      destruct (truthy (content m)); cbn; rewrite ?append_nil_r; reflexivity.
    + rewrite orb_true_r. cbn [emitted generation_texts flat_map app join fold_right].
      now rewrite append_nil_r.
  - cbn [andb]. rewrite orb_false_r.
    destruct (_ || _); [reflexivity|].
    destruct (String.eqb (role m) "tool") eqn:Et; [|reflexivity].
    rewrite (opening_guard_index0 _ _ _ Hk2), (closing_guard _ _ _ Hk2).
    cbn [bind emitted]. apply generation_texts_all_out.
    apply tool_blocks_all_out.
Qed.

(** The generation regions of a whole render of QWEN3_TEMPLATE. *)
Lemma qwen3_generation_texts (ctx : Context) (bs : list block) :
  QWEN3_TEMPLATE tojson ctx = Ok bs ->
  generation_texts bs = qwen3_targets tojson (messages ctx).
Proof.
  rewrite QWEN3_TEMPLATE_eq. unfold qwen3_blocks. intros H.
  assert (Hne : messages ctx <> []).
  { intros E. unfold qwen3_header in H. rewrite E in H.
    destruct (nonempty _); discriminate. }
  destruct (qwen3_header_ok tojson ctx Hne) as [h [Hh Hout]].
  rewrite Hh in H. cbn [bind] in H.
  rewrite for_each_ok in H by (intros k x; apply qwen3_message_total).
  cbn [bind] in H. injection H as <-.
  rewrite !generation_texts_app, (generation_texts_all_out h Hout).
  rewrite (generation_texts_all_out (qwen3_generation_prompt ctx)).
  2:{ unfold qwen3_generation_prompt.
      destruct (add_generation_prompt ctx); [|reflexivity].
      destruct (enable_thinking ctx) as [[|]|]; reflexivity. }
  rewrite app_nil_r. cbn [app]. rewrite generation_texts_flat_map.
  unfold qwen3_targets.
  rewrite (flat_map_filter (fun it => is_assistant (snd it))
             (fun it => [qwen3_turn_text tojson (qwen3_namespace (messages ctx)) it])).
  - apply flat_map_singleton.
  - intros it Hin. now apply qwen3_message_targets.
Qed.

(** The generation regions of a whole render of QWEN2_5_TEMPLATE or one of
    its siblings. *)
Lemma qwen2_5_generation_texts (default_system : string) (ctx : Context)
    (bs : list block) :
  qwen2_5 tojson default_system ctx = Ok bs ->
  generation_texts bs = qwen2_5_targets tojson (messages ctx).
Proof.
  unfold qwen2_5. intros H.
  assert (Hne : messages ctx <> []).
  { intros E. unfold qwen2_5_header in H. rewrite E in H.
    destruct (nonempty _); discriminate. }
  destruct (qwen2_5_header_ok tojson default_system ctx Hne) as [h [Hh Hout]].
  rewrite Hh in H. cbn [bind] in H.
  rewrite for_each_ok in H by (intros k x; apply qwen2_5_message_total).
  cbn [bind] in H. injection H as <-.
  rewrite !generation_texts_app, (generation_texts_all_out h Hout).
  rewrite (generation_texts_all_out (generation_prompt ctx)).
  2:{ unfold generation_prompt. now destruct (add_generation_prompt ctx). }
  rewrite app_nil_r. cbn [app]. rewrite generation_texts_flat_map.
  unfold qwen2_5_targets.
  rewrite (flat_map_filter (fun it => is_assistant (snd it))
             (fun it => qwen2_5_targets_of tojson (snd it))).
  - rewrite <- (iterations_snd (messages ctx)) at 2.
    generalize (iterations (messages ctx)). intros l.
    induction l as [|x l IH]; [reflexivity|].
    simpl. destruct (is_assistant (snd x)); simpl; now rewrite IH.
  - intros it Hin. now apply qwen2_5_message_targets.
Qed.

End Targets.

(** ** Where the spans lie *)

Section Layout.

Variable tojson : json -> string.

Lemma pieces_text_app (p q : list Piece) :
  pieces_text (p ++ q) = pieces_text p ++ pieces_text q.
Proof. unfold pieces_text. now rewrite map_app, join_app. Qed.

Lemma piece_spans_app (p q : list Piece) :
  forall off,
  piece_spans off (p ++ q)
  = (piece_spans off p ++ piece_spans (off + String.length (pieces_text p)) q)%list.
Proof.
  induction p as [|x p IH]; intros off.
  - cbn [app piece_spans pieces_text map join fold_right String.length].
    now rewrite Nat.add_0_r.
  - cbn [app piece_spans]. rewrite IH, <- app_assoc. do 3 f_equal.
    change (pieces_text (x :: p)) with (snd x ++ pieces_text p).
    rewrite length_append. lia.
Qed.

Lemma piece_spans_shift (k : nat) (ps : list Piece) :
  forall off, piece_spans (k + off) ps = map (shift k) (piece_spans off ps).
Proof.
  induction ps as [|p ps IH]; intros off; [reflexivity|].
  cbn [piece_spans]. rewrite map_app, <- IH, Nat.add_assoc. f_equal.
  destruct (fst p); [|reflexivity].
  cbn [map]. unfold shift. cbn [fst snd]. now rewrite Nat.add_assoc.
Qed.

Lemma pieces_of_app (a b : list block) :
  pieces_of (a ++ b) = (pieces_of a ++ pieces_of b)%list.
Proof. apply map_app. Qed.

Lemma pieces_of_flat_map {X : Type} (f : X -> list block) (l : list X) :
  pieces_of (flat_map f l) = flat_map (fun x => pieces_of (f x)) l.
Proof.
  induction l as [|x l IH]; [reflexivity|].
  cbn [flat_map]. now rewrite pieces_of_app, IH.
Qed.

Lemma pieces_of_text (bs : list block) : pieces_text (pieces_of bs) = text_of bs.
Proof. unfold pieces_text, pieces_of, text_of. now rewrite map_map. Qed.

(** The tracker records the ranges of the generated pieces. *)
Lemma render_blocks_pieces (bs : list block) :
  render_blocks bs = (pieces_text (pieces_of bs), piece_spans 0 (pieces_of bs)).
Proof.
  induction bs as [|b bs IH]; [reflexivity|].
  change (b :: bs) with ([b] ++ bs)%list.
  rewrite render_blocks_app, IH, pieces_of_app, pieces_text_app, piece_spans_app.
  cbn [fst snd]. rewrite <- piece_spans_shift, Nat.add_0_r.
  destruct b as [s | body].
  - cbv [render_blocks empty_tracker].
    cbn [fold_left track rendered_blocks generation_indices app join fold_right
         map fst snd].
    unfold pieces_text. cbn [pieces_of map snd block_text join fold_right
                             piece_spans fst negb is_out app].
    now rewrite !append_nil_r.
  - rewrite render_blocks_generation. cbn [fst snd].
    unfold pieces_text. cbn [pieces_of map snd block_text join fold_right
                             piece_spans fst negb is_out app].
    now rewrite !append_nil_r.
Qed.

Lemma same_layout_refl (p : list Piece) : same_layout p p.
Proof. split; reflexivity. Qed.

Lemma same_layout_app (p p' q q' : list Piece) :
  same_layout p p' -> same_layout q q' -> same_layout (p ++ q) (p' ++ q').
Proof.
  intros [Hp1 Hp2] [Hq1 Hq2]. split.
  - now rewrite !pieces_text_app, Hp1, Hq1.
  - intros off. now rewrite !piece_spans_app, Hp1, Hp2, Hq2.
Qed.

Lemma same_layout_flat_map {X : Type} (f g : X -> list Piece) (l : list X) :
  (forall x, In x l -> same_layout (f x) (g x)) ->
  same_layout (flat_map f l) (flat_map g l).
Proof.
  induction l as [|x l IH]; intros H; [apply same_layout_refl|].
  cbn [flat_map]. apply same_layout_app.
  - apply H. now left.
  - apply IH. intros y Hy. apply H. now right.
Qed.

(** Blocks outside generation regions count as one piece. *)
Lemma all_out_layout (bs : list block) :
  all_out bs = true -> same_layout (pieces_of bs) [(false, text_of bs)].
Proof.
  intros H. split.
  - rewrite pieces_of_text. unfold pieces_text. cbn [map snd join fold_right].
    now rewrite append_nil_r.
  - induction bs as [|b bs IH]; intros off; [reflexivity|].
    cbn [all_out forallb] in H. apply andb_true_iff in H. destruct H as [Hb Hbs].
    destruct b as [s | body]; [|discriminate].
    cbn [pieces_of map is_out negb piece_spans fst snd app].
    change (map (fun b => (negb (is_out b), block_text b)) bs) with (pieces_of bs).
    rewrite (IH Hbs). reflexivity.
Qed.

(** Generation blocks count as one generated piece each. *)
Lemma generation_pieces (bs : list block) :
  forallb (fun b => negb (is_out b)) bs = true ->
  pieces_of bs = map (fun t => (true, t)) (generation_texts bs).
Proof.
  induction bs as [|b bs IH]; intros H; [reflexivity|].
  cbn [forallb] in H. apply andb_true_iff in H. destruct H as [Hb Hbs].
  destruct b as [s | body]; [discriminate|].
  cbn [pieces_of map is_out negb block_text generation_texts flat_map app].
  f_equal. now apply IH.
Qed.

Lemma qwen3_message_all_out (v : Namespace) (msgs : list Message)
    (it : Loop * Message) :
  In it (iterations msgs) -> is_assistant (snd it) = false ->
  all_out (emitted (qwen3_message tojson v msgs (fst it) (snd it))) = true.
Proof.
  intros Hin Ha. destruct (iterations_in _ _ Hin) as [k [Hk1 Hk2]].
  destruct it as [loop m]. cbn [fst snd] in *. subst loop.
  unfold is_assistant in Ha. unfold qwen3_message. rewrite Ha.
  destruct (_ || _); [reflexivity|].
  destruct (String.eqb (role m) "tool") eqn:Et; [|reflexivity].
  rewrite (opening_guard_first _ _ _ Hk2), (closing_guard _ _ _ Hk2).
  cbn [bind emitted]. apply tool_blocks_all_out.
Qed.

Lemma qwen2_5_message_all_out (msgs : list Message) (it : Loop * Message) :
  In it (iterations msgs) -> is_assistant (snd it) = false ->
  all_out (emitted (qwen2_5_message tojson msgs (fst it) (snd it))) = true.
Proof.
  intros Hin Ha. destruct (iterations_in _ _ Hin) as [k [Hk1 Hk2]].
  destruct it as [loop m]. cbn [fst snd] in *. subst loop.
  unfold is_assistant in Ha. unfold qwen2_5_message. rewrite Ha.
  cbn [andb]. rewrite orb_false_r.
  destruct (_ || _); [reflexivity|].
  destruct (String.eqb (role m) "tool") eqn:Et; [|reflexivity].
  rewrite (opening_guard_index0 _ _ _ Hk2), (closing_guard _ _ _ Hk2).
  cbn [bind emitted]. apply tool_blocks_all_out.
Qed.

Lemma qwen3_prompt_all_out (ctx : Context) :
  all_out (qwen3_generation_prompt ctx) = true.
Proof.
  unfold qwen3_generation_prompt.
  destruct (add_generation_prompt ctx); [|reflexivity].
  now destruct (enable_thinking ctx) as [[|]|].
Qed.

Lemma qwen2_5_prompt_all_out (ctx : Context) :
  all_out (generation_prompt ctx) = true.
Proof. unfold generation_prompt. now destruct (add_generation_prompt ctx). Qed.

(** The blocks of a render of QWEN3_TEMPLATE lie as [qwen3_layout] says. *)
Lemma qwen3_layout_ok (ctx : Context) (bs : list block) :
  QWEN3_TEMPLATE tojson ctx = Ok bs ->
  exists h,
    qwen3_header tojson ctx = Ok h
    /\ same_layout (pieces_of bs) (qwen3_layout tojson ctx h).
Proof.
  rewrite QWEN3_TEMPLATE_eq. unfold qwen3_blocks. intros H.
  assert (Hne : messages ctx <> []).
  { intros E. unfold qwen3_header in H. rewrite E in H.
    destruct (nonempty _); discriminate. }
  destruct (qwen3_header_ok tojson ctx Hne) as [h [Hh Hout]].
  rewrite Hh in H. cbn [bind] in H.
  rewrite for_each_ok in H by (intros k x; apply qwen3_message_total).
  cbn [bind] in H. injection H as <-.
  exists h. split; [exact Hh|].
  unfold qwen3_layout. rewrite !pieces_of_app.
  change ((false, text_of h) :: ?l)%list with ([(false, text_of h)] ++ l)%list.
  apply same_layout_app; [now apply all_out_layout|].
  apply same_layout_app; [|apply all_out_layout, qwen3_prompt_all_out].
  rewrite pieces_of_flat_map, <- flat_map_singleton.
  apply same_layout_flat_map. intros it Hin.
  destruct (is_assistant (snd it)) eqn:Ea.
  - unfold is_assistant in Ea. apply String.eqb_eq in Ea.
    rewrite qwen3_assistant_message by assumption. apply same_layout_refl.
  - now apply all_out_layout, qwen3_message_all_out.
Qed.

Lemma qwen2_5_assistant_pieces (msgs : list Message) (lp : Loop) (m : Message) :
  role m = "assistant" ->
  pieces_of (emitted (qwen2_5_message tojson msgs lp m))
  = (false, qwen2_5_role_header m)
    :: map (fun t => (true, t)) (qwen2_5_targets_of tojson m).
Proof.
  intros Hr. unfold qwen2_5_message, qwen2_5_targets_of, qwen2_5_role_header.
  rewrite Hr. decide_role "assistant". cbn [orb andb].
  destruct (nonempty (tool_calls m)); cbn [negb orb emitted].
  - cbn [app pieces_of map is_out negb block_text]. f_equal.
    change (map (fun b => (negb (is_out b), block_text b))) with pieces_of.
    rewrite generation_pieces.
    + rewrite !generation_texts_app, qwen2_5_tool_calls_targets.
      destruct (truthy (content m));
        cbn [generation_texts flat_map app join fold_right map];
        now rewrite ?append_nil_r.
    + rewrite !forallb_app. apply andb_true_iff. split.
      { now destruct (truthy (content m)). }
      apply andb_true_iff. split; [|reflexivity].
      induction (tool_calls m) as [|tc tcs IH]; [reflexivity|].
      cbn [flat_map]. rewrite forallb_app, IH. reflexivity.
  - cbn [pieces_of map is_out negb block_text join fold_right].
    now rewrite append_nil_r.
Qed.

(** The blocks of a render of a Qwen2.5 template lie as [qwen2_5_layout]
    says. *)
Lemma qwen2_5_layout_ok (d : string) (ctx : Context) (bs : list block) :
  qwen2_5 tojson d ctx = Ok bs ->
  exists h,
    qwen2_5_header tojson d ctx = Ok h
    /\ same_layout (pieces_of bs) (qwen2_5_layout tojson ctx h).
Proof.
  unfold qwen2_5. intros H.
  assert (Hne : messages ctx <> []).
  { intros E. unfold qwen2_5_header in H. rewrite E in H.
    destruct (nonempty _); discriminate. }
  destruct (qwen2_5_header_ok tojson d ctx Hne) as [h [Hh Hout]].
  rewrite Hh in H. cbn [bind] in H.
  rewrite for_each_ok in H by (intros k x; apply qwen2_5_message_total).
  cbn [bind] in H. injection H as <-.
  exists h. split; [exact Hh|].
  unfold qwen2_5_layout. rewrite !pieces_of_app.
  change ((false, text_of h) :: ?l)%list with ([(false, text_of h)] ++ l)%list.
  apply same_layout_app; [now apply all_out_layout|].
  apply same_layout_app; [|apply all_out_layout, qwen2_5_prompt_all_out].
  rewrite pieces_of_flat_map.
  apply same_layout_flat_map. intros it Hin.
  unfold qwen2_5_message_pieces.
  destruct (is_assistant (snd it)) eqn:Ea.
  - unfold is_assistant in Ea. apply String.eqb_eq in Ea.
    rewrite qwen2_5_assistant_pieces by assumption. apply same_layout_refl.
  - now apply all_out_layout, qwen2_5_message_all_out.
Qed.

(** A render lies as the layout of its blocks says. *)
Lemma render_layout (r : result (list block)) (out : string) (spans : list Span)
    (bs : list block) (layout : list Piece) :
  render r = Ok (out, spans) -> r = Ok bs -> same_layout (pieces_of bs) layout ->
  out = pieces_text layout /\ spans = piece_spans 0 layout.
Proof.
  intros H -> [Ht Hs]. cbn [render bind] in H. rewrite render_blocks_pieces in H.
  injection H as <- <-. now rewrite Ht, Hs.
Qed.

End Layout.

Section TargetTheorems.

Variable tojson : json -> string.

Lemma render_ok_inv (r : result (list block)) (out : string) (spans : list Span) :
  render r = Ok (out, spans) ->
  exists bs, r = Ok bs /\ fst (render_blocks bs) = out /\ snd (render_blocks bs) = spans.
Proof.
  unfold render. destruct r as [bs | e]; cbn [bind]; [|discriminate].
  intros H. exists bs. assert (E : render_blocks bs = (out, spans)) by congruence.
  rewrite E. auto.
Qed.

Lemma render_span_texts (r : result (list block)) (out : string) (spans : list Span) :
  render r = Ok (out, spans) ->
  exists bs, r = Ok bs /\ span_texts out spans = generation_texts bs.
Proof.
  intros H. destruct (render_ok_inv _ _ _ H) as [bs [Hr [<- <-]]].
  exists bs. split; [assumption | apply render_blocks_span_texts].
Qed.

Lemma qwen2_5_templates_inv (T : Context -> result (list block)) :
  In T (qwen2_5_templates tojson) -> exists d, T = qwen2_5 tojson d.
Proof.
  simpl. intros [<- | [<- | [<- | [<- | []]]]]; eexists; reflexivity.
Qed.

Lemma qwen3_turn_text_shape (v : Namespace) (it : Loop * Message) :
  is_assistant (snd it) = true ->
  startswith (qwen3_turn_text tojson v it) (im_start ++ "assistant" ++ nl) = true
  /\ endswith (qwen3_turn_text tojson v it) (im_end ++ nl) = true.
Proof.
  intros Ha. apply String.eqb_eq in Ha. unfold qwen3_turn_text.
  split.
  - apply startswith_spec. unfold qwen3_assistant_head. rewrite Ha.
    cbn [join fold_right].
    destruct (_ >? _)%Z; [destruct (_ || _)|]; eexists;
      rewrite !append_assoc; reflexivity.
  - apply endswith_spec. cbn [join fold_right].
    fold (join (qwen3_tool_calls tojson (snd it) ++ [(im_end ++ nl)%string])).
    rewrite join_snoc. eexists. rewrite <- append_assoc. reflexivity.
Qed.

Lemma span_texts_length (out : string) (spans : list Span) :
  List.length (span_texts out spans) = List.length spans.
Proof. apply length_map. Qed.

Lemma qwen2_5_targets_of_nonempty (m : Message) : qwen2_5_targets_of tojson m <> [].
Proof.
  unfold qwen2_5_targets_of. destruct (nonempty (tool_calls m)); [|discriminate].
  intros H. apply (f_equal (@List.length string)) in H.
  rewrite !length_app in H. simpl in H. lia.
Qed.

Lemma filter_nil_iff {A : Type} (p : A -> bool) (l : list A) :
  filter p l = [] <-> forall x, In x l -> p x = false.
Proof.
  induction l as [|x l IH]; simpl.
  - split; [intros _ y [] | reflexivity].
  - destruct (p x) eqn:Px.
    + split; [discriminate|]. intros H. rewrite (H x (or_introl eq_refl)) in Px.
      discriminate.
    + rewrite IH. split.
      * intros H y [<- | Hy]; [assumption | now apply H].
      * intros H y Hy. apply H. now right.
Qed.

Lemma no_assistant_iff (msgs : list Message) :
  filter is_assistant msgs = [] <-> forall m, In m msgs -> role m <> "assistant".
Proof.
  rewrite filter_nil_iff. split; intros H m Hm.
  - apply String.eqb_neq. now apply H.
  - apply String.eqb_neq. now apply H.
Qed.

Lemma filter_iterations_nil (msgs : list Message) :
  filter (fun it => is_assistant (snd it)) (iterations msgs) = []
  <-> filter is_assistant msgs = [].
Proof.
  rewrite <- !length_zero_iff_nil, filter_snd_length, iterations_snd. reflexivity.
Qed.

Lemma qwen2_5_tool_calls_text (tcs : list ToolCall) :
  join (map block_text (flat_map (qwen2_5_tool_call tojson) tcs))
  = join (map (fun tool_call =>
                 (nl ++ tool_call_text (name (function_of tool_call))
                          (tojson (arguments (function_of tool_call))))%string)
            tcs).
Proof.
  induction tcs as [|tc tcs IH]; [reflexivity|].
  cbn [flat_map map]. rewrite map_app, join_app, IH.
  cbn [join fold_right]. f_equal.
  unfold qwen2_5_tool_call, tool_call_text. cbn [map block_text join fold_right].
  rewrite ?append_nil_r, ?append_assoc. reflexivity.
Qed.

(** X1 (QWEN3_TEMPLATE, generation regions).  The spans of a render cut out,
    in order, exactly the assistant turns: one span per assistant message,
    holding the whole turn from '<|im_start|>assistant\n' to '<|im_end|>\n'
    (head, tool calls, end-of-turn marker).  They lie where the turns lie:
    the output is the header, the text of every message in order and the
    generation prompt, and the spans are the ranges that the texts of the
    assistant messages take up in it, so no text of any other message, of the
    header or of the generation prompt lies in a span. *)
Theorem qwen3_spans_are_assistant_turns (ctx : Context) (out : string)
    (spans : list Span) :
  render (QWEN3_TEMPLATE tojson ctx) = Ok (out, spans) ->
  span_texts out spans = qwen3_targets tojson (messages ctx)
  /\ List.length spans = List.length (filter is_assistant (messages ctx))
  /\ (forall t, In t (span_texts out spans) ->
       startswith t (im_start ++ "assistant" ++ nl) = true
       /\ endswith t (im_end ++ nl) = true)
  /\ exists h,
       qwen3_header tojson ctx = Ok h
       /\ out = pieces_text (qwen3_layout tojson ctx h)
       /\ spans = piece_spans 0 (qwen3_layout tojson ctx h).
Proof.
  intros H. destruct (render_span_texts _ _ _ H) as [bs [Hbs Ht]].
  rewrite (qwen3_generation_texts tojson ctx bs Hbs) in Ht.
  split; [assumption | split; [|split]].
  - rewrite <- span_texts_length with (out := out), Ht.
    unfold qwen3_targets. rewrite length_map, filter_snd_length, iterations_snd.
    reflexivity.
  - intros t Hin. rewrite Ht in Hin. unfold qwen3_targets in Hin.
    apply in_map_iff in Hin. destruct Hin as [it [<- Hit]].
    apply filter_In in Hit. now apply qwen3_turn_text_shape.
  - destruct (qwen3_layout_ok tojson ctx bs Hbs) as [h [Hh Hl]].
    exists h. split; [exact Hh|]. exact (render_layout _ _ _ _ _ H Hbs Hl).
Qed.

(** X2 (QWEN2_5_TEMPLATE and siblings, generation regions).  The spans of a
    render cut out, in order, the bodies of the assistant turns: for a turn
    without tool calls its content followed by '<|im_end|>\n'; for a turn with
    tool calls the content after a newline (when not empty), each tool call as
    '\n<tool_call>\n{"name": "NAME", "arguments": ARGS}\n</tool_call>' with
    ARGS always serialized by [tojson], and '<|im_end|>\n'.  An assistant turn
    is its role header followed by exactly these regions.  The spans lie where
    the regions lie: the output is the header, every message in order and
    the generation prompt, an assistant message being its role header
    followed by its regions, and the spans are the ranges that the regions
    take up in it; so the role header of a turn is in no span, the rest of
    the turn is, and nothing else is. *)
Theorem qwen2_5_spans_are_assistant_bodies (T : Context -> result (list block))
    (ctx : Context) (out : string) (spans : list Span) :
  In T (qwen2_5_templates tojson) ->
  render (T ctx) = Ok (out, spans) ->
  span_texts out spans = qwen2_5_targets tojson (messages ctx)
  /\ (forall i m, nth_error (messages ctx) i = Some m -> role m = "assistant" ->
       text_of (emitted (qwen2_5_message tojson (messages ctx)
                           (mk_loop (List.length (messages ctx)) i) m))
       = (im_start ++ "assistant"
          ++ (if nonempty (tool_calls m) then EmptyString else nl))
         ++ join (qwen2_5_targets_of tojson m))
  /\ exists d h,
       T = qwen2_5 tojson d
       /\ qwen2_5_header tojson d ctx = Ok h
       /\ out = pieces_text (qwen2_5_layout tojson ctx h)
       /\ spans = piece_spans 0 (qwen2_5_layout tojson ctx h).
Proof.
  intros HT H. destruct (qwen2_5_templates_inv T HT) as [d ->].
  destruct (render_span_texts _ _ _ H) as [bs [Hbs Ht]].
  rewrite (qwen2_5_generation_texts tojson d ctx bs Hbs) in Ht.
  split; [assumption|].
  split.
  2: { destruct (qwen2_5_layout_ok tojson d ctx bs Hbs) as [h [Hh Hl]].
       exists d, h. split; [reflexivity|]. split; [exact Hh|].
       exact (render_layout _ _ _ _ _ H Hbs Hl). }
  intros i m Hi Hr.
  unfold qwen2_5_message, qwen2_5_targets_of. rewrite Hr. decide_role "assistant".
  cbn [orb andb].
  destruct (nonempty (tool_calls m)); cbn [negb orb emitted].
  - unfold text_of. rewrite !map_app, !join_app.
    cbn [map block_text join fold_right].
    rewrite qwen2_5_tool_calls_text.
    assert (Hc : join (map block_text
                         (if truthy (content m)
                          then [Generation [(nl ++ content m)%string]] else []))
                 = join (if truthy (content m) then [(nl ++ content m)%string] else [])).
    { destruct (truthy (content m)); cbn; now rewrite ?append_nil_r. }
    rewrite Hc, !append_nil_r, !append_assoc. reflexivity.
  - unfold text_of. cbn [map block_text join fold_right].
    rewrite !append_nil_r, !append_assoc. reflexivity.
Qed.

(** X3 (all Jinja templates of [qwen.py], no assistant turn).  A render has
    no generation span exactly when the conversation holds no assistant
    message: user, system and tool turns, the header and the generation prompt
    never produce one, and every assistant turn produces at least one. *)
Theorem no_span_iff_no_assistant (T : Context -> result (list block))
    (ctx : Context) (out : string) (spans : list Span) :
  In T (jinja_templates tojson) ->
  render (T ctx) = Ok (out, spans) ->
  (spans = [] <-> forall m, In m (messages ctx) -> role m <> "assistant").
Proof.
  intros HT H. destruct (render_span_texts _ _ _ H) as [bs [Hbs Ht]].
  rewrite <- no_assistant_iff.
  assert (Hs : spans = [] <-> span_texts out spans = []).
  { rewrite <- !length_zero_iff_nil, span_texts_length. reflexivity. }
  rewrite Hs, Ht. clear Hs Ht H.
  assert (H25 : forall d, qwen2_5 tojson d ctx = Ok bs ->
            (generation_texts bs = [] <-> filter is_assistant (messages ctx) = [])).
  { intros d Hd. rewrite (qwen2_5_generation_texts tojson d ctx bs Hd).
    unfold qwen2_5_targets. split.
    - intros E. destruct (filter is_assistant (messages ctx)) as [|m l]; [reflexivity|].
      simpl in E. apply app_eq_nil in E. destruct E as [E _].
      now apply qwen2_5_targets_of_nonempty in E.
    - intros ->. reflexivity. }
  simpl in HT. destruct HT as [<- | [<- | [<- | [<- | [<- | []]]]]];
    try (eapply H25; exact Hbs).
  rewrite (qwen3_generation_texts tojson ctx bs Hbs). unfold qwen3_targets.
  rewrite <- filter_iterations_nil. split.
  - intros E. now apply map_eq_nil in E.
  - intros ->. reflexivity.
Qed.

End TargetTheorems.

Lemma qwen3_spans_are_assistant_turns_witness :
  exists out spans,
    render (QWEN3_TEMPLATE sample_tojson (sample_context sample_tool_conversation))
    = Ok (out, spans)
    /\ span_texts out spans
       = qwen3_targets sample_tojson sample_tool_conversation
    /\ List.length spans = 2
    /\ spans = [(29, 180); (279, 335)]
    /\ exists h,
         spans = piece_spans 0
                   (qwen3_layout sample_tojson
                      (sample_context sample_tool_conversation) h).
Proof.
  eexists _, _. split; [vm_compute; reflexivity|].
  match goal with |- span_texts ?o ?s = _ /\ _ =>
    pose proof (qwen3_spans_are_assistant_turns sample_tojson
                  (sample_context sample_tool_conversation) o s) as H
  end.
  destruct H as [H1 [H2 [_ [h [_ [_ H4]]]]]]; [vm_compute; reflexivity|].
  split; [exact H1|]. split; [reflexivity|]. split; [reflexivity|].
  exists h. exact H4.
Defined.

Lemma qwen2_5_spans_are_assistant_bodies_witness :
  exists out spans,
    render (QWEN2_5_TEMPLATE sample_tojson (sample_context sample_tool_conversation))
    = Ok (out, spans)
    /\ span_texts out spans
       = [nl ++ tool_call_text "search" (dq ++ "{}" ++ dq);
          nl ++ tool_call_text "add" "{}";
          im_end ++ nl;
          "done" ++ im_end ++ nl]
    /\ spans = [(148, 211); (211, 269); (269, 280); (401, 416)]
    /\ exists h,
         spans = piece_spans 0
                   (qwen2_5_layout sample_tojson
                      (sample_context sample_tool_conversation) h).
Proof.
  eexists _, _. split; [vm_compute; reflexivity|].
  match goal with |- span_texts ?o ?s = _ /\ _ =>
    pose proof (qwen2_5_spans_are_assistant_bodies sample_tojson
                  (QWEN2_5_TEMPLATE sample_tojson)
                  (sample_context sample_tool_conversation) o s) as H
  end.
  destruct H as [H1 [_ [d [h [_ [_ [_ H4]]]]]]];
    [left; reflexivity | vm_compute; reflexivity |].
  split; [exact H1|]. split; [reflexivity|].
  exists h. exact H4.
Defined.

Lemma no_span_iff_no_assistant_witness :
  let ctx := sample_context [sample_message "system" "s"; sample_message "user" "q";
                             sample_message "tool" "r"] in
  exists out,
    render (QWEN3_TEMPLATE sample_tojson ctx) = Ok (out, [])
    /\ forall m, In m (messages ctx) -> role m <> "assistant".
Proof.
  intros ctx. eexists. split; [vm_compute; reflexivity|].
  eapply (proj1 (no_span_iff_no_assistant sample_tojson
                   (QWEN3_TEMPLATE sample_tojson) ctx _ []
                   ltac:(simpl; do 4 right; left; reflexivity)
                   ltac:(vm_compute; reflexivity))).
  reflexivity.
Defined.

(** ** Index lookups *)

(** X4 (all Jinja templates of [qwen.py], index lookups).  Over the
    conversations of the model, whose messages all carry a role and a content
    that are strings, the only lookup that can fail is [messages[0]] in the
    header: a render raises exactly when the message list is empty.  On a
    non-empty list it succeeds whatever the roles, tools and flags are, since
    the lookups [messages[loop.index0 - 1]] and [messages[loop.index0 + 1]]
    of a tool message are guarded and never leave the list.  A content that
    is [None] or missing, on which the templates raise elsewhere, is outside
    [Message] and outside this statement. *)
Theorem render_raises_iff_empty (tojson : json -> string)
    (T : Context -> result (list block)) (ctx : Context) :
  In T (jinja_templates tojson) ->
  (messages ctx = [] -> render (T ctx) = Err UndefinedError)
  /\ (messages ctx <> [] -> exists out spans, render (T ctx) = Ok (out, spans))
  /\ (render (T ctx) = Err UndefinedError <-> messages ctx = []).
Proof.
  intros HT.
  assert (Hempty : messages ctx = [] -> render (T ctx) = Err UndefinedError).
  { intros E. simpl in HT.
    destruct HT as [<- | [<- | [<- | [<- | [<- | []]]]]];
      try (unfold QWEN2_5_TEMPLATE, QWEN2_5_1M_TEMPLATE, QWEN2_5_MATH_TEMPLATE,
             QWEN_QWQ_TEMPLATE, qwen2_5, qwen2_5_header; rewrite E;
           destruct (nonempty _); reflexivity).
    rewrite QWEN3_TEMPLATE_eq. unfold qwen3_blocks, qwen3_header. rewrite E.
    destruct (nonempty _); reflexivity. }
  assert (Hok : messages ctx <> [] -> exists out spans, render (T ctx) = Ok (out, spans)).
  { intros Hne. destruct (jinja_templates_total tojson T ctx HT Hne) as [bs ->].
    exists (fst (render_blocks bs)), (snd (render_blocks bs)). cbn [render bind].
    now destruct (render_blocks bs). }
  split; [assumption | split; [assumption|]].
  split; [|assumption].
  intros Herr. destruct (messages ctx) as [|m ms] eqn:E; [reflexivity|].
  destruct Hok as [out [spans Hr]]; [discriminate|]. congruence.
Qed.

Lemma render_raises_iff_empty_witness :
  render (QWEN_QWQ_TEMPLATE sample_tojson (sample_context [])) = Err UndefinedError
  /\ exists out spans,
       render (QWEN_QWQ_TEMPLATE sample_tojson
                 (sample_context [sample_message "tool" "r"; sample_message "tool" "s"]))
       = Ok (out, spans).
Proof.
  assert (Hin : In (QWEN_QWQ_TEMPLATE sample_tojson) (jinja_templates sample_tojson)).
  { simpl. do 3 right. left. reflexivity. }
  split.
  - apply (proj1 (render_raises_iff_empty sample_tojson _ (sample_context []) Hin)).
    reflexivity.
  - apply (proj1 (proj2 (render_raises_iff_empty sample_tojson _
                           (sample_context [sample_message "tool" "r";
                                            sample_message "tool" "s"]) Hin))).
    discriminate.
Defined.

(** ** Appending a message *)

Section Extension.

Variable tojson : json -> string.

Lemma wrapper_opens_extend (msgs l : list Message) (i : nat) :
  i < List.length msgs -> wrapper_opens (msgs ++ l) i = wrapper_opens msgs i.
Proof.
  intros Hi. unfold wrapper_opens. now rewrite nth_error_app1 by lia.
Qed.

Lemma wrapper_closes_extend (msgs : list Message) (m : Message) (i : nat) :
  i < List.length msgs -> role m <> "tool" ->
  wrapper_closes (msgs ++ [m]) i = wrapper_closes msgs i.
Proof.
  intros Hi Hm. unfold wrapper_closes. rewrite length_app. cbn [List.length].
  destruct (Nat.eq_dec (S i) (List.length msgs)) as [E | E].
  - rewrite <- E, Nat.eqb_refl.
    replace (S i =? S i + 1)%nat with false by (symmetry; apply Nat.eqb_neq; lia).
    rewrite nth_error_app2 by lia.
    replace (i + 1 - List.length msgs) with 0 by lia.
    cbn [nth_error has_role]. apply String.eqb_neq in Hm. now rewrite Hm.
  - replace (S i =? List.length msgs)%nat with false by (symmetry; now apply Nat.eqb_neq).
    replace (S i =? List.length msgs + 1)%nat with false
      by (symmetry; apply Nat.eqb_neq; lia).
    now rewrite nth_error_app1 by lia.
Qed.

Lemma tool_blocks_extend (msgs : list Message) (m x : Message) (i : nat) :
  i < List.length msgs -> role m <> "tool" ->
  tool_blocks (msgs ++ [m]) i x = tool_blocks msgs i x.
Proof.
  intros Hi Hm. unfold tool_blocks.
  now rewrite wrapper_opens_extend, wrapper_closes_extend.
Qed.

Lemma length_snoc {A : Type} (l : list A) (x : A) :
  List.length (l ++ [x]) = S (List.length l).
Proof. rewrite length_app. simpl. lia. Qed.

(** The messages already there render as before. *)
Lemma qwen2_5_message_extend (msgs : list Message) (m x : Message) (i : nat) :
  nth_error msgs i = Some x -> role m <> "tool" ->
  qwen2_5_message tojson (msgs ++ [m]) (mk_loop (List.length (msgs ++ [m])) i) x
  = qwen2_5_message tojson msgs (mk_loop (List.length msgs) i) x.
Proof.
  intros Hi Hm.
  assert (Hlt : i < List.length msgs) by (apply nth_error_Some; congruence).
  assert (Hi' : nth_error (msgs ++ [m]) i = Some x) by now rewrite nth_error_app1.
  destruct (String.eqb (role x) "tool") eqn:Et.
  - apply String.eqb_eq in Et.
    rewrite (qwen2_5_tool_message _ _ _ Hi' Et), (qwen2_5_tool_message _ _ _ Hi Et).
    now rewrite tool_blocks_extend.
  - unfold qwen2_5_message. rewrite Et. reflexivity.
Qed.

Lemma flat_map_enumerate_ext {A B : Type} (f g : Loop -> A -> list B)
    (n n' : nat) (l : list A) :
  forall i,
  (forall k x, nth_error l k = Some x ->
     f (mk_loop n' (i + k)) x = g (mk_loop n (i + k)) x) ->
  flat_map (fun it => f (fst it) (snd it)) (enumerate_from n' i l)
  = flat_map (fun it => g (fst it) (snd it)) (enumerate_from n i l).
Proof.
  induction l as [|x l IH]; intros i H; [reflexivity|].
  cbn [enumerate_from flat_map fst snd]. f_equal.
  - specialize (H 0 x eq_refl). now rewrite Nat.add_0_r in H.
  - apply IH. intros k y Hk. specialize (H (S k) y Hk).
    now rewrite Nat.add_succ_r in H.
Qed.

Lemma item_head_extend {A : Type} (l l' : list A) :
  l <> [] -> item (l ++ l') 0 = item l 0.
Proof. destruct l; [congruence | reflexivity]. Qed.

Lemma qwen2_5_header_extend (d : string) (ctx : Context) (m : Message) :
  messages ctx <> [] ->
  qwen2_5_header tojson d (append_message m ctx) = qwen2_5_header tojson d ctx.
Proof.
  intros Hne. unfold qwen2_5_header, append_message, with_messages.
  cbn [tools messages]. now rewrite item_head_extend.
Qed.

(** Appending a message that is not a tool message to a conversation leaves
    what was rendered so far in place and adds the blocks of the new message. *)
Lemma qwen2_5_append (d : string) (ctx : Context) (m : Message) :
  messages ctx <> [] -> role m <> "tool" -> add_generation_prompt ctx = false ->
  exists bs bm,
    qwen2_5 tojson d ctx = Ok bs
    /\ qwen2_5_message tojson (messages ctx ++ [m])
         (mk_loop (S (List.length (messages ctx))) (List.length (messages ctx))) m
       = Ok bm
    /\ qwen2_5 tojson d (append_message m ctx) = Ok (bs ++ bm)%list.
Proof.
  intros Hne Hm Hagp. unfold qwen2_5.
  rewrite qwen2_5_header_extend by assumption.
  destruct (qwen2_5_header_ok tojson d ctx Hne) as [h [-> _]]. cbn [bind].
  unfold generation_prompt. cbn [append_message with_messages add_generation_prompt messages].
  rewrite Hagp.
  rewrite !for_each_ok by (intros k x; apply qwen2_5_message_total).
  cbn [bind]. rewrite !app_nil_r.
  assert (Hmi : nth_error (messages ctx ++ [m]) (List.length (messages ctx)) = Some m).
  { rewrite nth_error_app2 by lia. now rewrite Nat.sub_diag. }
  destruct (qwen2_5_message_total tojson _ _ _ Hmi) as [bm Hbm].
  rewrite length_snoc in Hbm.
  exists (h ++ flat_map
                 (fun it => emitted (qwen2_5_message tojson (messages ctx) (fst it) (snd it)))
                 (iterations (messages ctx)))%list, bm.
  split; [reflexivity | split; [exact Hbm|]].
  f_equal. rewrite <- app_assoc. f_equal.
  unfold iterations. rewrite enumerate_from_app, flat_map_app. f_equal.
  - apply (flat_map_enumerate_ext
             (fun lp x => emitted (qwen2_5_message tojson (messages ctx ++ [m]) lp x))
             (fun lp x => emitted (qwen2_5_message tojson (messages ctx) lp x))).
    intros k x Hk. cbn [Nat.add]. f_equal. now apply qwen2_5_message_extend.
  - cbn [enumerate_from flat_map fst snd Nat.add]. rewrite length_snoc, Hbm.
    cbn [emitted]. apply app_nil_r.
Qed.

End Extension.

Section Qwen2_5Growth.

Variable tojson : json -> string.

Lemma qwen2_5_with_prompt (d : string) (ctx : Context) (bs : list block) :
  qwen2_5 tojson d (with_generation_prompt false ctx) = Ok bs ->
  qwen2_5 tojson d (with_generation_prompt true ctx) = Ok (bs ++ [Out assistant_header])%list.
Proof.
  unfold qwen2_5, generation_prompt.
  change (qwen2_5_header tojson d (with_generation_prompt true ctx))
    with (qwen2_5_header tojson d (with_generation_prompt false ctx)).
  cbn [with_generation_prompt messages add_generation_prompt].
  destruct (qwen2_5_header tojson d _) as [h | e]; [|discriminate]. cbn [bind].
  destruct (for_each _ _) as [body | e]; [|discriminate]. cbn [bind].
  intros H. injection H as <-. now rewrite !app_nil_r, app_assoc.
Qed.

Lemma qwen2_5_plain_assistant (msgs : list Message) (lp : Loop) (a : Message) :
  role a = "assistant" -> tool_calls a = [] ->
  qwen2_5_message tojson msgs lp a
  = Ok [Out assistant_header; Generation [content a ++ im_end ++ nl]].
Proof.
  intros Ha Htc. unfold qwen2_5_message. rewrite Ha, Htc. reflexivity.
Qed.

Lemma render_snoc_out (bs : list block) (s : string) :
  render_blocks (bs ++ [Out s])
  = (fst (render_blocks bs) ++ s, snd (render_blocks bs)).
Proof.
  rewrite render_blocks_app.
  cbv [render_blocks empty_tracker].
  cbn [fold_left track rendered_blocks generation_indices app join fold_right
       map fst snd].
  now rewrite ?app_nil_r, ?append_nil_r.
Qed.

Lemma render_snoc_turn (bs : list block) (h t : string) :
  render_blocks (bs ++ [Out h; Generation [t]])
  = (fst (render_blocks bs) ++ h ++ t,
     (snd (render_blocks bs)
      ++ [(String.length (fst (render_blocks bs) ++ h),
           String.length (fst (render_blocks bs) ++ h) + String.length t)])%list).
Proof.
  change [Out h; Generation [t]] with ([Out h] ++ [Generation [t]])%list.
  rewrite app_assoc, render_blocks_app, render_snoc_out, render_blocks_generation.
  cbn [fst snd map join fold_right]. unfold shift. cbn [fst snd].
  now rewrite !append_nil_r, append_assoc, Nat.add_0_r.
Qed.

(** X5 (QWEN2_5_TEMPLATE and its siblings, growing a conversation).  When a
    message that is not a tool message is appended to a non-empty
    conversation, the render of the longer conversation is the render of the
    shorter one followed by the text of the new message: nothing rendered
    before changes, the spans recorded before stay, and the spans of the new
    message are its own spans moved by the length of the old output. *)
Theorem qwen2_5_render_extends (T : Context -> result (list block))
    (ctx : Context) (m : Message) :
  In T (qwen2_5_templates tojson) ->
  messages ctx <> [] -> role m <> "tool" -> add_generation_prompt ctx = false ->
  exists out spans bm,
    render (T ctx) = Ok (out, spans)
    /\ qwen2_5_message tojson (messages ctx ++ [m])
         (mk_loop (S (List.length (messages ctx))) (List.length (messages ctx))) m
       = Ok bm
    /\ render (T (append_message m ctx))
       = Ok (out ++ text_of bm,
             (spans ++ map (shift (String.length out)) (snd (render_blocks bm)))%list).
Proof.
  intros HT Hne Hm Hagp. destruct (qwen2_5_templates_inv tojson T HT) as [d ->].
  destruct (qwen2_5_append tojson d ctx m Hne Hm Hagp) as [bs [bm [E1 [E2 E3]]]].
  exists (fst (render_blocks bs)), (snd (render_blocks bs)), bm.
  rewrite E1, E3. cbn [render bind]. split; [|split; [exact E2|]].
  - now destruct (render_blocks bs).
  - rewrite render_blocks_app, (render_blocks_text bm). reflexivity.
Qed.

(** X6 (QWEN2_5_TEMPLATE and its siblings, prompt and completion).  The
    render of a conversation with the generation prompt, followed by the
    content of an assistant reply without tool calls and the end-of-turn
    marker, is the render of the conversation with that reply appended; the
    span added for the reply starts where the prompt ends and covers the
    reply and its end-of-turn marker, and the earlier spans are the same in
    the three renders. *)
Theorem qwen2_5_prompt_then_completion (T : Context -> result (list block))
    (ctx : Context) (a : Message) :
  In T (qwen2_5_templates tojson) ->
  messages ctx <> [] -> role a = "assistant" -> tool_calls a = [] ->
  exists out spans,
    render (T (with_generation_prompt false ctx)) = Ok (out, spans)
    /\ render (T (with_generation_prompt true ctx))
       = Ok (out ++ assistant_header, spans)
    /\ render (T (append_message a (with_generation_prompt false ctx)))
       = Ok ((out ++ assistant_header) ++ content a ++ im_end ++ nl,
             (spans ++ [(String.length (out ++ assistant_header),
                         String.length (out ++ assistant_header)
                         + String.length (content a ++ im_end ++ nl))])%list).
Proof.
  intros HT Hne Ha Htc. destruct (qwen2_5_templates_inv tojson T HT) as [d ->].
  assert (Hm : role a <> "tool") by (rewrite Ha; discriminate).
  destruct (qwen2_5_append tojson d (with_generation_prompt false ctx) a Hne Hm eq_refl)
    as [bs [bm [E1 [E2 E3]]]].
  exists (fst (render_blocks bs)), (snd (render_blocks bs)).
  rewrite (qwen2_5_with_prompt d ctx bs E1), E1, E3. cbn [render bind].
  split; [now destruct (render_blocks bs) | split].
  - now rewrite render_snoc_out.
  - rewrite (qwen2_5_plain_assistant _ _ a Ha Htc) in E2. injection E2 as <-.
    rewrite render_snoc_turn. now rewrite !append_assoc.
Qed.

End Qwen2_5Growth.

Lemma qwen2_5_render_extends_witness :
  exists out spans bm,
    render (QWEN2_5_MATH_TEMPLATE sample_tojson (sample_context sample_tool_conversation))
    = Ok (out, spans)
    /\ qwen2_5_message sample_tojson
         (sample_tool_conversation ++ [sample_message "user" "more"])
         (mk_loop 6 5) (sample_message "user" "more") = Ok bm
    /\ render (QWEN2_5_MATH_TEMPLATE sample_tojson
                 (append_message (sample_message "user" "more")
                    (sample_context sample_tool_conversation)))
       = Ok (out ++ text_of bm,
             (spans ++ map (shift (String.length out)) (snd (render_blocks bm)))%list).
Proof.
  apply (qwen2_5_render_extends sample_tojson (QWEN2_5_MATH_TEMPLATE sample_tojson)
           (sample_context sample_tool_conversation) (sample_message "user" "more")).
  - simpl. do 2 right. left. reflexivity.
  - discriminate.
  - discriminate.
  - reflexivity.
Defined.

Lemma qwen2_5_prompt_then_completion_witness :
  exists out spans,
    render (QWEN2_5_TEMPLATE sample_tojson
              (with_generation_prompt false (sample_context [sample_message "user" "q"])))
    = Ok (out, spans)
    /\ render (QWEN2_5_TEMPLATE sample_tojson
                 (with_generation_prompt true (sample_context [sample_message "user" "q"])))
       = Ok (out ++ assistant_header, spans)
    /\ render (QWEN2_5_TEMPLATE sample_tojson
                 (append_message (sample_message "assistant" "a")
                    (with_generation_prompt false
                       (sample_context [sample_message "user" "q"]))))
       = Ok ((out ++ assistant_header) ++ "a" ++ im_end ++ nl,
             (spans ++ [(String.length (out ++ assistant_header),
                         String.length (out ++ assistant_header)
                         + String.length ("a" ++ im_end ++ nl))])%list).
Proof.
  apply (qwen2_5_prompt_then_completion sample_tojson (QWEN2_5_TEMPLATE sample_tojson)
           (sample_context [sample_message "user" "q"]) (sample_message "assistant" "a")).
  - simpl. left. reflexivity.
  - discriminate.
  - reflexivity.
  - reflexivity.
Defined.

Section Qwen3Growth.

Variable tojson : json -> string.

Lemma qwen3_plain_head_before_query (v : Namespace) (lp : Loop) (x : Message) :
  (Z.of_nat (loop_index0 lp) <= last_query_index v)%Z ->
  qwen3_assistant_head v lp x
  = im_start ++ role x ++ nl ++ fst (qwen3_thinking x).
Proof.
  intros H. unfold qwen3_assistant_head.
  destruct (Z.gtb_spec (Z.of_nat (loop_index0 lp)) (last_query_index v)); [lia|].
  reflexivity.
Qed.

(** Up to the last query, the messages already there render as before. *)
Lemma qwen3_message_extend (v v' : Namespace) (msgs : list Message)
    (m x : Message) (i : nat) :
  nth_error msgs i = Some x -> role m <> "tool" ->
  (Z.of_nat i <= last_query_index v)%Z -> (Z.of_nat i <= last_query_index v')%Z ->
  qwen3_message tojson v' (msgs ++ [m]) (mk_loop (List.length (msgs ++ [m])) i) x
  = qwen3_message tojson v msgs (mk_loop (List.length msgs) i) x.
Proof.
  intros Hi Hm Hv Hv'.
  assert (Hlt : i < List.length msgs) by (apply nth_error_Some; congruence).
  assert (Hi' : nth_error (msgs ++ [m]) i = Some x) by now rewrite nth_error_app1.
  destruct (String.eqb (role x) "assistant") eqn:Ea.
  - apply String.eqb_eq in Ea. rewrite !qwen3_assistant_message by assumption.
    now rewrite !qwen3_plain_head_before_query by assumption.
  - destruct (String.eqb (role x) "tool") eqn:Et.
    + apply String.eqb_eq in Et.
      rewrite (qwen3_tool_message _ _ _ Hi' Et tojson),
        (qwen3_tool_message _ _ _ Hi Et tojson).
      now rewrite tool_blocks_extend.
    + unfold qwen3_message. rewrite Ea, Et. reflexivity.
Qed.

Lemma qwen3_header_extend (ctx : Context) (m : Message) :
  messages ctx <> [] ->
  qwen3_header tojson (append_message m ctx) = qwen3_header tojson ctx.
Proof.
  intros Hne. unfold qwen3_header, append_message, with_messages.
  cbn [tools messages]. now rewrite item_head_extend.
Qed.

Lemma last_query_at_end (pre : list Message) (u : Message) :
  true_user_query u -> last_query_at (pre ++ [u]) (List.length pre).
Proof.
  intros Hu. split.
  - exists u. split; [|assumption].
    rewrite nth_error_app2 by lia. now rewrite Nat.sub_diag.
  - intros j y Hj Hy.
    assert (j < List.length (pre ++ [u])) by (apply nth_error_Some; congruence).
    rewrite length_snoc in H. lia.
Qed.

Lemma last_query_at_before_reply (pre : list Message) (u a : Message) :
  true_user_query u -> role a <> "user" ->
  last_query_at ((pre ++ [u]) ++ [a]) (List.length pre).
Proof.
  intros Hu Ha. split.
  - exists u. split; [|assumption].
    rewrite nth_error_app1 by (rewrite length_snoc; lia).
    rewrite nth_error_app2 by lia. now rewrite Nat.sub_diag.
  - intros j y Hj Hy.
    assert (j < List.length ((pre ++ [u]) ++ [a])) by (apply nth_error_Some; congruence).
    rewrite !length_snoc in H.
    assert (j = S (List.length pre)) by lia. subst j.
    rewrite nth_error_app2 in Hy by (rewrite length_snoc; lia).
    rewrite length_snoc, Nat.sub_diag in Hy. injection Hy as <-.
    intros [Hr _]. contradiction.
Qed.

Lemma render_snoc_generation (bs : list block) (body : list string) :
  render_blocks (bs ++ [Generation body])
  = (fst (render_blocks bs) ++ join body,
     (snd (render_blocks bs)
      ++ [(String.length (fst (render_blocks bs)),
           String.length (fst (render_blocks bs)) + String.length (join body))])%list).
Proof.
  rewrite render_blocks_app, render_blocks_generation.
  cbn [fst snd map]. unfold shift. cbn [fst snd]. now rewrite Nat.add_0_r.
Qed.

Lemma qwen3_with_prompt (ctx : Context) (bs : list block) :
  QWEN3_TEMPLATE tojson (with_generation_prompt false ctx) = Ok bs ->
  QWEN3_TEMPLATE tojson (with_generation_prompt true ctx)
  = Ok (bs ++ [Out (qwen3_prompt_text ctx)])%list
  \/ QWEN3_TEMPLATE tojson (with_generation_prompt true ctx)
     = Ok (bs ++ [Out assistant_header; Out (empty_think ctx)])%list.
Proof.
  rewrite !QWEN3_TEMPLATE_eq. unfold qwen3_blocks.
  change (qwen3_header tojson (with_generation_prompt true ctx))
    with (qwen3_header tojson (with_generation_prompt false ctx)).
  unfold qwen3_generation_prompt.
  cbn [with_generation_prompt messages add_generation_prompt enable_thinking].
  destruct (qwen3_header tojson _) as [h | e]; [|discriminate]. cbn [bind].
  destruct (for_each _ _) as [body | e]; [|discriminate]. cbn [bind].
  intros H. injection H as <-. rewrite !app_nil_r.
  unfold qwen3_prompt_text, empty_think.
  destruct (enable_thinking ctx) as [[|]|].
  - left. now rewrite append_nil_r, app_assoc.
  - right. now rewrite app_assoc.
  - left. now rewrite append_nil_r, app_assoc.
Qed.

Lemma qwen3_render_with_prompt (ctx : Context) (bs : list block) :
  QWEN3_TEMPLATE tojson (with_generation_prompt false ctx) = Ok bs ->
  render (QWEN3_TEMPLATE tojson (with_generation_prompt true ctx))
  = Ok (fst (render_blocks bs) ++ qwen3_prompt_text ctx, snd (render_blocks bs)).
Proof.
  intros H. destruct (qwen3_with_prompt ctx bs H) as [-> | ->]; cbn [render bind].
  - now rewrite render_snoc_out.
  - change [Out assistant_header; Out (empty_think ctx)]
      with ([Out assistant_header] ++ [Out (empty_think ctx)])%list.
    rewrite app_assoc, !render_snoc_out. cbn [fst snd].
    unfold qwen3_prompt_text. now rewrite append_assoc.
Qed.

(** The reply to the last query, as the template renders it. *)
Lemma qwen3_reply_text (ctx : Context) (v : Namespace) (n : nat) (a : Message) :
  role a = "assistant" ->
  (Z.of_nat n > last_query_index v)%Z ->
  (enable_thinking ctx = Some false ->
   strip (snd (qwen3_thinking a)) nl = EmptyString) ->
  join (qwen3_assistant_head v (mk_loop (S n) n) a
        :: qwen3_tool_calls tojson a ++ [(im_end ++ nl)%string])%list
  = qwen3_prompt_text ctx ++ qwen3_completion tojson ctx a.
Proof.
  intros Ha Hn Hth. unfold qwen3_assistant_head.
  destruct (Z.gtb_spec (Z.of_nat (loop_index0 (mk_loop (S n) n))) (last_query_index v))
    as [_ | Hle]; [|cbn [mk_loop loop_index0] in Hle; lia].
  cbn [mk_loop loop_last]. rewrite Nat.eqb_refl. cbn [orb].
  cbn [join fold_right]. change (fold_right append EmptyString) with join.
  rewrite join_snoc, Ha.
  unfold qwen3_prompt_text, qwen3_completion, empty_think, assistant_header.
  destruct (enable_thinking ctx) as [[|]|] eqn:E.
  - now rewrite !append_nil_r, !append_assoc.
  - rewrite (Hth eq_refl). cbn [append]. now rewrite !append_assoc.
  - now rewrite !append_nil_r, !append_assoc.
Qed.

Lemma qwen3_append_reply (ctx : Context) (pre : list Message) (u a : Message) :
  messages ctx = (pre ++ [u])%list -> true_user_query u ->
  role a = "assistant" -> add_generation_prompt ctx = false ->
  exists bs,
    QWEN3_TEMPLATE tojson ctx = Ok bs
    /\ QWEN3_TEMPLATE tojson (append_message a ctx)
       = Ok (bs ++ [Generation
                      (qwen3_assistant_head
                         (qwen3_namespace (messages ctx ++ [a]))
                         (mk_loop (S (List.length (messages ctx)))
                            (List.length (messages ctx))) a
                       :: qwen3_tool_calls tojson a ++ [(im_end ++ nl)%string])])%list
    /\ last_query_index (qwen3_namespace (messages ctx ++ [a]))
       = (Z.of_nat (List.length (messages ctx)) - 1)%Z.
Proof.
  intros Hmsgs Hu Ha Hagp.
  assert (Hne : messages ctx <> []) by (rewrite Hmsgs; now destruct pre).
  assert (Hm : role a <> "tool") by (rewrite Ha; discriminate).
  assert (Hau : role a <> "user") by (rewrite Ha; discriminate).
  assert (Hq : last_query_index (qwen3_namespace (messages ctx))
               = Z.of_nat (List.length pre)).
  { rewrite Hmsgs. apply last_query_index_spec. now apply last_query_at_end. }
  assert (Hq' : last_query_index (qwen3_namespace (messages ctx ++ [a]))
                = Z.of_nat (List.length pre)).
  { rewrite Hmsgs. apply last_query_index_spec. now apply last_query_at_before_reply. }
  assert (Hlen : List.length (messages ctx) = S (List.length pre))
    by (rewrite Hmsgs; apply length_snoc).
  rewrite !QWEN3_TEMPLATE_eq. unfold qwen3_blocks.
  rewrite qwen3_header_extend by assumption.
  destruct (qwen3_header_ok tojson ctx Hne) as [h [-> _]]. cbn [bind].
  unfold qwen3_generation_prompt.
  cbn [append_message with_messages add_generation_prompt messages].
  rewrite Hagp.
  rewrite !for_each_ok by (intros k x; apply qwen3_message_total).
  cbn [bind]. rewrite !app_nil_r.
  eexists. split; [reflexivity|]. split; [|rewrite Hq', Hlen; lia].
  f_equal. rewrite <- app_assoc. f_equal.
  unfold iterations. rewrite enumerate_from_app, flat_map_app. f_equal.
  - apply (flat_map_enumerate_ext
             (fun lp x => emitted (qwen3_message tojson
                                     (qwen3_namespace (messages ctx ++ [a]))
                                     (messages ctx ++ [a]) lp x))
             (fun lp x => emitted (qwen3_message tojson
                                     (qwen3_namespace (messages ctx))
                                     (messages ctx) lp x))).
    intros k x Hk. cbn [Nat.add]. f_equal.
    assert (k < List.length (messages ctx)) by (apply nth_error_Some; congruence).
    apply qwen3_message_extend; try assumption; lia.
  - cbn [enumerate_from flat_map fst snd Nat.add]. rewrite length_snoc.
    rewrite qwen3_assistant_message by assumption. cbn [emitted]. apply app_nil_r.
Qed.

(** X7 (QWEN3_TEMPLATE, prompt and completion).  For a conversation that ends
    in a true user query, the render with the generation prompt, followed by
    the completion of an assistant reply (its think block unless thinking is
    switched off, its content without leading newlines, its tool calls and
    the end-of-turn marker), is the render of the conversation with that
    reply appended: no earlier message is rendered differently.  With
    thinking switched off this needs the reply to carry no reasoning.  Unlike
    in QWEN2_5_TEMPLATE, the span added for the reply starts before the
    assistant header, not after the prompt. *)
Theorem qwen3_prompt_then_completion (ctx : Context) (pre : list Message)
    (u a : Message) :
  messages ctx = (pre ++ [u])%list -> true_user_query u ->
  role a = "assistant" ->
  (enable_thinking ctx = Some false ->
   strip (snd (qwen3_thinking a)) nl = EmptyString) ->
  exists out spans,
    render (QWEN3_TEMPLATE tojson (with_generation_prompt false ctx)) = Ok (out, spans)
    /\ render (QWEN3_TEMPLATE tojson (with_generation_prompt true ctx))
       = Ok (out ++ qwen3_prompt_text ctx, spans)
    /\ render (QWEN3_TEMPLATE tojson
                 (append_message a (with_generation_prompt false ctx)))
       = Ok ((out ++ qwen3_prompt_text ctx) ++ qwen3_completion tojson ctx a,
             (spans ++ [(String.length out,
                         String.length out
                         + String.length (qwen3_prompt_text ctx
                                          ++ qwen3_completion tojson ctx a))])%list).
Proof.
  intros Hmsgs Hu Ha Hth.
  destruct (qwen3_append_reply (with_generation_prompt false ctx) pre u a
              Hmsgs Hu Ha eq_refl) as [bs [E1 [E2 E3]]].
  exists (fst (render_blocks bs)), (snd (render_blocks bs)).
  rewrite (qwen3_render_with_prompt ctx bs E1), E1, E2. cbn [render bind].
  split; [now destruct (render_blocks bs) | split; [reflexivity|]].
  rewrite render_snoc_generation.
  rewrite (qwen3_reply_text ctx) by
    (try assumption; rewrite E3; cbn [with_generation_prompt messages]; lia).
  now rewrite append_assoc.
Qed.

End Qwen3Growth.

Lemma qwen3_prompt_then_completion_witness :
  exists out spans,
    render (QWEN3_TEMPLATE sample_tojson
              (with_generation_prompt false
                 (sample_context [sample_message "user" "q"])))
    = Ok (out, spans)
    /\ render (QWEN3_TEMPLATE sample_tojson
                 (with_generation_prompt true
                    (sample_context [sample_message "user" "q"])))
       = Ok (out ++ qwen3_prompt_text (sample_context [sample_message "user" "q"]),
             spans)
    /\ render (QWEN3_TEMPLATE sample_tojson
                 (append_message (sample_message "assistant" "a")
                    (with_generation_prompt false
                       (sample_context [sample_message "user" "q"]))))
       = Ok ((out ++ qwen3_prompt_text (sample_context [sample_message "user" "q"]))
             ++ qwen3_completion sample_tojson
                  (sample_context [sample_message "user" "q"])
                  (sample_message "assistant" "a"),
             (spans ++ [(String.length out,
                         String.length out
                         + String.length
                             (qwen3_prompt_text (sample_context [sample_message "user" "q"])
                              ++ qwen3_completion sample_tojson
                                   (sample_context [sample_message "user" "q"])
                                   (sample_message "assistant" "a")))])%list).
Proof.
  apply (qwen3_prompt_then_completion sample_tojson
           (sample_context [sample_message "user" "q"]) []
           (sample_message "user" "q") (sample_message "assistant" "a")).
  - reflexivity.
  - split; [reflexivity|]. intros [[t Ht] _]. discriminate Ht.
  - reflexivity.
  - discriminate.
Defined.

(** ** The default system prompt *)

Section DefaultSystem.

Variable tojson : json -> string.

Lemma flat_map_enumerate_shift {A B : Type} (f g : Loop -> A -> list B)
    (n n' : nat) (l : list A) :
  forall i i',
  (forall k x, nth_error l k = Some x ->
     f (mk_loop n' (i' + k)) x = g (mk_loop n (i + k)) x) ->
  flat_map (fun it => f (fst it) (snd it)) (enumerate_from n' i' l)
  = flat_map (fun it => g (fst it) (snd it)) (enumerate_from n i l).
Proof.
  induction l as [|x l IH]; intros i i' H; [reflexivity|].
  cbn [enumerate_from flat_map fst snd]. f_equal.
  - specialize (H 0 x eq_refl). now rewrite !Nat.add_0_r in H.
  - apply IH. intros k y Hk. specialize (H (S k) y Hk).
    now rewrite !Nat.add_succ_r in H.
Qed.

Lemma tool_blocks_after_head (s : Message) (msgs : list Message) (k : nat)
    (x : Message) :
  role s <> "tool" ->
  tool_blocks (s :: msgs) (S k) x = tool_blocks msgs k x.
Proof.
  intros Hs. unfold tool_blocks, wrapper_opens, wrapper_closes.
  cbn [List.length nth_error Nat.eqb Nat.add Nat.sub orb].
  rewrite Nat.sub_0_r.
  destruct k as [|k].
  - cbn [nth_error has_role Nat.eqb orb]. apply String.eqb_neq in Hs.
    rewrite Hs. reflexivity.
  - cbn [nth_error Nat.eqb Nat.sub orb]. rewrite Nat.sub_0_r. reflexivity.
Qed.

(** After a leading system message the other messages render as they do
    without it, provided the first of them is not itself a system message. *)
Lemma qwen2_5_message_after_head (s : Message) (msgs : list Message) (k : nat)
    (x : Message) :
  nth_error msgs k = Some x -> role s <> "tool" ->
  (k = 0 -> role x <> "system") ->
  qwen2_5_message tojson (s :: msgs) (mk_loop (List.length (s :: msgs)) (S k)) x
  = qwen2_5_message tojson msgs (mk_loop (List.length msgs) k) x.
Proof.
  intros Hk Hs Hx.
  destruct (String.eqb (role x) "tool") eqn:Et.
  - apply String.eqb_eq in Et.
    rewrite (qwen2_5_tool_message (s :: msgs) (S k) x Hk Et),
      (qwen2_5_tool_message msgs k x Hk Et).
    now rewrite tool_blocks_after_head.
  - unfold qwen2_5_message. rewrite Et. cbn [mk_loop loop_first Nat.eqb negb].
    destruct k as [|k]; [|reflexivity].
    specialize (Hx eq_refl). apply String.eqb_neq in Hx. rewrite Hx.
    cbn [Nat.eqb negb andb]. reflexivity.
Qed.

Lemma qwen2_5_explicit_default (d : string) (ctx : Context) (s m0 : Message)
    (rest : list Message) :
  role s = "system" -> content s = d ->
  messages ctx = m0 :: rest -> role m0 <> "system" ->
  qwen2_5 tojson d (with_messages (s :: messages ctx) ctx) = qwen2_5 tojson d ctx.
Proof.
  intros Hs Hc Hmsgs Hm0.
  assert (Hst : role s <> "tool") by (rewrite Hs; discriminate).
  unfold qwen2_5.
  assert (Hh : qwen2_5_header tojson d (with_messages (s :: messages ctx) ctx)
               = qwen2_5_header tojson d ctx).
  { unfold qwen2_5_header, with_messages. cbn [tools messages]. rewrite Hmsgs.
    cbn [item nth_error bind]. rewrite Hs, Hc. apply String.eqb_neq in Hm0.
    rewrite Hm0. decide_role "system". reflexivity. }
  rewrite Hh. destruct (qwen2_5_header tojson d ctx) as [h | e]; [|reflexivity].
  cbn [bind]. unfold generation_prompt.
  cbn [with_messages messages add_generation_prompt].
  rewrite !for_each_ok by (intros k x; apply qwen2_5_message_total).
  cbn [bind]. do 3 f_equal.
  unfold iterations at 1. cbn [enumerate_from flat_map fst snd].
  assert (H0 : qwen2_5_message tojson (s :: messages ctx)
                 (mk_loop (List.length (s :: messages ctx)) 0) s = Ok []).
  { unfold qwen2_5_message. rewrite Hs. decide_role "system". reflexivity. }
  rewrite H0. cbn [emitted app]. unfold iterations.
  apply (flat_map_enumerate_shift
           (fun lp x => emitted (qwen2_5_message tojson (s :: messages ctx) lp x))
           (fun lp x => emitted (qwen2_5_message tojson (messages ctx) lp x))).
  intros k x Hk. cbn [Nat.add]. f_equal.
  apply qwen2_5_message_after_head; try assumption.
  intros ->. rewrite Hmsgs in Hk. injection Hk as <-. assumption.
Qed.

(** X8 (QWEN2_5_TEMPLATE and its siblings, default system prompt).  A
    conversation that does not start with a system message renders exactly
    as the same conversation with a system message put in front whose
    content is the template's default system prompt: output and spans are
    the same, with or without tools. *)
Theorem default_system_prompt_is_implicit (T : Context -> result (list block))
    (d : string) (ctx : Context) (s m0 : Message) (rest : list Message) :
  In (T, d) (qwen2_5_defaults tojson) ->
  role s = "system" -> content s = d ->
  messages ctx = m0 :: rest -> role m0 <> "system" ->
  render (T (with_messages (s :: messages ctx) ctx)) = render (T ctx).
Proof.
  intros HT Hs Hc Hmsgs Hm0. f_equal. simpl in HT.
  destruct HT as [E | [E | [E | [E | []]]]]; injection E as <- <-;
    now apply (qwen2_5_explicit_default _ ctx s m0 rest).
Qed.

End DefaultSystem.

Lemma default_system_prompt_is_implicit_witness :
  render (QWEN2_5_1M_TEMPLATE sample_tojson
            (with_messages
               (sample_message "system" "You are a helpful assistant."
                :: sample_tool_conversation)
               (sample_context sample_tool_conversation)))
  = render (QWEN2_5_1M_TEMPLATE sample_tojson (sample_context sample_tool_conversation)).
Proof.
  apply (default_system_prompt_is_implicit sample_tojson
           (QWEN2_5_1M_TEMPLATE sample_tojson) "You are a helpful assistant."
           (sample_context sample_tool_conversation)
           (sample_message "system" "You are a helpful assistant.")
           (sample_message "user" "q")
           [sample_tool_message; sample_message "tool" "r1";
            sample_message "tool" "r2"; sample_message "assistant" "done"]).
  - simpl. right. left. reflexivity.
  - reflexivity.
  - reflexivity.
  - reflexivity.
  - discriminate.
Defined.

(** ** Reading back an emitted think block *)

Section ThinkRoundTrip.

Import Py.

Lemma startswith_app_other (x : ascii) (b sep : string) :
  mem x sep = false ->
  forall a, startswith (a ++ String x b) sep = startswith a sep.
Proof.
  induction sep as [|h t IH]; intros Hx a.
  - now destruct a.
  - cbn [mem] in Hx. apply orb_false_iff in Hx. destruct Hx as [Hh Ht].
    destruct a as [|c a]; cbn [append startswith].
    + rewrite Hh. reflexivity.
    + now rewrite IH.
Qed.

(** A separator that does not hold the character [x] cannot lie across it. *)
Lemma contains_app_other (x : ascii) (a b sep : string) :
  mem x sep = false -> sep <> EmptyString ->
  contains (a ++ String x b) sep = contains a sep || contains b sep.
Proof.
  intros Hx Hne. induction a as [|c a IH].
  - pose proof (startswith_app_other x b sep Hx EmptyString) as H0.
    cbn [append] in H0. cbn [append]. cbn [contains]. rewrite H0.
    destruct sep; [congruence | reflexivity].
  - change (String c a ++ String x b) with (String c (a ++ String x b)).
    cbn [contains]. fold (contains (a ++ String x b) sep). fold (contains a sep).
    rewrite IH.
    change (String c (a ++ String x b)) with (String c a ++ String x b).
    rewrite startswith_app_other by assumption.
    now rewrite orb_assoc.
Qed.

Lemma rstrip_app (chars b : string) :
  forall a,
  rstrip (a ++ b) chars
  = match rstrip b chars with
    | EmptyString => rstrip a chars
    | String _ _ => a ++ rstrip b chars
    end.
Proof.
  induction a as [|c a IH].
  - cbn [append rstrip]. now destruct (rstrip b chars).
  - cbn [append rstrip]. rewrite IH.
    destruct (rstrip b chars) as [|d r]; [reflexivity|].
    destruct a; reflexivity.
Qed.

Lemma lstrip_idempotent (s chars : string) :
  lstrip (lstrip s chars) chars = lstrip s chars.
Proof.
  induction s as [|c s IH]; [reflexivity|].
  cbn [lstrip]. destruct (mem c chars) eqn:E; [assumption|].
  cbn [lstrip]. now rewrite E.
Qed.

Variables R C : string.

Hypothesis R_no_open : contains R "<think>" = false.
Hypothesis R_no_close : contains R "</think>" = false.
Hypothesis C_no_close : contains C "</think>" = false.
Hypothesis R_lstripped : lstrip R nl = R.
Hypothesis R_rstripped : rstrip R nl = R.
Hypothesis C_lstripped : lstrip C nl = C.

Lemma think_content_last :
  lstrip (last (split (think_content R C) "</think>")) nl = C.
Proof.
  unfold think_content.
  replace ("<think>" ++ nl ++ R ++ nl ++ "</think>" ++ nl ++ nl ++ C)
    with (("<think>" ++ nl ++ R ++ nl) ++ "</think>" ++ (nl ++ nl ++ C))
    by (now rewrite !append_assoc).
  rewrite split_last; [| reflexivity |].
  - exact C_lstripped.
  - change (nl ++ nl ++ C) with (EmptyString ++ String (ascii_of_nat 10) (nl ++ C)).
    rewrite contains_app_other by (reflexivity || discriminate).
    change (nl ++ C) with (EmptyString ++ String (ascii_of_nat 10) C).
    rewrite contains_app_other by (reflexivity || discriminate).
    now rewrite C_no_close.
Qed.

Lemma think_content_first :
  first (split (think_content R C) "</think>") = "<think>" ++ nl ++ R ++ nl.
Proof.
  unfold think_content.
  replace ("<think>" ++ nl ++ R ++ nl ++ "</think>" ++ nl ++ nl ++ C)
    with (("<think>" ++ nl ++ R ++ nl) ++ "</think>" ++ (nl ++ nl ++ C))
    by (now rewrite !append_assoc).
  apply split_first; [reflexivity|].
  change ("<think>" ++ nl ++ R ++ nl)
    with ("<think>" ++ String (ascii_of_nat 10) (R ++ nl)).
  rewrite contains_app_other by (reflexivity || discriminate).
  change (R ++ nl) with (R ++ String (ascii_of_nat 10) EmptyString).
  rewrite contains_app_other by (reflexivity || discriminate).
  now rewrite R_no_close.
Qed.

Lemma think_content_reasoning :
  lstrip (last (split (rstrip ("<think>" ++ nl ++ R ++ nl) nl) "<think>")) nl = R.
Proof.
  replace ("<think>" ++ nl ++ R ++ nl) with (("<think>" ++ nl ++ R) ++ nl)
    by (now rewrite !append_assoc).
  rewrite rstrip_app. change (rstrip nl nl) with EmptyString. cbv iota.
  replace ("<think>" ++ nl ++ R) with (("<think>" ++ nl) ++ R)
    by (now rewrite !append_assoc).
  rewrite rstrip_app, R_rstripped.
  destruct R as [|c r] eqn:ER.
  - reflexivity.
  - rewrite <- ER in *.
    replace (("<think>" ++ nl) ++ R) with (EmptyString ++ "<think>" ++ (nl ++ R))
      by (now rewrite ?append_assoc).
    rewrite split_last; [| reflexivity |].
    + change (nl ++ R) with (String (ascii_of_nat 10) R). cbn [lstrip mem].
      change (mem (ascii_of_nat 10) nl) with true. exact R_lstripped.
    + change (nl ++ R) with (EmptyString ++ String (ascii_of_nat 10) R).
      rewrite contains_app_other by (reflexivity || discriminate).
      now rewrite R_no_open.
Qed.

Lemma think_content_contains :
  contains (think_content R C) "</think>" = true.
Proof.
  apply contains_spec. exists ("<think>" ++ nl ++ R ++ nl), (nl ++ nl ++ C).
  unfold think_content. now rewrite !append_assoc.
Qed.

(** X9 (QWEN3_TEMPLATE, think block round trip).  Let an assistant message
    carry no [reasoning_content] and a content of the shape the template
    itself writes, '<think>\nR\n</think>\n\nC', where R holds neither think
    tag and has no newline at either end, and C holds no '</think>' and has
    no leading newline.  The template reads back exactly C as the content and
    R as the reasoning; rendered as the last message after the last query,
    the head of the turn is the assistant header followed by the content as
    it was given, so rendering such a turn reproduces it. *)
Theorem think_block_round_trip (m : Message) :
  (forall r, reasoning_content m <> Present r) ->
  content m = think_content R C ->
  qwen3_thinking m = (C, R)
  /\ forall v lp,
       role m = "assistant" -> loop_last lp = true ->
       (Z.of_nat (loop_index0 lp) > last_query_index v)%Z ->
       qwen3_assistant_head v lp m = assistant_header ++ content m.
Proof.
  intros Hnone Hc.
  assert (Hq : qwen3_thinking m = (C, R)).
  { unfold qwen3_thinking.
    destruct (reasoning_content m) as [| |r] eqn:E; [| |now elim (Hnone r)];
      rewrite Hc, think_content_contains, think_content_last, think_content_first,
        think_content_reasoning; reflexivity. }
  split; [exact Hq|].
  intros v lp Hr Hlast Hidx. unfold qwen3_assistant_head. rewrite Hq, Hlast, Hr.
  cbn [fst snd orb].
  destruct (Z.gtb_spec (Z.of_nat (loop_index0 lp)) (last_query_index v)); [|lia].
  unfold strip. rewrite R_rstripped, R_lstripped, C_lstripped, Hc.
  unfold think_content, assistant_header. now rewrite !append_assoc.
Qed.

End ThinkRoundTrip.

Lemma think_block_round_trip_witness :
  qwen3_thinking (sample_message "assistant" (think_content "plan" "answer"))
  = ("answer", "plan")
  /\ forall v lp,
       role (sample_message "assistant" (think_content "plan" "answer")) = "assistant" ->
       loop_last lp = true ->
       (Z.of_nat (loop_index0 lp) > last_query_index v)%Z ->
       qwen3_assistant_head v lp
         (sample_message "assistant" (think_content "plan" "answer"))
       = assistant_header
         ++ content (sample_message "assistant" (think_content "plan" "answer")).
Proof.
  apply (think_block_round_trip "plan" "answer"); try reflexivity.
  intros r. discriminate.
Defined.

(** ** Grouping texts *)

Section GroupTexts.

Import Finetuner.

Context {A : Type}.

Lemma getslice_nonneg (t : list A) (i j : nat) :
  i <= j ->
  getslice t (Z.of_nat i) (Z.of_nat j) = firstn (j - i) (skipn i t).
Proof.
  intros Hij. unfold getslice, clamp_index.
  destruct (Z.ltb_spec (Z.of_nat i) 0); [lia|].
  destruct (Z.ltb_spec (Z.of_nat j) 0); [lia|].
  destruct (le_lt_dec (List.length t) i) as [Hi | Hi].
  - rewrite (skipn_all2 t Hi).
    replace (Z.to_nat (Z.min (Z.of_nat i) (Z.of_nat (List.length t))))
      with (List.length t) by lia.
    rewrite skipn_all. now rewrite !firstn_nil.
  - replace (Z.to_nat (Z.min (Z.of_nat i) (Z.of_nat (List.length t)))) with i by lia.
    destruct (le_lt_dec (List.length t) j) as [Hj | Hj].
    + replace (Z.to_nat (Z.min (Z.of_nat j) (Z.of_nat (List.length t))
                         - Z.min (Z.of_nat i) (Z.of_nat (List.length t))))
        with (List.length t - i) by lia.
      rewrite !firstn_all2; try reflexivity; rewrite length_skipn; lia.
    + f_equal. lia.
Qed.

Lemma range_blocks (b n : nat) :
  0 < b ->
  range 0 (Z.of_nat n * Z.of_nat b) (Z.of_nat b)
  = map (fun j => Z.of_nat (j * b)) (seq 0 n).
Proof.
  intros Hb. unfold range, range_length.
  destruct (Z.gtb_spec (Z.of_nat b) 0); [|lia].
  assert (Hn : Z.to_nat (if (0 <? Z.of_nat n * Z.of_nat b)%Z
                         then ((Z.of_nat n * Z.of_nat b - 0 - 1) / Z.of_nat b + 1)%Z
                         else 0%Z) = n).
  { destruct (Z.ltb_spec 0 (Z.of_nat n * Z.of_nat b)) as [Hpos | Hzero].
    - assert (Hq : ((Z.of_nat n * Z.of_nat b - 0 - 1) / Z.of_nat b = Z.of_nat n - 1)%Z).
      { symmetry. apply (Z.div_unique_pos _ _ _ (Z.of_nat b - 1)); nia. }
      rewrite Hq. lia.
    - nia. }
  rewrite Hn. apply map_ext. intros j. lia.
Qed.

Lemma getslice_blocks (b n : nat) (t : list A) :
  0 < b ->
  map (fun i => getslice t i (i + Z.of_nat b))
    (range 0 (Z.of_nat n * Z.of_nat b) (Z.of_nat b))
  = blocks_of b n t.
Proof.
  intros Hb. rewrite range_blocks by assumption.
  unfold blocks_of. rewrite map_map. apply map_ext. intros j.
  rewrite <- Nat2Z.inj_add, getslice_nonneg by lia. f_equal. lia.
Qed.

Lemma group_texts_blocks (b : nat) (k0 : string) (e0 : list (list A))
    (rest : Batch A) :
  0 < b ->
  group_texts (Z.of_nat b) ((k0, e0) :: rest)
  = inr (map (fun kv =>
                (fst kv,
                 blocks_of b (List.length (chain e0) / b) (chain (snd kv))))
           ((k0, e0) :: rest)).
Proof.
  intros Hb. unfold group_texts. cbn [map fst snd].
  destruct (Z.eqb_spec (Z.of_nat b) 0); [lia|].
  rewrite <- Nat2Z.inj_div. f_equal. f_equal.
  - f_equal. now apply getslice_blocks.
  - rewrite map_map. apply map_ext. intros [k e]. cbn [fst snd]. f_equal.
    now apply getslice_blocks.
Qed.

Lemma firstn_add (a b : nat) (t : list A) :
  firstn (a + b) t = (firstn a t ++ firstn b (skipn a t))%list.
Proof.
  revert t. induction a as [|a IH]; intros t; [reflexivity|].
  destruct t as [|x t]; cbn [Nat.add firstn skipn app].
  - now rewrite firstn_nil.
  - now rewrite IH.
Qed.

Lemma blocks_of_concat (b n : nat) (t : list A) :
  List.concat (blocks_of b n t) = firstn (n * b) t.
Proof.
  unfold blocks_of. induction n as [|n IH]; [reflexivity|].
  rewrite seq_S, map_app, concat_app, IH. cbn [map List.concat Nat.add].
  rewrite app_nil_r. replace (S n * b) with (n * b + b) by lia.
  now rewrite firstn_add.
Qed.

Lemma blocks_of_length (b n : nat) (t : list A) :
  List.length (blocks_of b n t) = n.
Proof. unfold blocks_of. now rewrite length_map, length_seq. Qed.

Lemma blocks_of_bound (b n : nat) (t : list A) :
  Forall (fun c => List.length c <= b) (blocks_of b n t).
Proof.
  unfold blocks_of. apply Forall_forall. intros c Hc.
  apply in_map_iff in Hc. destruct Hc as [j [<- _]].
  rewrite length_firstn. lia.
Qed.

Lemma blocks_of_full (b n : nat) (t : list A) :
  n * b <= List.length t ->
  Forall (fun c => List.length c = b) (blocks_of b n t).
Proof.
  intros Hlen. unfold blocks_of. apply Forall_forall. intros c Hc.
  apply in_map_iff in Hc. destruct Hc as [j [<- Hj]]. apply in_seq in Hj.
  rewrite length_firstn, length_skipn. nia.
Qed.

(** X10 ([group_texts], positive block size).  For a positive block size and
    a non-empty batch the call succeeds and keeps the keys in order.  With n
    the length of the first key's concatenation divided by the block size,
    every key gets n blocks, which concatenate to the first n * block_size
    items of that key's concatenation, none longer than the block size, and
    all of exactly that size when the key's concatenation is long enough, as
    the first key's always is; of the first key fewer than block_size
    trailing items are dropped. *)
Theorem group_texts_cuts_blocks (b : nat) (k0 : string) (e0 : list (list A))
    (rest : Batch A) :
  0 < b ->
  let n := List.length (chain e0) / b in
  exists result,
    group_texts (Z.of_nat b) ((k0, e0) :: rest) = inr result
    /\ map fst result = map fst ((k0, e0) :: rest)
    /\ Forall2
         (fun ex res =>
            List.length (snd res) = n
            /\ List.concat (snd res) = firstn (n * b) (chain (snd ex))
            /\ Forall (fun c => List.length c <= b) (snd res)
            /\ (n * b <= List.length (chain (snd ex)) ->
                Forall (fun c => List.length c = b) (snd res)))
         ((k0, e0) :: rest) result
    /\ n * b <= List.length (chain e0) < n * b + b.
Proof.
  intros Hb n. eexists. split; [now apply group_texts_blocks|].
  split; [|split].
  - rewrite map_map. reflexivity.
  - generalize ((k0, e0) :: rest) as l. intros l.
    induction l as [|[k e] l IH]; cbn [map]; constructor; [|exact IH].
    cbn [fst snd]. fold n.
    split; [apply blocks_of_length|].
    split; [apply blocks_of_concat|].
    split; [apply blocks_of_bound | apply blocks_of_full].
  - subst n. pose proof (Nat.div_mod_eq (List.length (chain e0)) b).
    pose proof (Nat.mod_upper_bound (List.length (chain e0)) b). lia.
Qed.

Lemma group_texts_negative (bs : Z) (k0 : string) (e0 : list (list A))
    (rest : Batch A) :
  (bs < 0)%Z ->
  group_texts bs ((k0, e0) :: rest)
  = inr (map (fun kv => (fst kv, [])) ((k0, e0) :: rest)).
Proof.
  intros Hb. unfold group_texts. cbn [map fst snd].
  destruct (Z.eqb_spec bs 0); [lia|]. f_equal.
  assert (Hr : range 0 (Z.of_nat (List.length (chain e0)) / bs * bs) bs = []).
  { unfold range, range_length.
    destruct (Z.gtb_spec bs 0); [lia|].
    destruct (Z.ltb_spec bs 0); [|lia].
    pose proof (Z.div_mod (Z.of_nat (List.length (chain e0))) bs ltac:(lia)).
    pose proof (Z.mod_neg_bound (Z.of_nat (List.length (chain e0))) bs Hb).
    destruct (Z.ltb_spec (Z.of_nat (List.length (chain e0)) / bs * bs) 0); [lia|].
    reflexivity. }
  rewrite Hr.
  change ((k0, chain e0) :: map (fun kv => (fst kv, chain (snd kv))) rest)
    with (map (fun kv : string * list (list A) => (fst kv, chain (snd kv)))
            ((k0, e0) :: rest)).
  rewrite map_map. reflexivity.
Qed.

(** X11 ([group_texts], the other block sizes).  An empty batch raises
    IndexError whatever the block size is, since the first key is looked up
    before the division; a non-empty batch with block size 0 raises
    ZeroDivisionError; with a negative block size the call succeeds and every
    key gets no block at all.  So the call succeeds exactly on a non-empty
    batch with a block size other than 0. *)
Theorem group_texts_errors (bs : Z) (examples : Batch A) :
  (examples = [] -> group_texts bs examples = inl IndexError)
  /\ (examples <> [] -> bs = 0%Z -> group_texts bs examples = inl ZeroDivisionError)
  /\ (examples <> [] -> (bs < 0)%Z ->
      group_texts bs examples = inr (map (fun kv => (fst kv, [])) examples))
  /\ ((exists result, group_texts bs examples = inr result)
      <-> examples <> [] /\ bs <> 0%Z).
Proof.
  split; [now intros -> |].
  split.
  { intros Hne ->. destruct examples as [|[k0 e0] rest]; [congruence|]. reflexivity. }
  split.
  { intros Hne Hb. destruct examples as [|[k0 e0] rest]; [congruence|].
    now apply group_texts_negative. }
  split.
  - intros [result H]. destruct examples as [|[k0 e0] rest]; [discriminate|].
    split; [discriminate|]. intros ->. discriminate.
  - intros [Hne Hb]. destruct examples as [|[k0 e0] rest]; [congruence|].
    unfold group_texts. cbn [map fst snd].
    destruct (Z.eqb_spec bs 0); [congruence|]. eauto.
Qed.

(** X12 ([group_text], block size and model length).  The block size is
    min(model_max_length, 1024) when [data_args.block_size] is not given;
    a given block size is used as it is, except that one above
    [model_max_length] is replaced by [model_max_length] when
    [truncate_to_model_max_length] is set.  With a positive
    [model_max_length] and a given block size that is positive and, when
    truncation is off, not above [model_max_length], grouping a non-empty
    batch succeeds and no block is longer than [model_max_length]. *)
Theorem group_text_respects_model_length (data_block_size : option Z)
    (model_max_length : Z) (truncate : bool) (examples : Batch A) :
  (0 < model_max_length)%Z ->
  (forall b, data_block_size = Some b ->
     (0 < b)%Z /\ (truncate = false -> (b <= model_max_length)%Z)) ->
  examples <> [] ->
  (data_block_size = None ->
   block_size_of data_block_size model_max_length truncate
   = Z.min model_max_length 1024)
  /\ (forall b, data_block_size = Some b ->
      block_size_of data_block_size model_max_length truncate
      = Z.min b model_max_length)
  /\ exists result,
       group_text data_block_size model_max_length truncate examples = inr result
       /\ forall k blocks c,
            In (k, blocks) result -> In c blocks ->
            (Z.of_nat (List.length c) <= model_max_length)%Z.
Proof.
  intros Hm Hb Hne.
  assert (Hnone : data_block_size = None ->
                  block_size_of data_block_size model_max_length truncate
                  = Z.min model_max_length 1024).
  { intros ->. unfold block_size_of.
    destruct (Z.gtb_spec model_max_length 1024); lia. }
  assert (Hsome : forall b, data_block_size = Some b ->
                  block_size_of data_block_size model_max_length truncate
                  = Z.min b model_max_length).
  { intros b E. destruct (Hb b E) as [_ Ht]. subst. unfold block_size_of.
    destruct (Z.gtb_spec b model_max_length); [|lia].
    destruct truncate; [lia|]. specialize (Ht eq_refl). lia. }
  split; [exact Hnone | split; [exact Hsome|]].
  assert (Hbs : (0 < block_size_of data_block_size model_max_length truncate
                 <= model_max_length)%Z).
  { destruct data_block_size as [b|].
    - rewrite (Hsome b eq_refl). destruct (Hb b eq_refl). lia.
    - rewrite (Hnone eq_refl). lia. }
  unfold group_text.
  remember (block_size_of data_block_size model_max_length truncate) as bs.
  destruct examples as [|[k0 e0] rest]; [congruence|].
  replace bs with (Z.of_nat (Z.to_nat bs)) by lia.
  rewrite group_texts_blocks by lia.
  eexists. split; [reflexivity|].
  intros k blocks c Hin Hc. apply in_map_iff in Hin.
  destruct Hin as [[k' e'] [E _]]. injection E as <- <-.
  pose proof (blocks_of_bound (Z.to_nat bs)
                (List.length (chain e0) / Z.to_nat bs) (chain e')) as HF.
  rewrite Forall_forall in HF. specialize (HF c Hc). cbn beta in HF. lia.
Qed.

End GroupTexts.

Lemma group_texts_cuts_blocks_witness :
  exists result,
    Finetuner.group_texts 3%Z sample_batch = inr result
    /\ map fst result = ["input_ids"; "labels"]
    /\ map snd result = [[[1; 2; 3]; [4; 5; 6]]; [[1; 2; 3]; []]].
Proof.
  destruct (group_texts_cuts_blocks 3 "input_ids" [[1; 2; 3]; [4; 5]; [6; 7]]
              [("labels", [[1; 2]; [3]])] ltac:(lia)) as [result [E [K _]]].
  exists result. split; [exact E|]. split; [exact K|].
  vm_compute in E. injection E as <-. reflexivity.
Defined.

Lemma group_text_respects_model_length_witness :
  exists result,
    Finetuner.group_text (Some 4%Z) 3%Z true sample_batch = inr result
    /\ forall k blocks c,
         In (k, blocks) result -> In c blocks ->
         (Z.of_nat (List.length c) <= 3)%Z.
Proof.
  apply (group_text_respects_model_length (Some 4%Z) 3%Z true sample_batch).
  - lia.
  - intros b E. injection E as <-. split; [lia | discriminate].
  - discriminate.
Defined.

(** ** Where QWEN3_TEMPLATE and the Qwen2.5 templates agree *)

Section Agreement.

Variable tojson : json -> string.

Lemma text_of_app (a b : list block) : text_of (a ++ b) = text_of a ++ text_of b.
Proof. unfold text_of. now rewrite map_app, join_app. Qed.

Lemma text_of_flat_map_ext {X : Type} (f g : X -> list block) (l : list X) :
  (forall x, In x l -> text_of (f x) = text_of (g x)) ->
  text_of (flat_map f l) = text_of (flat_map g l).
Proof.
  induction l as [|x l IH]; intros H; [reflexivity|].
  cbn [flat_map]. rewrite !text_of_app, (H x (or_introl eq_refl)).
  f_equal. apply IH. intros y Hy. apply H. now right.
Qed.

Lemma qwen3_arguments_plain (f : FunctionCall) :
  (forall s, arguments f <> JStr s) -> qwen3_arguments tojson f = tojson (arguments f).
Proof.
  intros H. unfold qwen3_arguments.
  destruct (arguments f) eqn:E; try reflexivity. now elim (H s).
Qed.

Lemma qwen3_later_tool_calls_text (c : string) (n : nat) (tcs : list ToolCall) :
  (forall tc, In tc tcs -> forall s, arguments (function_of tc) <> JStr s) ->
  forall i,
  join (flat_map (fun it => qwen3_tool_call tojson c (fst it) (snd it))
          (enumerate_from n (S i) tcs))
  = join (map (fun tool_call =>
                 (nl ++ tool_call_text (name (function_of tool_call))
                          (tojson (arguments (function_of tool_call))))%string)
            tcs).
Proof.
  induction tcs as [|tc tcs IH]; intros H i; [reflexivity|].
  cbn [enumerate_from flat_map map fst snd]. rewrite join_app, IH
    by (intros tc' Hin; apply H; now right).
  cbn [join fold_right]. f_equal.
  rewrite tool_call_text_of. cbn [mk_loop loop_first Nat.eqb andb].
  now rewrite qwen3_arguments_plain by (apply H; now left).
Qed.

Lemma qwen3_tool_calls_join (m : Message) :
  (forall tc, In tc (tool_calls m) -> forall s, arguments (function_of tc) <> JStr s) ->
  join (qwen3_tool_calls tojson m)
  = match tool_calls m with
    | [] => EmptyString
    | tc :: rest =>
        (if truthy (fst (qwen3_thinking m)) then nl else EmptyString)
        ++ tool_call_text (name (function_of tc)) (tojson (arguments (function_of tc)))
        ++ join (map (fun tool_call =>
                        (nl ++ tool_call_text (name (function_of tool_call))
                                 (tojson (arguments (function_of tool_call))))%string)
                   rest)
    end.
Proof.
  intros H. rewrite qwen3_tool_calls_flat_map. unfold iterations.
  destruct (tool_calls m) as [|tc rest]; [reflexivity|].
  cbn [enumerate_from flat_map fst snd]. rewrite join_app.
  rewrite qwen3_later_tool_calls_text by (intros tc' Hin; apply H; now right).
  rewrite tool_call_text_of. cbn [mk_loop loop_first Nat.eqb andb].
  rewrite qwen3_arguments_plain by (apply H; now left).
  destruct (truthy (fst (qwen3_thinking m))); cbn [negb];
    now rewrite ?append_assoc.
Qed.

Lemma plain_assistant_content (m : Message) :
  plain_assistant m -> fst (qwen3_thinking m) = content m.
Proof.
  intros [[[r Hr] | Hc] _]; unfold qwen3_thinking.
  - now rewrite Hr.
  - rewrite Hc. now destruct (reasoning_content m).
Qed.

(** An assistant turn at or before the last query has the same text in both
    families. *)
Lemma assistant_text_agrees (v : Namespace) (msgs : list Message)
    (lp lp' : Loop) (m : Message) :
  role m = "assistant" -> plain_assistant m ->
  (Z.of_nat (loop_index0 lp) <= last_query_index v)%Z ->
  text_of (emitted (qwen3_message tojson v msgs lp m))
  = text_of (emitted (qwen2_5_message tojson msgs lp' m)).
Proof.
  intros Hr Hp Hidx.
  rewrite qwen3_assistant_message by assumption.
  rewrite qwen3_plain_head_before_query by assumption.
  cbn [emitted text_of map block_text join fold_right].
  rewrite append_nil_r.
  cbn [join fold_right]. change (fold_right append EmptyString) with join.
  rewrite join_snoc, qwen3_tool_calls_join by apply Hp.
  rewrite (plain_assistant_content m Hp).
  unfold qwen2_5_message. rewrite Hr. decide_role "assistant".
  cbn [orb andb].
  destruct (tool_calls m) as [|tc rest] eqn:Etc; cbn [nonempty negb emitted];
    unfold text_of.
  - cbn [map block_text join fold_right append].
    now rewrite !append_nil_r, !append_assoc.
  - rewrite !map_app, !join_app, qwen2_5_tool_calls_text.
    cbn [map block_text join fold_right].
    destruct (truthy (content m)) eqn:Et; cbn [map block_text join fold_right].
    + now rewrite !append_nil_r, !append_assoc.
    + destruct (content m); [|discriminate].
      cbn [append]. now rewrite !append_nil_r, !append_assoc.
Qed.

(** Every message of a conversation whose assistant turns are plain and lie
    at or before the last query has the same text in both families. *)
Lemma message_text_agrees (v : Namespace) (msgs : list Message) (i : nat)
    (m : Message) :
  nth_error msgs i = Some m ->
  (role m = "assistant" -> plain_assistant m) ->
  (Z.of_nat i <= last_query_index v)%Z ->
  text_of (emitted (qwen3_message tojson v msgs (mk_loop (List.length msgs) i) m))
  = text_of (emitted (qwen2_5_message tojson msgs (mk_loop (List.length msgs) i) m)).
Proof.
  intros Hi Hp Hidx.
  destruct (String.eqb (role m) "assistant") eqn:Ea.
  - apply String.eqb_eq in Ea. apply assistant_text_agrees; auto.
  - destruct (String.eqb (role m) "tool") eqn:Et.
    + apply String.eqb_eq in Et.
      now rewrite (qwen3_tool_message _ _ _ Hi Et tojson),
        (qwen2_5_tool_message _ _ _ Hi Et tojson).
    + unfold qwen3_message, qwen2_5_message. rewrite Ea, Et.
      rewrite andb_false_l, orb_false_r. reflexivity.
Qed.

Lemma header_text_agrees (d : string) (ctx : Context) (s : Message)
    (rest : list Message) :
  messages ctx = s :: rest -> role s = "system" ->
  exists h h',
    qwen3_header tojson ctx = Ok h /\ qwen2_5_header tojson d ctx = Ok h'
    /\ text_of h = text_of h'.
Proof.
  intros Hm Hs. unfold qwen3_header, qwen2_5_header. rewrite Hm.
  cbn [item nth_error bind]. rewrite Hs. decide_role "system".
  destruct (nonempty (tools_given (tools ctx))).
  - do 2 eexists. split; [reflexivity | split; [reflexivity|]].
    rewrite !text_of_app. cbn [text_of map block_text join fold_right].
    now rewrite !append_nil_r, !append_assoc.
  - do 2 eexists. split; [reflexivity | split; reflexivity].
Qed.

Lemma prompt_text_agrees (ctx : Context) :
  (add_generation_prompt ctx = true -> enable_thinking ctx <> Some false) ->
  text_of (qwen3_generation_prompt ctx) = text_of (generation_prompt ctx).
Proof.
  intros H. unfold qwen3_generation_prompt, generation_prompt.
  destruct (add_generation_prompt ctx); [|reflexivity].
  destruct (enable_thinking ctx) as [[|]|]; try reflexivity.
  now elim (H eq_refl).
Qed.

(** X13 (QWEN3_TEMPLATE against QWEN2_5_TEMPLATE and its siblings).  On a
    conversation that starts with a system message and ends with a true user
    query, whose assistant messages have a content that QWEN3_TEMPLATE uses
    as it is (a set [reasoning_content], or no '</think>' in the content) and
    tool-call arguments that are not strings, QWEN3_TEMPLATE and each of the
    four Qwen2.5 templates render the same output text, with or without
    tools, and with the generation prompt unless thinking is switched off.
    Only the spans may differ. *)
Theorem qwen3_agrees_with_qwen2_5 (T : Context -> result (list block))
    (ctx : Context) (s u : Message) (mid : list Message) :
  In T (qwen2_5_templates tojson) ->
  messages ctx = s :: (mid ++ [u])%list -> role s = "system" ->
  true_user_query u ->
  (forall m, In m (messages ctx) -> role m = "assistant" -> plain_assistant m) ->
  (add_generation_prompt ctx = true -> enable_thinking ctx <> Some false) ->
  exists out spans spans',
    render (QWEN3_TEMPLATE tojson ctx) = Ok (out, spans)
    /\ render (T ctx) = Ok (out, spans').
Proof.
  intros HT Hm Hs Hu Hplain Hprompt.
  destruct (qwen2_5_templates_inv tojson T HT) as [d ->].
  destruct (header_text_agrees d ctx s (mid ++ [u]) Hm Hs) as [h [h' [E3 [E2 Eh]]]].
  assert (Hq : last_query_index (qwen3_namespace (messages ctx))
               = Z.of_nat (List.length (s :: mid))).
  { rewrite Hm. change (s :: mid ++ [u])%list with ((s :: mid) ++ [u])%list.
    apply last_query_index_spec. now apply last_query_at_end. }
  assert (Hlen : List.length (messages ctx) = S (List.length (s :: mid))).
  { rewrite Hm. change (s :: mid ++ [u])%list with ((s :: mid) ++ [u])%list.
    apply length_snoc. }
  rewrite QWEN3_TEMPLATE_eq. unfold qwen3_blocks, qwen2_5.
  rewrite E3, E2. cbn [bind].
  rewrite !for_each_ok
    by (intros k x; (apply qwen3_message_total || apply qwen2_5_message_total)).
  cbn [bind render].
  match goal with
  | |- exists out spans spans',
         Ok (render_blocks ?b3) = _ /\ Ok (render_blocks ?b25) = _ =>
      exists (fst (render_blocks b3)), (snd (render_blocks b3)),
             (snd (render_blocks b25));
      assert (Ht : text_of b3 = text_of b25)
  end.
  2: { split; [now rewrite <- surjective_pairing|].
       rewrite render_blocks_text, Ht, <- render_blocks_text.
       now rewrite <- surjective_pairing. }
  rewrite !text_of_app, Eh, prompt_text_agrees by assumption.
  do 2 f_equal. apply text_of_flat_map_ext.
  intros it Hin. destruct (iterations_in _ _ Hin) as [k [Hk1 Hk2]].
  destruct it as [lp m]. cbn [fst snd] in *. subst lp.
  assert (k < List.length (messages ctx)) by (apply nth_error_Some; congruence).
  apply message_text_agrees; [assumption | | lia].
  intros Hr. apply Hplain; [|assumption]. eapply nth_error_In; eauto.
Qed.

End Agreement.

Lemma qwen3_agrees_with_qwen2_5_witness :
  exists out spans spans',
    render (QWEN3_TEMPLATE sample_tojson
              (sample_context
                 [sample_message "system" "s"; sample_message "user" "q";
                  sample_message "assistant" "a"; sample_message "tool" "r";
                  sample_message "user" "again"]))
    = Ok (out, spans)
    /\ render (QWEN_QWQ_TEMPLATE sample_tojson
                 (sample_context
                    [sample_message "system" "s"; sample_message "user" "q";
                     sample_message "assistant" "a"; sample_message "tool" "r";
                     sample_message "user" "again"]))
       = Ok (out, spans').
Proof.
  apply (qwen3_agrees_with_qwen2_5 sample_tojson (QWEN_QWQ_TEMPLATE sample_tojson)
           (sample_context
              [sample_message "system" "s"; sample_message "user" "q";
               sample_message "assistant" "a"; sample_message "tool" "r";
               sample_message "user" "again"])
           (sample_message "system" "s") (sample_message "user" "again")
           [sample_message "user" "q"; sample_message "assistant" "a";
            sample_message "tool" "r"]).
  - simpl. do 3 right. left. reflexivity.
  - reflexivity.
  - reflexivity.
  - split; [reflexivity|]. intros [[t Ht] _]. discriminate Ht.
  - intros m Hin Hr. simpl in Hin.
    destruct Hin as [<- | [<- | [<- | [<- | [<- | []]]]]]; try discriminate Hr.
    split; [right; reflexivity | intros tc []].
  - discriminate.
Defined.

(** ** Appending a tool message to a run of tool messages *)

Section ToolRunGrowth.

Variable tojson : json -> string.

Lemma wrapper_closes_inner (msgs l : list Message) (i : nat) :
  S i < List.length msgs ->
  wrapper_closes (msgs ++ l) i = wrapper_closes msgs i.
Proof.
  intros Hi. unfold wrapper_closes. rewrite length_app.
  replace (S i =? List.length msgs + List.length l)%nat with false
    by (symmetry; apply Nat.eqb_neq; lia).
  replace (S i =? List.length msgs)%nat with false
    by (symmetry; apply Nat.eqb_neq; lia).
  now rewrite nth_error_app1 by lia.
Qed.

Lemma qwen2_5_message_inner (msgs : list Message) (m x : Message) (i : nat) :
  nth_error msgs i = Some x -> S i < List.length msgs ->
  qwen2_5_message tojson (msgs ++ [m]) (mk_loop (List.length (msgs ++ [m])) i) x
  = qwen2_5_message tojson msgs (mk_loop (List.length msgs) i) x.
Proof.
  intros Hi Hlt.
  assert (Hi' : nth_error (msgs ++ [m]) i = Some x)
    by (rewrite nth_error_app1 by lia; assumption).
  destruct (String.eqb (role x) "tool") eqn:Et.
  - apply String.eqb_eq in Et.
    rewrite (qwen2_5_tool_message _ _ _ Hi' Et), (qwen2_5_tool_message _ _ _ Hi Et).
    unfold tool_blocks.
    now rewrite wrapper_opens_extend, wrapper_closes_inner by lia.
  - unfold qwen2_5_message. rewrite Et. reflexivity.
Qed.

Lemma qwen2_5_body_append_tool (pre : list Message) (t m : Message) :
  role t = "tool" -> role m = "tool" ->
  let body msgs :=
    flat_map (fun it => emitted (qwen2_5_message tojson msgs (fst it) (snd it)))
      (iterations msgs) in
  exists bs,
    body (pre ++ [t])%list = (bs ++ [wrapper_close])%list
    /\ body ((pre ++ [t]) ++ [m])%list
       = (bs ++ tool_response m ++ [wrapper_close])%list.
Proof.
  intros Ht Hm body. subst body. cbv beta.
  set (msgs := (pre ++ [t])%list).
  assert (Hlen : List.length msgs = S (List.length pre)) by apply length_snoc.
  assert (Ht1 : nth_error msgs (List.length pre) = Some t).
  { unfold msgs. rewrite nth_error_app2, Nat.sub_diag by lia. reflexivity. }
  assert (Ht2 : nth_error (msgs ++ [m]) (List.length pre) = Some t).
  { rewrite nth_error_app1 by lia. exact Ht1. }
  assert (Hm2 : nth_error (msgs ++ [m]) (S (List.length pre)) = Some m).
  { rewrite nth_error_app2 by lia. rewrite Hlen, Nat.sub_diag. reflexivity. }
  assert (Hc1 : wrapper_closes msgs (List.length pre) = true).
  { unfold wrapper_closes. rewrite Hlen, Nat.eqb_refl. reflexivity. }
  assert (Hc : wrapper_closes (msgs ++ [m]) (List.length pre) = false).
  { unfold wrapper_closes. rewrite length_snoc, Hlen.
    replace (S (List.length pre) =? S (S (List.length pre)))%nat with false
      by (symmetry; apply Nat.eqb_neq; lia).
    replace (List.length pre + 1) with (S (List.length pre)) by lia.
    rewrite Hm2. cbn [has_role]. rewrite Hm. reflexivity. }
  assert (Ho : wrapper_opens (msgs ++ [m]) (S (List.length pre)) = false).
  { unfold wrapper_opens. cbn [Nat.eqb Nat.sub orb]. rewrite Nat.sub_0_r, Ht2.
    cbn [has_role]. rewrite Ht. reflexivity. }
  assert (Hc2 : wrapper_closes (msgs ++ [m]) (S (List.length pre)) = true).
  { unfold wrapper_closes. rewrite length_snoc, Hlen, Nat.eqb_refl. reflexivity. }
  assert (Hbody :
            flat_map (fun it => emitted (qwen2_5_message tojson (msgs ++ [m])
                                           (fst it) (snd it)))
              (enumerate_from (List.length (msgs ++ [m])) 0 pre)
            = flat_map (fun it => emitted (qwen2_5_message tojson msgs
                                             (fst it) (snd it)))
                (enumerate_from (List.length msgs) 0 pre)).
  { apply (flat_map_enumerate_ext
             (fun lp x => emitted (qwen2_5_message tojson (msgs ++ [m]) lp x))
             (fun lp x => emitted (qwen2_5_message tojson msgs lp x))).
    intros k x Hk. cbn [Nat.add]. f_equal.
    assert (k < List.length pre) by (apply nth_error_Some; congruence).
    apply qwen2_5_message_inner; [|lia].
    unfold msgs. now rewrite nth_error_app1 by lia. }
  exists (flat_map (fun it => emitted (qwen2_5_message tojson msgs (fst it) (snd it)))
            (enumerate_from (List.length msgs) 0 pre)
          ++ (if wrapper_opens msgs (List.length pre) then [wrapper_open] else [])
          ++ tool_response t)%list.
  split.
  - unfold iterations. unfold msgs at 3.
    rewrite enumerate_from_app, flat_map_app, <- app_assoc. f_equal.
    cbn [enumerate_from flat_map fst snd Nat.add]. rewrite app_nil_r.
    rewrite (qwen2_5_tool_message _ _ _ Ht1 Ht). cbn [emitted]. unfold tool_blocks.
    rewrite Hc1. now rewrite <- !app_assoc.
  - unfold iterations. unfold msgs at 3.
    rewrite <- (app_assoc pre), !enumerate_from_app, !flat_map_app, Hbody.
    rewrite <- !app_assoc. f_equal.
    cbn [enumerate_from flat_map fst snd Nat.add app List.length].
    rewrite app_nil_r.
    rewrite (qwen2_5_tool_message _ _ _ Ht2 Ht).
    replace (List.length pre + 1) with (S (List.length pre)) by lia.
    rewrite (qwen2_5_tool_message _ _ _ Hm2 Hm).
    cbn [emitted]. unfold tool_blocks.
    rewrite wrapper_opens_extend by lia.
    rewrite Hc, Ho, Hc2. cbn [app]. now rewrite app_nil_r, <- !app_assoc.
Qed.

Lemma qwen2_5_append_tool (d : string) (ctx : Context) (pre : list Message)
    (t m : Message) :
  messages ctx = (pre ++ [t])%list -> role t = "tool" -> role m = "tool" ->
  add_generation_prompt ctx = false ->
  exists bs,
    qwen2_5 tojson d ctx = Ok (bs ++ [wrapper_close])%list
    /\ qwen2_5 tojson d (append_message m ctx)
       = Ok (bs ++ tool_response m ++ [wrapper_close])%list.
Proof.
  intros Hmsgs Ht Hm Hagp.
  assert (Hne : messages ctx <> []) by (rewrite Hmsgs; now destruct pre).
  unfold qwen2_5. rewrite qwen2_5_header_extend by assumption.
  destruct (qwen2_5_header_ok tojson d ctx Hne) as [h [-> _]]. cbn [bind].
  unfold generation_prompt.
  cbn [append_message with_messages add_generation_prompt messages].
  rewrite Hagp.
  rewrite !for_each_ok by (intros k x; apply qwen2_5_message_total).
  cbn [bind]. rewrite !app_nil_r, Hmsgs.
  destruct (qwen2_5_body_append_tool pre t m Ht Hm) as [bs [-> ->]].
  exists (h ++ bs)%list. now rewrite <- !app_assoc.
Qed.

(** X14 (QWEN2_5_TEMPLATE and its siblings, growing a run of tool messages).
    Appending a tool message to a conversation that ends in a tool message
    does not append to the output: the end-of-turn marker that closed the run
    of tool responses is taken back, the new tool response is written in its
    place, and the marker follows it.  The spans are unchanged. *)
Theorem tool_append_moves_the_closing_marker (T : Context -> result (list block))
    (ctx : Context) (pre : list Message) (t m : Message) :
  In T (qwen2_5_templates tojson) ->
  messages ctx = (pre ++ [t])%list -> role t = "tool" -> role m = "tool" ->
  add_generation_prompt ctx = false ->
  exists out spans,
    render (T ctx) = Ok (out ++ im_end ++ nl, spans)
    /\ render (T (append_message m ctx))
       = Ok (out ++ (nl ++ "<tool_response>" ++ nl ++ content m ++ nl
                     ++ "</tool_response>") ++ im_end ++ nl, spans).
Proof.
  intros HT Hmsgs Ht Hm Hagp.
  destruct (qwen2_5_templates_inv tojson T HT) as [d ->].
  destruct (qwen2_5_append_tool d ctx pre t m Hmsgs Ht Hm Hagp) as [bs [-> ->]].
  exists (fst (render_blocks bs)), (snd (render_blocks bs)).
  cbn [render bind]. split.
  - unfold wrapper_close. now rewrite render_snoc_out.
  - unfold wrapper_close, tool_response.
    change [Out (nl ++ "<tool_response>" ++ nl); Out (content m);
            Out (nl ++ "</tool_response>")]
      with ([Out (nl ++ "<tool_response>" ++ nl)] ++ [Out (content m)]
            ++ [Out (nl ++ "</tool_response>")])%list.
    rewrite !app_assoc, !render_snoc_out. cbn [fst snd].
    now rewrite !append_assoc.
Qed.

End ToolRunGrowth.

Lemma tool_append_moves_the_closing_marker_witness :
  exists out spans,
    render (QWEN2_5_TEMPLATE sample_tojson
              (sample_context [sample_message "user" "q"; sample_message "tool" "r1"]))
    = Ok (out ++ im_end ++ nl, spans)
    /\ render (QWEN2_5_TEMPLATE sample_tojson
                 (append_message (sample_message "tool" "r2")
                    (sample_context
                       [sample_message "user" "q"; sample_message "tool" "r1"])))
       = Ok (out ++ (nl ++ "<tool_response>" ++ nl ++ "r2" ++ nl ++ "</tool_response>")
             ++ im_end ++ nl, spans).
Proof.
  apply (tool_append_moves_the_closing_marker sample_tojson
           (QWEN2_5_TEMPLATE sample_tojson)
           (sample_context [sample_message "user" "q"; sample_message "tool" "r1"])
           [sample_message "user" "q"] (sample_message "tool" "r1")
           (sample_message "tool" "r2")).
  - simpl. left. reflexivity.
  - reflexivity.
  - reflexivity.
  - reflexivity.
  - reflexivity.
Defined.

(** ** Think blocks of earlier turns *)

Section HistoryThinking.

Variable tojson : json -> string.

Lemma wrapper_closes_extend_list (msgs l : list Message) (m : Message) (i : nat) :
  i < List.length msgs -> role m <> "tool" ->
  wrapper_closes (msgs ++ m :: l) i = wrapper_closes msgs i.
Proof.
  intros Hi Hm. unfold wrapper_closes. rewrite length_app. cbn [List.length].
  replace (S i =? List.length msgs + S (List.length l))%nat with false
    by (symmetry; apply Nat.eqb_neq; lia).
  destruct (Nat.eq_dec (S i) (List.length msgs)) as [E | E].
  - replace (S i =? List.length msgs)%nat with true
      by (symmetry; now apply Nat.eqb_eq).
    rewrite nth_error_app2 by lia.
    replace (i + 1 - List.length msgs) with 0 by lia.
    cbn [nth_error has_role]. apply String.eqb_neq in Hm. now rewrite Hm.
  - replace (S i =? List.length msgs)%nat with false by (symmetry; now apply Nat.eqb_neq).
    now rewrite nth_error_app1 by lia.
Qed.

Lemma qwen3_message_extend_list (v v' : Namespace) (msgs l : list Message)
    (m x : Message) (i : nat) :
  nth_error msgs i = Some x -> role m <> "tool" ->
  (Z.of_nat i <= last_query_index v)%Z -> (Z.of_nat i <= last_query_index v')%Z ->
  qwen3_message tojson v' (msgs ++ m :: l) (mk_loop (List.length (msgs ++ m :: l)) i) x
  = qwen3_message tojson v msgs (mk_loop (List.length msgs) i) x.
Proof.
  intros Hi Hm Hv Hv'.
  assert (Hlt : i < List.length msgs) by (apply nth_error_Some; congruence).
  assert (Hi' : nth_error (msgs ++ m :: l) i = Some x) by now rewrite nth_error_app1.
  destruct (String.eqb (role x) "assistant") eqn:Ea.
  - apply String.eqb_eq in Ea. rewrite !qwen3_assistant_message by assumption.
    now rewrite !qwen3_plain_head_before_query by assumption.
  - destruct (String.eqb (role x) "tool") eqn:Et.
    + apply String.eqb_eq in Et.
      rewrite (qwen3_tool_message _ _ _ Hi' Et tojson),
        (qwen3_tool_message _ _ _ Hi Et tojson).
      unfold tool_blocks.
      now rewrite wrapper_opens_extend, wrapper_closes_extend_list.
    + unfold qwen3_message. rewrite Ea, Et. reflexivity.
Qed.

Lemma qwen3_think_head_last (v : Namespace) (n : nat) (a : Message) :
  role a = "assistant" -> (Z.of_nat n > last_query_index v)%Z ->
  qwen3_assistant_head v (mk_loop (S n) n) a
  = think_head (snd (qwen3_thinking a)) (fst (qwen3_thinking a)).
Proof.
  intros Ha Hn. unfold qwen3_assistant_head, think_head.
  cbn [mk_loop loop_index0 loop_last]. rewrite Nat.eqb_refl, Ha. cbn [orb].
  destruct (Z.gtb_spec (Z.of_nat n) (last_query_index v)); [reflexivity | lia].
Qed.

Lemma qwen3_append_reply_and_query (ctx : Context) (pre : list Message)
    (u a u2 : Message) :
  messages ctx = (pre ++ [u])%list -> true_user_query u ->
  role a = "assistant" -> true_user_query u2 ->
  add_generation_prompt ctx = false ->
  exists bs,
    QWEN3_TEMPLATE tojson ctx = Ok bs
    /\ QWEN3_TEMPLATE tojson (append_message u2 (append_message a ctx))
       = Ok (bs
             ++ [Generation
                   (plain_head (fst (qwen3_thinking a))
                    :: qwen3_tool_calls tojson a ++ [(im_end ++ nl)%string])]
             ++ [Out (im_start ++ "user" ++ nl ++ content u2 ++ im_end ++ nl)])%list.
Proof.
  intros Hmsgs Hu Ha Hu2 Hagp.
  assert (Hne : messages ctx <> []) by (rewrite Hmsgs; now destruct pre).
  assert (Hm : role a <> "tool") by (rewrite Ha; discriminate).
  assert (Hlen : List.length (messages ctx) = S (List.length pre))
    by (rewrite Hmsgs; apply length_snoc).
  assert (Hq : last_query_index (qwen3_namespace (messages ctx))
               = Z.of_nat (List.length pre)).
  { rewrite Hmsgs. apply last_query_index_spec. now apply last_query_at_end. }
  assert (Hq' : last_query_index (qwen3_namespace ((messages ctx ++ [a]) ++ [u2]))
                = Z.of_nat (S (List.length (messages ctx)))).
  { rewrite <- (length_snoc (messages ctx) a).
    apply last_query_index_spec. now apply last_query_at_end. }
  rewrite !QWEN3_TEMPLATE_eq. unfold qwen3_blocks.
  assert (Hh : qwen3_header tojson (append_message u2 (append_message a ctx))
               = qwen3_header tojson ctx).
  { rewrite qwen3_header_extend, qwen3_header_extend; [reflexivity | assumption |].
    cbn [append_message with_messages messages]. now destruct (messages ctx). }
  rewrite Hh.
  destruct (qwen3_header_ok tojson ctx Hne) as [h [-> _]]. cbn [bind].
  unfold qwen3_generation_prompt.
  cbn [append_message with_messages add_generation_prompt messages].
  rewrite Hagp.
  rewrite !for_each_ok by (intros k x; apply qwen3_message_total).
  cbn [bind]. rewrite !app_nil_r.
  eexists. split; [reflexivity|].
  f_equal. rewrite <- !app_assoc. f_equal.
  set (msgs2 := (messages ctx ++ [a; u2])%list).
  assert (Hlen2 : List.length msgs2 = S (S (List.length (messages ctx)))).
  { unfold msgs2. rewrite length_app. cbn [List.length]. lia. }
  change (messages ctx ++ [a] ++ [u2])%list with msgs2.
  assert (Hit : iterations msgs2
                = (enumerate_from (List.length msgs2) 0 (messages ctx)
                   ++ [(mk_loop (List.length msgs2) (List.length (messages ctx)), a);
                       (mk_loop (List.length msgs2) (S (List.length (messages ctx))),
                        u2)])%list).
  { unfold iterations. unfold msgs2 at 2. rewrite enumerate_from_app.
    cbn [enumerate_from Nat.add]. reflexivity. }
  rewrite Hit, flat_map_app. unfold iterations. f_equal.
  - apply (flat_map_enumerate_ext
             (fun lp x => emitted (qwen3_message tojson (qwen3_namespace msgs2) msgs2 lp x))
             (fun lp x => emitted (qwen3_message tojson
                                     (qwen3_namespace (messages ctx))
                                     (messages ctx) lp x))).
    intros k x Hk. cbn [Nat.add]. f_equal.
    assert (k < List.length (messages ctx)) by (apply nth_error_Some; congruence).
    unfold msgs2. apply qwen3_message_extend_list; try assumption.
    + lia.
    + change (messages ctx ++ [a; u2])%list with (messages ctx ++ [a] ++ [u2])%list.
      rewrite app_assoc, Hq'. lia.
  - cbn [flat_map fst snd]. rewrite app_nil_r.
    rewrite qwen3_assistant_message by assumption. cbn [emitted].
    rewrite qwen3_plain_head_before_query.
    2: { cbn [mk_loop loop_index0]. unfold msgs2.
         change (messages ctx ++ [a; u2])%list with (messages ctx ++ [a] ++ [u2])%list.
         rewrite app_assoc, Hq'. lia. }
    rewrite Ha. unfold plain_head. cbn [app]. do 2 f_equal.
    unfold qwen3_message. destruct Hu2 as [Hr2 _]. rewrite Hr2.
    decide_role "user". reflexivity.
Qed.

(** X15 (QWEN3_TEMPLATE, think blocks of earlier turns).  Let a conversation
    end in a true user query.  With an assistant reply appended, the reply is
    rendered with its think block.  With a further true user query appended
    after the reply, the same reply is rendered without think block, as the
    assistant header and its visible content: what was rendered for the reply
    is rewritten, while everything before it stays.  In both renders the
    reply has one span, starting where the render of the conversation up to
    the first query ends. *)
Theorem qwen3_history_drops_think_block (ctx : Context) (pre : list Message)
    (u a u2 : Message) :
  messages ctx = (pre ++ [u])%list -> true_user_query u ->
  role a = "assistant" -> true_user_query u2 ->
  add_generation_prompt ctx = false ->
  let c := fst (qwen3_thinking a) in
  let r := snd (qwen3_thinking a) in
  let rest := join (qwen3_tool_calls tojson a) ++ im_end ++ nl in
  exists out spans,
    render (QWEN3_TEMPLATE tojson ctx) = Ok (out, spans)
    /\ render (QWEN3_TEMPLATE tojson (append_message a ctx))
       = Ok (out ++ think_head r c ++ rest,
             (spans ++ [(String.length out,
                         String.length out
                         + String.length (think_head r c ++ rest))])%list)
    /\ render (QWEN3_TEMPLATE tojson (append_message u2 (append_message a ctx)))
       = Ok ((out ++ plain_head c ++ rest)
             ++ im_start ++ "user" ++ nl ++ content u2 ++ im_end ++ nl,
             (spans ++ [(String.length out,
                         String.length out
                         + String.length (plain_head c ++ rest))])%list).
Proof.
  intros Hmsgs Hu Ha Hu2 Hagp c r rest.
  destruct (qwen3_append_reply tojson ctx pre u a Hmsgs Hu Ha Hagp)
    as [bs [E1 [E2 E3]]].
  destruct (qwen3_append_reply_and_query ctx pre u a u2 Hmsgs Hu Ha Hu2 Hagp)
    as [bs' [E1' E4]].
  assert (bs' = bs) by congruence. subst bs'.
  exists (fst (render_blocks bs)), (snd (render_blocks bs)).
  rewrite E1, E2, E4. cbn [render bind].
  split; [now destruct (render_blocks bs) | split].
  - rewrite render_snoc_generation.
    rewrite qwen3_think_head_last by (try assumption; rewrite E3; lia).
    cbn [join fold_right]. change (fold_right append EmptyString) with join.
    now rewrite join_snoc.
  - rewrite app_assoc, render_snoc_out, render_snoc_generation. cbn [fst snd].
    cbn [join fold_right]. change (fold_right append EmptyString) with join.
    now rewrite join_snoc.
Qed.

End HistoryThinking.

Lemma qwen3_history_drops_think_block_witness :
  exists out spans,
    render (QWEN3_TEMPLATE sample_tojson (sample_context [sample_message "user" "q"]))
    = Ok (out, spans)
    /\ render (QWEN3_TEMPLATE sample_tojson
                 (append_message
                    (sample_message "assistant" (think_content "plan" "answer"))
                    (sample_context [sample_message "user" "q"])))
       = Ok (out ++ think_head "plan" "answer" ++ im_end ++ nl,
             (spans ++ [(String.length out,
                         String.length out
                         + String.length (think_head "plan" "answer" ++ im_end ++ nl))])%list)
    /\ render (QWEN3_TEMPLATE sample_tojson
                 (append_message (sample_message "user" "next")
                    (append_message
                       (sample_message "assistant" (think_content "plan" "answer"))
                       (sample_context [sample_message "user" "q"]))))
       = Ok ((out ++ plain_head "answer" ++ im_end ++ nl)
             ++ im_start ++ "user" ++ nl ++ "next" ++ im_end ++ nl,
             (spans ++ [(String.length out,
                         String.length out
                         + String.length (plain_head "answer" ++ im_end ++ nl))])%list).
Proof.
  apply (qwen3_history_drops_think_block sample_tojson
           (sample_context [sample_message "user" "q"]) []
           (sample_message "user" "q")
           (sample_message "assistant" (think_content "plan" "answer"))
           (sample_message "user" "next")).
  - reflexivity.
  - split; [reflexivity|]. intros [[t Ht] _]. discriminate Ht.
  - reflexivity.
  - split; [reflexivity|]. intros [[t Ht] _]. discriminate Ht.
  - reflexivity.
Defined.
